(** * ai_trading_grid: the trend-monitoring core, embedded and verified

    The development follows the Python sources:
    - [src/trend_analyzer.py]  : rolling indicators, rule-based classifier,
      transition predicate;
    - [src/alternative_data.py]: fallback candle source and the failover
      wrapper [HybridDataSource];
    - [src/monitor.py]         : the scheduler ([TrendMonitor]).

    Numbers.  pandas columns are float64.  The indicator code is written once,
    over an arithmetic interface [Num]; it is instantiated with the kernel's
    IEEE-754 binary64 floats ([binary64]), which is what the program runs on,
    and with an exact arithmetic that keeps the IEEE special values
    ([exact]), used where a statement quantifies over all series and the
    argument is algebraic. *)

From Stdlib Require Import ZArith QArith Qcanon Floats Uint63 List Bool Lia String.
From stdpp Require Import gmap strings.
Import ListNotations.

#[local] Set Warnings "-inexact-float".

Local Open Scope nat_scope.
Local Open Scope list_scope.

(* ===================================================================== *)
(** * Arithmetic interface *)
(* ===================================================================== *)

(** The operations the sources apply to numbers: [+ - * /], unary minus,
    [abs], the comparison [<] ([a > b] is [b < a]), integer literals, and the
    missing-value marker pandas uses (NaN). *)
Class Num : Type := {
  num : Type;
  add : num -> num -> num;
  sub : num -> num -> num;
  mul : num -> num -> num;
  div : num -> num -> num;
  neg : num -> num;
  nabs : num -> num;
  ltb : num -> num -> bool;
  of_Z : Z -> num;
  nan : num
}.

(** [np.sqrt] and the square root inside [rolling(...).std()]. *)
Class Sqrt (N : Num) : Type := nsqrt : num -> num.

Declare Scope num_scope.
Delimit Scope num_scope with num.
Bind Scope num_scope with num.
Infix "+" := add : num_scope.
Infix "-" := sub : num_scope.
Infix "*" := mul : num_scope.
Infix "/" := div : num_scope.
Notation "- x" := (neg x) : num_scope.
Infix "<?" := ltb : num_scope.
Notation "x >? y" := (ltb y x) (only parsing) : num_scope.

Definition of_nat {N : Num} (n : nat) : num := of_Z (Z.of_nat n).

(** A decimal literal [n/d] such as [0.7 = 7/10].  In binary64 the division
    of two exactly representable integers is correctly rounded, so this is
    the double the Python literal denotes (checked below for the literals the
    program uses). *)
Definition dec {N : Num} (n : Z) (d : Z) : num := (of_Z n / of_Z d)%num.

(** ** binary64 *)

Definition float_of_Z (z : Z) : float :=
  match z with
  | Z0 => PrimFloat.zero
  | Zpos _ => PrimFloat.of_uint63 (Uint63.of_Z z)
  | Zneg p => PrimFloat.opp (PrimFloat.of_uint63 (Uint63.of_Z (Zpos p)))
  end.

#[export] Instance binary64 : Num := {|
  num := float;
  add := PrimFloat.add;
  sub := PrimFloat.sub;
  mul := PrimFloat.mul;
  div := PrimFloat.div;
  neg := PrimFloat.opp;
  nabs := PrimFloat.abs;
  ltb := PrimFloat.ltb;
  of_Z := float_of_Z;
  nan := PrimFloat.nan
|}.

#[export] Instance binary64_sqrt : Sqrt binary64 := PrimFloat.sqrt.

(** ** Exact arithmetic with the IEEE special values

    Finite values are canonical rationals and no operation rounds; the two
    zeros, the two infinities and NaN behave as IEEE-754 prescribes
    ([Fin 0] is [+0], [XNZero] is [-0]). *)
Inductive xnum : Type :=
  | Fin (q : Qc)
  | XNZero
  | XPInf
  | XNInf
  | XNaN.

Definition Qc_is0 (q : Qc) : bool := Qc_eq_bool q 0%Qc.
Definition Qc_neg (q : Qc) : bool :=
  match (q ?= 0)%Qc with Lt => true | _ => false end.

(** Sign bit ([true] = negative); NaN carries none that matters. *)
Definition xsign (x : xnum) : bool :=
  match x with
  | Fin q => Qc_neg q
  | XNZero | XNInf => true
  | XPInf | XNaN => false
  end.
Definition xzero (s : bool) : xnum := if s then XNZero else Fin 0%Qc.
Definition xinf (s : bool) : xnum := if s then XNInf else XPInf.
Definition xis0 (x : xnum) : bool :=
  match x with Fin q => Qc_is0 q | XNZero => true | _ => false end.

Definition xneg (x : xnum) : xnum :=
  match x with
  | Fin q => if Qc_is0 q then XNZero else Fin (- q)%Qc
  | XNZero => Fin 0%Qc
  | XPInf => XNInf
  | XNInf => XPInf
  | XNaN => XNaN
  end.

Definition xadd (x y : xnum) : xnum :=
  match x, y with
  | XNaN, _ | _, XNaN => XNaN
  | XPInf, XNInf | XNInf, XPInf => XNaN
  | XPInf, _ | _, XPInf => XPInf
  | XNInf, _ | _, XNInf => XNInf
  | XNZero, _ => y
  | _, XNZero => x
  | Fin a, Fin b => Fin (a + b)%Qc
  end.

Definition xsub (x y : xnum) : xnum := xadd x (xneg y).

Definition xmul (x y : xnum) : xnum :=
  let s := xorb (xsign x) (xsign y) in
  match x, y with
  | XNaN, _ | _, XNaN => XNaN
  | (XPInf | XNInf), _ => if xis0 y then XNaN else xinf s
  | _, (XPInf | XNInf) => if xis0 x then XNaN else xinf s
  | Fin a, Fin b => if Qc_is0 (a * b)%Qc then xzero s else Fin (a * b)%Qc
  | _, _ => xzero s
  end.

Definition xdiv (x y : xnum) : xnum :=
  let s := xorb (xsign x) (xsign y) in
  match x, y with
  | XNaN, _ | _, XNaN => XNaN
  | (XPInf | XNInf), (XPInf | XNInf) => XNaN
  | (XPInf | XNInf), _ => xinf s
  | _, (XPInf | XNInf) => xzero s
  | _, _ =>
      if xis0 y then (if xis0 x then XNaN else xinf s)
      else if xis0 x then xzero s
      else match x, y with
           | Fin a, Fin b => Fin (a / b)%Qc
           | _, _ => XNaN
           end
  end.

Definition xabs (x : xnum) : xnum :=
  match x with
  | Fin q => if Qc_neg q then Fin (- q)%Qc else Fin q
  | XNZero => Fin 0%Qc
  | XPInf | XNInf => XPInf
  | XNaN => XNaN
  end.

Definition Qc_ltb (a b : Qc) : bool :=
  match (a ?= b)%Qc with Lt => true | _ => false end.

Definition xltb (x y : xnum) : bool :=
  match x, y with
  | XNaN, _ | _, XNaN => false
  | _, XNInf => false
  | XNInf, _ => true
  | XPInf, _ => false
  | _, XPInf => true
  | Fin a, Fin b => Qc_ltb a b
  | Fin a, XNZero => Qc_ltb a 0%Qc
  | XNZero, Fin b => Qc_ltb 0%Qc b
  | XNZero, XNZero => false
  end.


#[export] Instance exact : Num := {|
  num := xnum;
  add := xadd;
  sub := xsub;
  mul := xmul;
  div := xdiv;
  neg := xneg;
  nabs := xabs;
  ltb := xltb;
  of_Z := fun z => Fin (Q2Qc (inject_Z z));
  nan := XNaN
|}.

(* ===================================================================== *)
(** * Python control flow: results and exceptions *)
(* ===================================================================== *)

Inductive exn : Type :=
  | IndexError       (* [.iloc] on an empty frame *)
  | ValueError       (* [ThreadPoolExecutor(max_workers=0)] *)
  | AttributeError   (* attribute access on [None] *)
  | RequestException (* a failed HTTP request *).

Inductive result (A : Type) : Type :=
  | Return (a : A)
  | Raise (e : exn).
Arguments Return {A} a.
Arguments Raise {A} e.

Definition bind {A B} (r : result A) (k : A -> result B) : result B :=
  match r with
  | Return a => k a
  | Raise e => Raise e
  end.

Notation "'let!' x ':=' r 'in' k" := (bind r (fun x => k))
  (at level 10, x name, r at level 100, k at level 200).

(* ===================================================================== *)
(** * The pandas operations the analyzer uses

    A column ([pd.Series]) is a list of numbers.  These are the documented
    semantics of the library calls; pandas' own evaluation order of the
    window sums is not part of this repository. *)
(* ===================================================================== *)

Module Pandas.
Section Columns.
Context {N : Num}.

Definition sum (xs : list num) : num := fold_left add xs (of_Z 0).

(** Mean of a window. *)
Definition mean (xs : list num) : num := (sum xs / of_nat (length xs))%num.

(** The [w] values ending at index [i]. *)
Definition window (w i : nat) (xs : list num) : list num :=
  firstn w (skipn (i + 1 - w) xs).

(** [s.rolling(window=w).agg()]: with the default [min_periods = w] the
    first [w - 1] positions are NaN. *)
Definition rolling (w : nat) (agg : list num -> num) (xs : list num) : list num :=
  map (fun i => if i + 1 <? w then nan else agg (window w i xs))
      (seq 0 (length xs)).

Definition rolling_mean (w : nat) : list num -> list num := rolling w mean.

(** [s.shift(1)] *)
Definition shift (xs : list num) : list num :=
  match xs with
  | [] => []
  | _ => nan :: removelast xs
  end.

(** [s.diff()] is [s - s.shift(1)]. *)
Definition diff (xs : list num) : list num := zip_with sub xs (shift xs).

(** [s.pct_change()] is [s / s.shift(1) - 1]. *)
Definition pct_change (xs : list num) : list num :=
  zip_with (fun x p => (x / p - of_Z 1)%num) xs (shift xs).

(** [s.where(cond, other)] with [cond] computed elementwise from [s]. *)
Definition where_ (cond : num -> bool) (other : num) (xs : list num) : list num :=
  map (fun x => if cond x then x else other) xs.

(** [df.tail(n)] for [n >= 0]. *)
Definition tail {A} (n : nat) (df : list A) : list A :=
  skipn (length df - n) df.

(** [df.iloc[-1]] and [df.iloc[0]]. *)
Definition iloc_last {A} (df : list A) : result A :=
  match last df with
  | Some r => Return r
  | None => Raise IndexError
  end.

Definition iloc_first {A} (df : list A) : result A :=
  match df with
  | r :: _ => Return r
  | [] => Raise IndexError
  end.

Context {S : Sqrt N}.

(** Sample standard deviation of a window ([ddof = 1]); NaN when the
    window holds at most one observation. *)
Definition std (xs : list num) : num :=
  if length xs <=? 1 then nan
  else
    let m := mean xs in
    nsqrt (sum (map (fun x => ((x - m) * (x - m))%num) xs)
           / of_nat (length xs - 1))%num.

Definition rolling_std (w : nat) : list num -> list num := rolling w std.
End Columns.
End Pandas.

(* ===================================================================== *)
(** * src/trend_analyzer.py *)
(* ===================================================================== *)

Inductive TrendType : Type := SIDEWAYS | UPTREND | DOWNTREND | UNKNOWN.

#[export] Instance TrendType_eq_dec : EqDecision TrendType.
Proof. solve_decision. Defined.

(** One OHLCV row as the data sources deliver it. *)
Record Candle {N : Num} : Type := mkCandle {
  open_time : Z;   (* the frame's index, in milliseconds *)
  open : num; high : num; low : num; close : num; volume : num
}.

(** The columns each [calculate_*] method adds, and a row of the analysed
    frame.  Column names live in [Col]; the analyzer's attributes
    ([self.bb_std], [self.ma_short], ...) live in [Self]. *)
Module Col.
Section Col.
Context {N : Num}.
Record Bollinger : Type := mkBollinger {
  bb_middle : num; bb_std : num; bb_upper : num; bb_lower : num;
  bb_width : num; bb_position : num
}.
Record MovingAverages : Type := mkMovingAverages {
  ma_short : num; ma_long : num; ma_diff_pct : num
}.
Record Volatility : Type := mkVolatility {
  returns : num; volatility : num; price_range_pct : num
}.
Record Row : Type := mkRow {
  candle : Candle;
  bb : Bollinger;
  rsi : num;
  ma : MovingAverages;
  vol : Volatility
}.
End Col.
End Col.

(** The [analysis] dictionary: either the single-entry reason or the latest
    row's seven indicator values. *)
Module Key.
Section Key.
Context {N : Num}.
Record Snapshot : Type := mkSnapshot {
  price : num; bb_position : num; bb_width : num; rsi : num;
  ma_diff_pct : num; volatility : num; price_range_pct : num
}.
Inductive Analysis : Type :=
  | Reason (reason : string)
  | Indicators (s : Snapshot).
End Key.
End Key.

Module Self.
Section Self.
Context {N : Num}.
(** [TrendAnalyzer.__init__]: the attributes read from the configuration.
    Periods are the positive ints the configuration validates
    ([config_manager._validate_config]); they are naturals here. *)
Record TrendAnalyzer : Type := mkTrendAnalyzer {
  bb_period : nat;
  bb_std : num;
  rsi_period : nat;
  rsi_overbought : num;
  rsi_oversold : num;
  ma_short : nat;
  ma_long : nat;
  sideways_threshold : num;
  trend_confirmation : nat
}.
End Self.
End Self.

Definition insufficient_data : string := "数据不足".

Section TrendAnalyzer.
Context {N : Num}.
Variable self : Self.TrendAnalyzer.

Local Open Scope num_scope.

(** [sum(conditions)]: the number of conditions that hold. *)
Definition votes (conditions : list bool) : nat :=
  fold_left (fun acc (b : bool) => if b then S acc else acc) conditions 0%nat.

Definition calculate_rsi (df : list Candle) : list num :=
  let delta := Pandas.diff (map close df) in
  let gain := Pandas.rolling_mean (Self.rsi_period self)
                (Pandas.where_ (fun d => d >? of_Z 0) (of_Z 0) delta) in
  let loss := Pandas.rolling_mean (Self.rsi_period self)
                (map neg (Pandas.where_ (fun d => d <? of_Z 0) (of_Z 0) delta)) in
  let rs := zip_with div gain loss in
  map (fun rs => of_Z 100 - of_Z 100 / (of_Z 1 + rs)) rs.

Definition calculate_moving_averages (df : list Candle) : list Col.MovingAverages :=
  let ma_short := Pandas.rolling_mean (Self.ma_short self) (map close df) in
  let ma_long := Pandas.rolling_mean (Self.ma_long self) (map close df) in
  zip_with (fun s l => Col.mkMovingAverages s l ((s - l) / l * of_Z 100))
           ma_short ma_long.

Definition _determine_trend_type (recent_data : list Col.Row)
    (analysis : Key.Snapshot) : result TrendType :=
  let bb_position := Key.bb_position analysis in
  let bb_width := Key.bb_width analysis in
  let rsi := Key.rsi analysis in
  let ma_diff_pct := Key.ma_diff_pct analysis in
  let sideways_conditions :=
    [ bb_width <? Self.sideways_threshold self;
      (of_Z 30 <? rsi) && (rsi <? of_Z 70);
      nabs ma_diff_pct <? of_Z 2;
      (dec 2 10 <? bb_position) && (bb_position <? dec 8 10) ] in
  let! last_row := Pandas.iloc_last recent_data in
  let! first_row := Pandas.iloc_first recent_data in
  let close_last := close (Col.candle last_row) in
  let close_first := close (Col.candle first_row) in
  let uptrend_conditions :=
    [ ma_diff_pct >? of_Z 1;
      bb_position >? dec 7 10;
      close_last >? close_first * (of_Z 1 + Self.sideways_threshold self / of_Z 2) ] in
  let downtrend_conditions :=
    [ ma_diff_pct <? of_Z (-1);
      bb_position <? dec 3 10;
      close_last <? close_first * (of_Z 1 - Self.sideways_threshold self / of_Z 2) ] in
  Return (if 3 <=? votes sideways_conditions then SIDEWAYS
          else if 2 <=? votes uptrend_conditions then UPTREND
          else if 2 <=? votes downtrend_conditions then DOWNTREND
          else SIDEWAYS)%nat.

(** [max(self.bb_period, self.rsi_period, self.ma_long)] *)
Definition required_length : nat :=
  Nat.max (Nat.max (Self.bb_period self) (Self.rsi_period self))
          (Self.ma_long self).

Definition analyze_trend (df : list Col.Row) : result (TrendType * Key.Analysis) :=
  if (length df <? required_length)%nat
  then Return (UNKNOWN, Key.Reason insufficient_data)
  else
    let! latest := Pandas.iloc_last df in
    let recent_data := Pandas.tail (Self.trend_confirmation self) df in
    let analysis :=
      {| Key.price := close (Col.candle latest);
         Key.bb_position := Col.bb_position (Col.bb latest);
         Key.bb_width := Col.bb_width (Col.bb latest);
         Key.rsi := Col.rsi latest;
         Key.ma_diff_pct := Col.ma_diff_pct (Col.ma latest);
         Key.volatility := Col.volatility (Col.vol latest);
         Key.price_range_pct := Col.price_range_pct (Col.vol latest) |} in
    let! trend_type := _determine_trend_type recent_data analysis in
    Return (trend_type, Key.Indicators analysis).

(** The arguments come in the source's order: current first. *)
Definition detect_trend_change (current_trend previous_trend : TrendType) : bool :=
  if decide (previous_trend = UNKNOWN) then false
  else
    let alert_changes :=
      [ (SIDEWAYS, UPTREND); (SIDEWAYS, DOWNTREND);
        (UPTREND, SIDEWAYS); (DOWNTREND, SIDEWAYS);
        (UPTREND, DOWNTREND); (DOWNTREND, UPTREND) ] in
    bool_decide ((previous_trend, current_trend) ∈ alert_changes).

Context {S : Sqrt N}.

Definition calculate_bollinger_bands (df : list Candle) : list Col.Bollinger :=
  let bb_middle := Pandas.rolling_mean (Self.bb_period self) (map close df) in
  let bb_std := Pandas.rolling_std (Self.bb_period self) (map close df) in
  zip_with (fun c '(m, s) =>
              let upper := m + s * Self.bb_std self in
              let lower := m - s * Self.bb_std self in
              Col.mkBollinger m s upper lower
                ((upper - lower) / m)
                ((c - lower) / (upper - lower)))
           (map close df) (zip bb_middle bb_std).

Definition calculate_volatility (period : nat) (df : list Candle) : list Col.Volatility :=
  let returns := Pandas.pct_change (map close df) in
  let volatility :=
    map (fun v => v * nsqrt (of_nat period)) (Pandas.rolling_std period returns) in
  zip_with (fun c '(r, v) =>
              Col.mkVolatility r v ((high c - low c) / close c * of_Z 100))
           df (zip returns volatility).

(** [calculate_volatility] is called with its default [period=20]. *)
Definition get_full_analysis (df : list Candle) : list Col.Row :=
  let bb := calculate_bollinger_bands df in
  let rsi := calculate_rsi df in
  let ma := calculate_moving_averages df in
  let vol := calculate_volatility 20 df in
  zip_with (fun '(c, b, r) '(m, v) => Col.mkRow c b r m v)
           (zip (zip df bb) rsi) (zip ma vol).
End TrendAnalyzer.

(* ===================================================================== *)
(** * The classification rules as the specification words them *)
(* ===================================================================== *)

Module Spec.
Section Classifier.
Context {N : Num}.
Local Open Scope num_scope.

(** How many of a rule's conditions hold. *)
Definition holding (conditions : list bool) : nat :=
  length (List.filter (fun b : bool => b) conditions).

(** snapshot = latest row's price, bb_position, bb_width, rsi, ma_diff_pct,
    volatility, price_range_pct. *)
Definition snapshot (latest : Col.Row) : Key.Snapshot :=
  Key.mkSnapshot
    (close (Col.candle latest))
    (Col.bb_position (Col.bb latest))
    (Col.bb_width (Col.bb latest))
    (Col.rsi latest)
    (Col.ma_diff_pct (Col.ma latest))
    (Col.volatility (Col.vol latest))
    (Col.price_range_pct (Col.vol latest)).

(** bb_width < sideways_threshold, 30 < rsi < 70, |ma_diff_pct| < 2,
    0.2 < bb_position < 0.8 -- on the latest row. *)
Definition sideways (threshold : num) (latest : Col.Row) : list bool :=
  [ Col.bb_width (Col.bb latest) <? threshold;
    (of_Z 30 <? Col.rsi latest) && (Col.rsi latest <? of_Z 70);
    nabs (Col.ma_diff_pct (Col.ma latest)) <? of_Z 2;
    (dec 2 10 <? Col.bb_position (Col.bb latest))
      && (Col.bb_position (Col.bb latest) <? dec 8 10) ].

(** ma_diff_pct > 1, bb_position > 0.7,
    close[last] > close[first] * (1 + sideways_threshold/2). *)
Definition uptrend (threshold : num) (latest : Col.Row)
    (close_first close_last : num) : list bool :=
  [ Col.ma_diff_pct (Col.ma latest) >? of_Z 1;
    Col.bb_position (Col.bb latest) >? dec 7 10;
    close_last >? close_first * (of_Z 1 + threshold / of_Z 2) ].

(** The mirrored conditions. *)
Definition downtrend (threshold : num) (latest : Col.Row)
    (close_first close_last : num) : list bool :=
  [ Col.ma_diff_pct (Col.ma latest) <? of_Z (-1);
    Col.bb_position (Col.bb latest) <? dec 3 10;
    close_last <? close_first * (of_Z 1 - threshold / of_Z 2) ].

(** The result [t] respects the precedence Sideways (3 of 4), Uptrend
    (2 of 3), Downtrend (2 of 3), Sideways by default. *)
Definition first_rule_that_fires (s u d : nat) (t : TrendType) : Prop :=
  (3 <= s -> t = SIDEWAYS) /\
  (s < 3 -> 2 <= u -> t = UPTREND) /\
  (s < 3 -> u < 2 -> 2 <= d -> t = DOWNTREND) /\
  (s < 3 -> u < 2 -> d < 2 -> t = SIDEWAYS).
End Classifier.

Section Rsi.
Context {N : Num}.
Local Open Scope num_scope.




End Rsi.
End Spec.

Module Shape.
(** A column transformation is causal when it keeps the length and, after a
    row is appended to its input, leaves every earlier output in place. *)
Definition causal {A B : Type} (f : list A -> list B) : Prop :=
  (forall xs, length (f xs) = length xs) /\
  (forall xs x, exists y, f (xs ++ [x]) = f xs ++ [y]).
End Shape.


(* ===================================================================== *)
(** * The outside world

    Network calls, alert deliveries, sleeps and the launch of the background
    thread are recorded, in order, in a trace.  What the network answers is
    given by oracles that see the whole trace so far, so an endpoint may fail
    at one moment and succeed at the next. *)
(* ===================================================================== *)

Inductive Request : Type :=
  | BinanceKlines (symbol interval : string) (limit : nat)
  | BinanceTicker (symbol : string)
  | BinancePing
  | CoinGeckoMarketChart (coin_id : string) (days : Q) (hourly : bool)
  | CoinGeckoSimplePrice (coin_id : string)
  | CoinGeckoPing
  | CryptoComparePrice.

Inductive SleepTime : Type :=
  | UntilNextRound          (* max(0, monitoring_interval - elapsed) *)
  | Seconds (n : nat).

Section World.
Context {N : Num}.

Inductive Event : Type :=
  | Requested (r : Request)
  | SystemAlert (level message : string)
  | TrendChangeAlert (symbol timeframe : string)
      (previous_trend current_trend : TrendType) (price : num)
  | ThreadStarted
  | Sleep (t : SleepTime).

Definition Trace : Type := list Event.

(** The JSON body of CoinGecko's market_chart: parallel arrays of
    [timestamp_ms, value] pairs. *)
Record MarketChart : Type := mkMarketChart {
  prices : list (Z * num);
  total_volumes : list (Z * num)
}.

Record Network : Type := mkNetwork {
  binance_klines : Trace -> string -> string -> nat -> result (list Candle);
  binance_ticker : Trace -> string -> result num;
  binance_ping : Trace -> bool;
  coingecko_market_chart : Trace -> string -> Q -> bool -> result MarketChart;
  coingecko_simple_price : Trace -> string -> result num;
  coingecko_ping : Trace -> result nat;       (* HTTP status *)
  cryptocompare_price : Trace -> result nat   (* HTTP status *)
}.

(** A request to the primary source for data. *)
Definition is_primary_call (e : Event) : bool :=
  match e with
  | Requested (BinanceKlines _ _ _) | Requested (BinanceTicker _) => true
  | _ => false
  end.

Definition primary_calls (tr : Trace) : Trace := List.filter is_primary_call tr.
End World.

(* ===================================================================== *)
(** * src/binance_api.py, at the boundary of its public methods *)
(* ===================================================================== *)

Module BinanceAPI.
Section BinanceAPI.
Context {N : Num}.
Variable net : Network.

(** Returns the frame or re-raises the request's exception. *)
Definition get_klines (symbol interval : string) (limit : nat) (tr : Trace)
  : result (list Candle) * Trace :=
  (binance_klines net tr symbol interval limit,
   tr ++ [Requested (BinanceKlines symbol interval limit)]).

Definition get_ticker_price (symbol : string) (tr : Trace)
  : result num * Trace :=
  (binance_ticker net tr symbol, tr ++ [Requested (BinanceTicker symbol)]).

(** Catches every exception and answers with a bool. *)
Definition test_connectivity (tr : Trace) : bool * Trace :=
  (binance_ping net tr, tr ++ [Requested BinancePing]).
End BinanceAPI.
End BinanceAPI.

(* ===================================================================== *)
(** * src/alternative_data.py *)
(* ===================================================================== *)

Module AlternativeDataSource.
Section AlternativeDataSource.
Context {N : Num}.
Variable net : Network.
Local Open Scope num_scope.

Definition symbol_mapping : gmap string string :=
  list_to_map
    [ ("BTCUSDT", "bitcoin"); ("ETHUSDT", "ethereum");
      ("BNBUSDT", "binancecoin"); ("ADAUSDT", "cardano");
      ("DOTUSDT", "polkadot"); ("LINKUSDT", "chainlink");
      ("LTCUSDT", "litecoin"); ("XRPUSDT", "ripple") ]%string.

Definition get_current_price_coingecko (symbol : string) (tr : Trace)
  : option num * Trace :=
  match symbol_mapping !! symbol with
  | None => (None, tr)
  | Some coin_id =>
      let tr' := tr ++ [Requested (CoinGeckoSimplePrice coin_id)] in
      match coingecko_simple_price net tr coin_id with
      | Return price => (Some price, tr')
      | Raise _ => (None, tr')
      end
  end.

(** One iteration of the loop over [enumerate(prices)]. *)
Definition candle_of_price (volumes : list (Z * num)) (i : nat)
    (entry : Z * num) : Candle :=
  let '(timestamp, price) := entry in
  let volume := match volumes !! i with
                | Some (_, v) => v
                | None => of_Z 0
                end in
  {| open_time := timestamp;
     open := price;
     high := price * dec 101 100;
     low := price * dec 99 100;
     close := price;
     volume := volume |}.

(** Every exception is caught and turned into [None]; building the frame
    from an empty [prices] array fails at [set_index] and so gives [None]. *)
Definition get_historical_data_coingecko (symbol : string) (days : Q)
    (tr : Trace) : option (list Candle) * Trace :=
  match symbol_mapping !! symbol with
  | None => (None, tr)
  | Some coin_id =>
      let hourly := if Qle_bool days 1 then true else false in
      let tr' := tr ++ [Requested (CoinGeckoMarketChart coin_id days hourly)] in
      match coingecko_market_chart net tr coin_id days hourly with
      | Raise _ => (None, tr')
      | Return data =>
          let df_data := imap (candle_of_price (total_volumes data)) (prices data) in
          match df_data with
          | [] => (None, tr')
          | _ => (Some df_data, tr')
          end
      end
  end.

Definition interval_to_days : gmap string Q :=
  list_to_map
    [ ("1m", 1 # 10); ("5m", 2 # 10); ("15m", 5 # 10);
      ("1h", 1 # 1); ("4h", 2 # 1); ("1d", 7 # 1) ]%string.

Definition get_klines_alternative (symbol interval : string) (limit : nat)
    (tr : Trace) : option (list Candle) * Trace :=
  let days := default (1 # 1) (interval_to_days !! interval) in
  let '(df, tr) := get_historical_data_coingecko symbol days tr in
  match df with
  | Some df =>
      if (0 <? length df)%nat
      then (Some (if (limit <? length df)%nat then Pandas.tail limit df else df), tr)
      else (None, tr)
  | None => (None, tr)
  end.

(** The two probes, each [status_code == 200] or [False] on an exception. *)
Definition test_connectivity (tr : Trace) : gmap string bool * Trace :=
  let coingecko := match coingecko_ping net tr with
                   | Return status => (status =? 200)%nat
                   | Raise _ => false
                   end in
  let tr := tr ++ [Requested CoinGeckoPing] in
  let cryptocompare := match cryptocompare_price net tr with
                       | Return status => (status =? 200)%nat
                       | Raise _ => false
                       end in
  let tr := tr ++ [Requested CryptoComparePrice] in
  (<["cryptocompare"%string := cryptocompare]>
     (<["coingecko"%string := coingecko]> ∅), tr).
End AlternativeDataSource.
End AlternativeDataSource.

Module HybridDataSource.
Section HybridDataSource.
Context {N : Num}.
Variable net : Network.

Record t : Type := mk { use_alternative : bool }.

(** [__init__] *)
Definition init : t := {| use_alternative := false |}.

Definition get_klines (symbol interval : string) (limit : nat)
    (self : t) (tr : Trace) : option (list Candle) * t * Trace :=
  let alternative (self : t) (tr : Trace) :=
    let '(df, tr) :=
      AlternativeDataSource.get_klines_alternative net symbol interval limit tr in
    (df, self, tr) in
  if negb (use_alternative self) then
    let '(r, tr) := BinanceAPI.get_klines net symbol interval limit tr in
    match r with
    | Return df =>
        if (0 <? length df)%nat then (Some df, self, tr)
        else alternative self tr
    | Raise _ => alternative {| use_alternative := true |} tr
    end
  else alternative self tr.

Definition get_ticker_price (symbol : string) (self : t) (tr : Trace)
  : option num * t * Trace :=
  let alternative (self : t) (tr : Trace) :=
    let '(price, tr) :=
      AlternativeDataSource.get_current_price_coingecko net symbol tr in
    (price, self, tr) in
  if negb (use_alternative self) then
    let '(r, tr) := BinanceAPI.get_ticker_price net symbol tr in
    match r with
    | Return price => (Some price, self, tr)
    | Raise _ => alternative {| use_alternative := true |} tr
    end
  else alternative self tr.

(** [results.update(alt_results)]: the alternative's entries are added to
    (and would override) the ones already there. *)
Definition test_connectivity (self : t) (tr : Trace) : gmap string bool * Trace :=
  let '(binance, tr) := BinanceAPI.test_connectivity net tr in
  let results : gmap string bool := <["binance"%string := binance]> ∅ in
  let '(alt_results, tr) := AlternativeDataSource.test_connectivity net tr in
  (alt_results ∪ results, tr).

(** A caller's request to the data source, and running a sequence of them. *)
Inductive Call : Type :=
  | GetKlines (symbol interval : string) (limit : nat)
  | GetTickerPrice (symbol : string).

Inductive Response : Type :=
  | Klines (df : option (list Candle))
  | Price (p : option num).

Definition call (c : Call) (self : t) (tr : Trace) : Response * t * Trace :=
  match c with
  | GetKlines symbol interval limit =>
      let '(df, self, tr) := get_klines symbol interval limit self tr in
      (Klines df, self, tr)
  | GetTickerPrice symbol =>
      let '(p, self, tr) := get_ticker_price symbol self tr in
      (Price p, self, tr)
  end.

Fixpoint calls (cs : list Call) (self : t) (tr : Trace)
  : list Response * t * Trace :=
  match cs with
  | [] => ([], self, tr)
  | c :: cs =>
      let '(r, self, tr) := call c self tr in
      let '(rs, self, tr) := calls cs self tr in
      (r :: rs, self, tr)
  end.

(** The same requests answered by the fallback source alone. *)
Definition fallback_call (c : Call) (tr : Trace) : Response * Trace :=
  match c with
  | GetKlines symbol interval limit =>
      let '(df, tr) :=
        AlternativeDataSource.get_klines_alternative net symbol interval limit tr in
      (Klines df, tr)
  | GetTickerPrice symbol =>
      let '(p, tr) :=
        AlternativeDataSource.get_current_price_coingecko net symbol tr in
      (Price p, tr)
  end.

Fixpoint fallback_calls (cs : list Call) (tr : Trace) : list Response * Trace :=
  match cs with
  | [] => ([], tr)
  | c :: cs =>
      let '(r, tr) := fallback_call c tr in
      let '(rs, tr) := fallback_calls cs tr in
      (r :: rs, tr)
  end.
End HybridDataSource.
End HybridDataSource.

(* ===================================================================== *)
(** * src/monitor.py *)
(* ===================================================================== *)

(** [concurrent.futures.ThreadPoolExecutor(max_workers=n)]: the constructor
    of the Python standard library raises [ValueError] ("max_workers must be
    greater than 0") when [n <= 0]. *)
Definition ThreadPoolExecutor (max_workers : Z) : result unit :=
  if (max_workers <=? 0)%Z then Raise ValueError else Return tt.

(** [str(e)] *)
Definition str (e : exn) : string :=
  match e with
  | ValueError => "max_workers must be greater than 0"
  | IndexError => "single positional indexer is out-of-bounds"
  | AttributeError => "'NoneType' object has no attribute 'empty'"
  | RequestException => "request failed"
  end.

(** Truth value of a dict: false exactly when it is empty. *)
Definition truthy {A} (d : gmap string A) : bool := negb (size d =? 0).

Module TrendMonitor.
Section TrendMonitor.
Context {N : Num} {S : Sqrt N}.
Variable net : Network.

Record t : Type := mk {
  symbols : list string;
  timeframes : list string;
  api : HybridDataSource.t;
  analyzer : Self.TrendAnalyzer;
  trend_history : gmap string TrendType;
  is_monitoring : bool;
  monitor_thread : bool    (* a thread object has been created and started *)
}.

Definition set_api (self : t) (a : HybridDataSource.t) : t :=
  mk (symbols self) (timeframes self) a (analyzer self)
     (trend_history self) (is_monitoring self) (monitor_thread self).

Definition set_trend_history (self : t) (h : gmap string TrendType) : t :=
  mk (symbols self) (timeframes self) (api self) (analyzer self)
     h (is_monitoring self) (monitor_thread self).

Definition set_running (self : t) : t :=
  mk (symbols self) (timeframes self) (api self) (analyzer self)
     (trend_history self) true true.

Definition start_monitoring (self : t) (tr : Trace) : t * Trace :=
  if is_monitoring self then (self, tr)
  else
    let '(results, tr) := HybridDataSource.test_connectivity net (api self) tr in
    if negb (truthy results)
    then (self, tr ++ [SystemAlert "ERROR" "API连接测试失败，无法开始监测"])
    else (set_running self,
          tr ++ [ThreadStarted; SystemAlert "INFO" "走势监测已开始"]).

(** One worker task.  Every exception inside is caught and makes the task
    return [False]: [df.empty] on [None], and whatever the analysis raises. *)
Definition _monitor_symbol_timeframe (symbol timeframe : string)
    (self : t) (tr : Trace) : bool * t * Trace :=
  let '(df, api', tr) :=
    HybridDataSource.get_klines net symbol timeframe 100 (api self) tr in
  let self := set_api self api' in
  match df with
  | None => (false, self, tr)
  | Some [] => (false, self, tr)
  | Some df =>
      let df_analyzed := get_full_analysis (analyzer self) df in
      match analyze_trend (analyzer self) df_analyzed with
      | Raise _ => (false, self, tr)
      | Return (current_trend, analysis) =>
          let key := (symbol +:+ "_" +:+ timeframe)%string in
          let previous_trend := default UNKNOWN (trend_history self !! key) in
          let self :=
            set_trend_history self (<[key := current_trend]> (trend_history self)) in
          if detect_trend_change current_trend previous_trend then
            match analysis with
            | Key.Indicators s =>
                (true, self,
                 tr ++ [TrendChangeAlert symbol timeframe previous_trend
                          current_trend (Key.price s)])
            | Key.Reason _ => (false, self, tr)   (* analysis['price'] *)
            end
          else (true, self, tr)
      end
  end.

(** The tasks of one round, run here in the order they are submitted. *)
Fixpoint run_tasks (pairs : list (string * string)) (self : t) (tr : Trace)
    (completed_count error_count : nat) : t * Trace * nat * nat :=
  match pairs with
  | [] => (self, tr, completed_count, error_count)
  | (symbol, timeframe) :: pairs =>
      let '(result, self, tr) :=
        _monitor_symbol_timeframe symbol timeframe self tr in
      if result
      then run_tasks pairs self tr (completed_count + 1) error_count
      else run_tasks pairs self tr completed_count (error_count + 1)
  end.

Definition _perform_monitoring_round (self : t) (tr : Trace)
  : result (t * Trace) :=
  let max_workers :=
    Z.min 10 (Z.of_nat (length (symbols self) * length (timeframes self))) in
  let! executor := ThreadPoolExecutor max_workers in
  let futures :=
    flat_map (fun symbol => map (fun timeframe => (symbol, timeframe))
                                (timeframes self))
             (symbols self) in
  let '(self, tr, _, _) := run_tasks futures self tr 0 0 in
  Return (self, tr).

(** One pass through the body of [while self.is_monitoring]. *)
Definition loop_body (self : t) (tr : Trace) : t * Trace :=
  match _perform_monitoring_round self tr with
  | Return (self, tr) => (self, tr ++ [Sleep UntilNextRound])
  | Raise e =>
      (self, tr ++ [SystemAlert "ERROR" ("监测循环出错: " +:+ str e);
                    Sleep (Seconds 10)])
  end.

(** The loop, observed for [rounds] passes. *)
Fixpoint _monitoring_loop (rounds : nat) (self : t) (tr : Trace) : t * Trace :=
  match rounds with
  | 0 => (self, tr)
  | Datatypes.S rounds =>
      if is_monitoring self
      then let '(self, tr) := loop_body self tr in
           _monitoring_loop rounds self tr
      else (self, tr)
  end.
End TrendMonitor.
End TrendMonitor.

(* ===================================================================== *)
(** * Sample inputs *)
(* ===================================================================== *)

Module Sample.
(** The analyzer built from the default configuration. *)
Definition analyzer : @Self.TrendAnalyzer binary64 :=
  @Self.mkTrendAnalyzer binary64 20 2%float 14 70%float 30%float 10 30
    (dec 2 100) 3.

(** An hourly candle around price [p], shaped like the fallback source's. *)
Definition candle (i : nat) (p : float) : @Candle binary64 :=
  @mkCandle binary64 (Z.of_nat i * 3600000)
    p (@mul binary64 p (dec 101 100)) (@mul binary64 p (dec 99 100)) p 1%float.

Definition series (price : nat -> float) (n : nat) : list (@Candle binary64) :=
  map (fun i => candle i (price i)) (seq 0 n).

Definition flat : list (@Candle binary64) := series (fun _ => 100%float) 25.
Definition rising : list (@Candle binary64) :=
  series (fun i => float_of_Z (100 + 2 * Z.of_nat i)) 40.
Definition falling : list (@Candle binary64) :=
  series (fun i => float_of_Z (200 - 2 * Z.of_nat i)) 40.
Definition quiet : list (@Candle binary64) :=
  series (fun i => float_of_Z (1000 + Z.of_nat (i mod 2))) 40.



(** A network on which every source is down, and one on which the primary
    answers every request while CoinGecko serves a single price of 30000. *)
Definition net_down : @Network binary64 :=
  {| binance_klines := fun _ _ _ _ => Raise RequestException;
     binance_ticker := fun _ _ => Raise RequestException;
     binance_ping := fun _ => false;
     coingecko_market_chart := fun _ _ _ _ => Raise RequestException;
     coingecko_simple_price := fun _ _ => Raise RequestException;
     coingecko_ping := fun _ => Raise RequestException;
     cryptocompare_price := fun _ => Raise RequestException |}.

Definition net_up : @Network binary64 :=
  {| binance_klines := fun _ _ _ _ => Return rising;
     binance_ticker := fun _ _ => Return 178%float;
     binance_ping := fun _ => true;
     coingecko_market_chart := fun _ _ _ _ =>
       Return (@mkMarketChart binary64 [(1700000000000%Z, 30000%float)]
                                       [(1700000000000%Z, 12%float)]);
     coingecko_simple_price := fun _ _ => Return 30000%float;
     coingecko_ping := fun _ => Return 200;
     cryptocompare_price := fun _ => Return 200 |}.

Definition monitor (symbols timeframes : list string) : @TrendMonitor.t binary64 :=
  TrendMonitor.mk symbols timeframes HybridDataSource.init analyzer ∅ false false.
End Sample.

(* ===================================================================== *)
(** * Further parts of the code

    The rest of [src/monitor.py] (membership, lifecycle, status, on-demand
    analysis), and parts of [src/alerts.py], [src/binance_api.py] and
    [src/config_manager.py]. *)
(* ===================================================================== *)

From Stdlib Require Import Ascii.

(* ===================================================================== *)
(** * Further Python helpers *)
(* ===================================================================== *)

(** [TrendType.value] *)
Definition TrendType_value (t : TrendType) : string :=
  match t with
  | SIDEWAYS => "震荡"
  | UPTREND => "上涨"
  | DOWNTREND => "下跌"
  | UNKNOWN => "未知"
  end.

(** [s.split(c)] for a one-character separator. *)
Fixpoint split_on (c : Ascii.ascii) (s : string) : list string :=
  match s with
  | EmptyString => [EmptyString]
  | String a rest =>
      if Ascii.eqb a c then EmptyString :: split_on c rest
      else match split_on c rest with
           | w :: ws => String a w :: ws
           | [] => [String a EmptyString]
           end
  end.

(** [c in s] for a character. *)
Fixpoint has_char (c : Ascii.ascii) (s : string) : bool :=
  match s with
  | EmptyString => false
  | String a rest => Ascii.eqb a c || has_char c rest
  end.

(** [l.remove(x)]: drops the first occurrence (the callers check [x in l]
    first, so the [ValueError] of an absent [x] does not arise). *)
Fixpoint list_remove (x : string) (l : list string) : list string :=
  match l with
  | [] => []
  | y :: l' => if String.eqb x y then l' else y :: list_remove x l'
  end.

(** [f"{symbol}_{timeframe}"] *)
Definition pair_key (symbol timeframe : string) : string :=
  (symbol +:+ "_" +:+ timeframe)%string.

(** A key built from a symbol and a timeframe that hold no underscore. *)
Definition well_formed_key (k : string) : Prop :=
  exists s tf, k = pair_key s tf
               /\ has_char "_" s = false /\ has_char "_" tf = false.

(* ===================================================================== *)
(** * src/monitor.py: membership, lifecycle and status *)
(* ===================================================================== *)

Module MonitorOps.
Section MonitorOps.
Context {N : Num} {S : Sqrt N}.
Import TrendMonitor.

Definition set_symbols (self : t) (l : list string) : t :=
  mk l (timeframes self) (api self) (analyzer self)
     (trend_history self) (is_monitoring self) (monitor_thread self).

Definition add_symbol (symbol : string) (self : t) (tr : Trace) : t * Trace :=
  if bool_decide (symbol ∈ symbols self) then (self, tr)
  else (set_symbols self (symbols self ++ [symbol]),
        tr ++ [SystemAlert "INFO" ("添加监测币种: " +:+ symbol)]).

(** The keys collected by the list comprehension, then deleted one by one. *)
Definition keys_to_remove (symbol : string) (h : gmap string TrendType)
  : list string :=
  List.filter (String.prefix (symbol +:+ "_")) (map fst (map_to_list h)).

Definition remove_symbol (symbol : string) (self : t) (tr : Trace) : t * Trace :=
  if bool_decide (symbol ∈ symbols self) then
    let self := set_symbols self (list_remove symbol (symbols self)) in
    let h := fold_left (fun h key => delete key h)
                       (keys_to_remove symbol (trend_history self))
                       (trend_history self) in
    (set_trend_history self h,
     tr ++ [SystemAlert "INFO" ("移除监测币种: " +:+ symbol)])
  else (self, tr).

(** The (symbol, timeframe) pairs in the order a round submits them. *)
Definition monitored_pairs (self : t) : list (string * string) :=
  flat_map (fun symbol => map (fun timeframe => (symbol, timeframe))
                              (timeframes self))
           (symbols self).

(** The thread, if any, is joined for at most 5 seconds and then left alone;
    the attribute keeps the thread object. *)
Definition stop_monitoring (self : t) (tr : Trace) : t * Trace :=
  (mk (symbols self) (timeframes self) (api self) (analyzer self)
      (trend_history self) false (monitor_thread self),
   tr ++ [SystemAlert "INFO" "走势监测已停止"]).

(** The loop over [self.trend_history.items()] in [get_current_status]. *)
Definition summary_step (acc : result (gmap string (gmap string string)))
    (item : string * TrendType) : result (gmap string (gmap string string)) :=
  let! trend_summary := acc in
  match split_on "_"%char (fst item) with
  | [symbol; timeframe] =>
      Return (<[symbol := <[timeframe := TrendType_value (snd item)]>
                            (default ∅ (trend_summary !! symbol))]>
                trend_summary)
  | _ => Raise ValueError     (* wrong number of values to unpack *)
  end.

Record Status {A : Type} : Type := mkStatus {
  status_is_monitoring : bool;
  symbols_count : nat;
  timeframes_count : nat;
  total_pairs : nat;
  trend_summary : gmap string (gmap string string);
  alert_stats : A
}.

(** [alert_stats] is what the alert manager's [get_alert_statistics]
    returned. *)
Definition get_current_status {A : Type} (stats : A) (self : t)
  : result (@Status A) :=
  let! summary :=
    fold_left summary_step (map_to_list (trend_history self)) (Return ∅) in
  Return
    {| status_is_monitoring := is_monitoring self;
       symbols_count := length (symbols self);
       timeframes_count := length (timeframes self);
       total_pairs := length (symbols self) * length (timeframes self);
       trend_summary := summary;
       alert_stats := stats |}.
End MonitorOps.
End MonitorOps.

(** The dictionary [get_symbol_analysis] returns, without its
    ['timestamp'] entry ([datetime.now()]). *)
Module Report.
Section Report.
Context {N : Num}.

Record TechnicalIndicators : Type := mkTechnicalIndicators {
  bb_upper : num; bb_middle : num; bb_lower : num; bb_position : num;
  bb_width : num; rsi : num; ma_short : num; ma_long : num;
  ma_diff_pct : num; volatility : num; volume : num
}.

Record t : Type := mk {
  symbol : string;
  timeframe : string;
  current_trend : string;
  price : num;
  analysis : Key.Analysis;
  technical_indicators : TechnicalIndicators
}.
End Report.
End Report.

Module SymbolAnalysis.
Section SymbolAnalysis.
Context {N : Num} {S : Sqrt N}.
Variable net : Network.
Import TrendMonitor.

Definition indicators_of (latest : Col.Row) : Report.TechnicalIndicators :=
  {| Report.bb_upper := Col.bb_upper (Col.bb latest);
     Report.bb_middle := Col.bb_middle (Col.bb latest);
     Report.bb_lower := Col.bb_lower (Col.bb latest);
     Report.bb_position := Col.bb_position (Col.bb latest);
     Report.bb_width := Col.bb_width (Col.bb latest);
     Report.rsi := Col.rsi latest;
     Report.ma_short := Col.ma_short (Col.ma latest);
     Report.ma_long := Col.ma_long (Col.ma latest);
     Report.ma_diff_pct := Col.ma_diff_pct (Col.ma latest);
     Report.volatility := Col.volatility (Col.vol latest);
     Report.volume := volume (Col.candle latest) |}.

(** Every exception is caught and gives [None]: [df.empty] on [None],
    whatever the analysis raises, and [.iloc[-1]]. *)
Definition get_symbol_analysis (symbol timeframe : string)
    (self : t) (tr : Trace) : option Report.t * t * Trace :=
  let '(df, api', tr) :=
    HybridDataSource.get_klines net symbol timeframe 100 (api self) tr in
  let self := set_api self api' in
  match df with
  | None => (None, self, tr)
  | Some [] => (None, self, tr)
  | Some df =>
      let df_analyzed := get_full_analysis (analyzer self) df in
      match analyze_trend (analyzer self) df_analyzed with
      | Raise _ => (None, self, tr)
      | Return (current_trend, analysis) =>
          match Pandas.iloc_last df_analyzed with
          | Raise _ => (None, self, tr)
          | Return latest =>
              (Some {| Report.symbol := symbol;
                       Report.timeframe := timeframe;
                       Report.current_trend := TrendType_value current_trend;
                       Report.price := close (Col.candle latest);
                       Report.analysis := analysis;
                       Report.technical_indicators := indicators_of latest |},
               self, tr)
          end
      end
  end.
End SymbolAnalysis.
End SymbolAnalysis.

(** Every key of the trend history is well formed. *)
Definition keys_well_formed {N : Num} (self : TrendMonitor.t) : Prop :=
  forall k t, TrendMonitor.trend_history self !! k = Some t -> well_formed_key k.

(** Views of a trace. *)
Section TraceViews.
Context {N : Num}.

Definition is_trend_alert (e : Event) : bool :=
  match e with TrendChangeAlert _ _ _ _ _ => true | _ => false end.

Definition is_request (e : Event) : bool :=
  match e with Requested _ => true | _ => false end.

(** The alerts on trend changes, in order. *)
Definition trend_alerts (tr : Trace) : Trace := List.filter is_trend_alert tr.

(** Everything but the network requests and the trend alerts: system
    alerts, sleeps, thread launches. *)
Definition scheduling (tr : Trace) : Trace :=
  List.filter (fun e => negb (is_request e || is_trend_alert e)) tr.
End TraceViews.

(** [AlternativeDataSource.get_supported_symbols]: the keys of the mapping. *)
Definition get_supported_symbols : list string :=
  map fst (map_to_list AlternativeDataSource.symbol_mapping).

(** ** Value classes of the exact arithmetic *)





(* ===================================================================== *)
(** * src/alerts.py *)
(* ===================================================================== *)

(** [needle in hay] for strings. *)
Fixpoint contains (needle hay : string) : bool :=
  String.prefix needle hay
  || match hay with
     | EmptyString => false
     | String _ rest => contains needle rest
     end.

Module AlertManager.

Definition generic_label : string := "走势变化 📊".

Definition _get_alert_type (previous_trend current_trend : string) : string :=
  if String.eqb previous_trend "震荡" && String.eqb current_trend "上涨"
  then "突破上涨 🚀"
  else if String.eqb previous_trend "震荡" && String.eqb current_trend "下跌"
  then "突破下跌 📉"
  else if String.eqb previous_trend "上涨" && String.eqb current_trend "震荡"
  then "上涨转震荡 ⏸️"
  else if String.eqb previous_trend "下跌" && String.eqb current_trend "震荡"
  then "下跌转震荡 ⏸️"
  else if String.eqb previous_trend "上涨" && String.eqb current_trend "下跌"
  then "趋势反转 🔄"
  else if String.eqb previous_trend "下跌" && String.eqb current_trend "上涨"
  then "趋势反转 🔄"
  else generic_label.

Record AlertStatistics : Type := mkAlertStatistics {
  total_alerts : nat;
  trend_changes : nat;
  system_alerts : nat
}.

Definition no_alerts : AlertStatistics := mkAlertStatistics 0 0 0.

(** The body of [for line in f]. *)
Definition count_line (acc : AlertStatistics) (line : string) : AlertStatistics :=
  if contains "ALERT:" line then
    mkAlertStatistics
      (total_alerts acc + 1)
      (if contains "trend_change_alert" line
       then trend_changes acc + 1 else trend_changes acc)
      (system_alerts acc)
  else if contains "SYSTEM_ALERT:" line then
    mkAlertStatistics (total_alerts acc) (trend_changes acc)
                      (system_alerts acc + 1)
  else acc.

(** [log] is the content of the log file, line by line; [None] when the
    file does not exist or reading it raises. *)
Definition get_alert_statistics (log : option (list string)) : AlertStatistics :=
  match log with
  | None => no_alerts
  | Some lines => fold_left count_line lines no_alerts
  end.

(** The line the logger writes for one [send_system_alert]:
    ['%(asctime)s - %(levelname)s - %(message)s'] with the message
    [f"SYSTEM_ALERT: {json}"]. *)
Definition system_alert_line (asctime levelname json : string) : string :=
  (asctime +:+ " - " +:+ levelname +:+ " - " +:+ "SYSTEM_ALERT: " +:+ json)%string.
End AlertManager.

(* ===================================================================== *)
(** * src/binance_api.py: the request loop

    [_make_request] below the method boundary used above.  [http_get log url]
    is what [session.get(url, ...)], [raise_for_status()] and
    [response.json()] give for [url] after the requests in [log]; the pause
    of [_rate_limit] is not modelled. *)
(* ===================================================================== *)

Module BinanceSession.
Section BinanceSession.
Variable Json : Type.
Variable http_get : list string -> string -> result Json.

Record t : Type := mk {
  base_url : string;
  api_endpoints : list string
}.

(** [__init__] *)
Definition init (base_url : option string) : t :=
  match base_url with
  | None => mk "https://data-api.binance.vision"
               ["https://data-api.binance.vision"]
  | Some url => mk url [url]
  end.

(** How a call ends: with the decoded body, by raising an exception, or, when
    the loop ran over no endpoint, at [raise None] (a [TypeError]). *)
Inductive outcome : Type :=
  | Answer (data : Json)
  | Raised (e : exn)
  | RaiseNone.

(** The [for api_url in self.api_endpoints] loop.  Only a
    [RequestException] is caught; any other exception leaves the loop. *)
Fixpoint try_endpoints (endpoint : string) (urls : list string)
    (last_exception : option exn) (self : t) (log : list string)
  : outcome * t * list string :=
  match urls with
  | [] =>
      (match last_exception with
       | Some e => Raised e
       | None => RaiseNone
       end, self, log)
  | api_url :: urls =>
      let url := (api_url +:+ endpoint)%string in
      match http_get log url with
      | Return data =>
          (Answer data, mk api_url (api_endpoints self), log ++ [url])
      | Raise RequestException =>
          try_endpoints endpoint urls (Some RequestException) self (log ++ [url])
      | Raise e => (Raised e, self, log ++ [url])
      end
  end.

Definition _make_request (endpoint : string) (self : t) (log : list string)
  : outcome * t * list string :=
  try_endpoints endpoint (api_endpoints self) None self log.

End BinanceSession.
Arguments Answer {Json} data.
Arguments Raised {Json} e.
Arguments RaiseNone {Json}.
End BinanceSession.

(* ===================================================================== *)
(** * src/config_manager.py: merging and reading nested configurations

    A configuration is a Python dict with string keys; its values are dicts,
    [None], or anything else ([Leaf]: numbers, strings, booleans, lists).
    A dict is kept as its items in insertion order. *)
(* ===================================================================== *)

Module ConfigManager.
Section ConfigManager.
Variable Leaf : Type.

#[local] Set Warnings "-register-all".

Inductive value : Type :=
  | VDict (items : list (string * value))
  | VNone
  | VLeaf (v : Leaf).

(** [d.get(key)] with [None] for a missing key kept apart from a stored
    [None]. *)
Fixpoint dict_get (d : list (string * value)) (key : string) : option value :=
  match d with
  | [] => None
  | (k, v) :: d => if String.eqb key k then Some v else dict_get d key
  end.

(** [d[key] = v]: replaces the value in place or appends a new item. *)
Fixpoint dict_set (d : list (string * value)) (key : string) (v : value)
  : list (string * value) :=
  match d with
  | [] => [(key, v)]
  | (k, v0) :: d =>
      if String.eqb key k then (k, v) :: d else (k, v0) :: dict_set d key v
  end.

(** The loop of [_merge_configs] over [loaded.items()], with [merged]
    starting as a copy of [default]. *)
Fixpoint merge_into (merged : list (string * value)) (loaded : value)
    {struct loaded} : list (string * value) :=
  match loaded with
  | VDict items =>
      (fix loop (items merged : list (string * value)) {struct items}
         : list (string * value) :=
         match items with
         | [] => merged
         | (key, v) :: items =>
             loop items
               (dict_set merged key
                  (match dict_get merged key, v with
                   | Some (VDict d), VDict _ => VDict (merge_into d v)
                   | _, _ => v
                   end))
         end) items merged
  | _ => merged
  end.

Definition _merge_configs (default loaded : list (string * value))
  : list (string * value) :=
  merge_into default (VDict loaded).

(** The loop of [_get_nested_value] over the keys of the path. *)
Fixpoint get_path (v : value) (keys : list string) : value :=
  match keys with
  | [] => v
  | key :: keys =>
      match v with
      | VDict d =>
          match dict_get d key with
          | Some v' => get_path v' keys
          | None => VNone
          end
      | _ => VNone
      end
  end.

Definition _get_nested_value (config : list (string * value)) (path : string)
  : value :=
  get_path (VDict config) (split_on "."%char path).

(** No key occurs twice in a dict, at any depth (true of every Python dict). *)
Fixpoint unique_keys (v : value) : Prop :=
  match v with
  | VDict items =>
      NoDup (map fst items)
      /\ (fix all (items : list (string * value)) : Prop :=
            match items with
            | [] => True
            | (_, v) :: items => unique_keys v /\ all items
            end) items
  | _ => True
  end.

(** The path runs into a missing key of one of [v]'s dicts. *)
Fixpoint absent (v : value) (keys : list string) : Prop :=
  match keys with
  | [] => False
  | key :: keys =>
      match v with
      | VDict d =>
          match dict_get d key with
          | Some v' => absent v' keys
          | None => True
          end
      | _ => False
      end
  end.

Definition is_dict (v : value) : bool :=
  match v with VDict _ => true | _ => false end.
End ConfigManager.
Arguments VDict {Leaf} items.
Arguments VNone {Leaf}.
Arguments VLeaf {Leaf} v.
Arguments dict_get {Leaf} d key.
Arguments dict_set {Leaf} d key v.
Arguments merge_into {Leaf} merged loaded.
Arguments _merge_configs {Leaf} default loaded.
Arguments get_path {Leaf} v keys.
Arguments _get_nested_value {Leaf} config path.
Arguments unique_keys {Leaf} v.
Arguments absent {Leaf} v keys.
Arguments is_dict {Leaf} v.
End ConfigManager.

(* ===================================================================== *)
(** * Scenarios for the further properties *)
(* ===================================================================== *)

Module Scenario.
(** A monitor of BTCUSDT on the hourly timeframe: stopped, running, and
    running on a degraded data source. *)
Definition stopped : @TrendMonitor.t binary64 :=
  Sample.monitor ["BTCUSDT"%string] ["1h"%string].

Definition running : @TrendMonitor.t binary64 := TrendMonitor.set_running stopped.

Definition degraded : @TrendMonitor.t binary64 :=
  TrendMonitor.mk ["BTCUSDT"%string] ["1h"%string] (HybridDataSource.mk true)
    Sample.analyzer ∅ true true.

(** Histories with one entry: a well-formed key, and the key of a symbol
    written with an underscore. *)
Definition tracked : @TrendMonitor.t binary64 :=
  TrendMonitor.set_trend_history stopped (<["BTCUSDT_1h"%string := UPTREND]> ∅).

Definition odd_key : @TrendMonitor.t binary64 :=
  TrendMonitor.set_trend_history stopped (<["BTC_USDT_1h"%string := UPTREND]> ∅).

(** The single candle the fallback source builds on [Sample.net_up]. *)
Definition fallback_frame : list (@Candle binary64) :=
  [@mkCandle binary64 1700000000000 30000%float 30300%float
     29700%float 30000%float 12%float].


(** A default configuration and a loaded file that names one parameter. *)
Definition default_config : list (string * ConfigManager.value Z) :=
  [ ("analysis"%string,
     ConfigManager.VDict
       [ ("rsi"%string,
          ConfigManager.VDict
            [ ("period"%string, ConfigManager.VLeaf 14%Z);
              ("overbought"%string, ConfigManager.VLeaf 70%Z) ]) ]);
    ("monitoring_interval"%string, ConfigManager.VLeaf 60%Z) ].

Definition loaded_config : list (string * ConfigManager.value Z) :=
  [ ("analysis"%string,
     ConfigManager.VDict
       [ ("rsi"%string,
          ConfigManager.VDict [ ("period"%string, ConfigManager.VLeaf 21%Z) ]) ]) ].
End Scenario.

(* ===================================================================== *)
(** * Properties *)
(* ===================================================================== *)

(** ** Python helpers *)

Lemma votes_acc (cs : list bool) (acc : nat) :
  fold_left (fun a (b : bool) => if b then S a else a) cs acc
  = acc + Spec.holding cs.
Proof.
  revert acc. induction cs as [|b cs IH]; intros acc; simpl.
  - unfold Spec.holding. simpl. lia.
  - rewrite IH. unfold Spec.holding. destruct b; simpl; lia.
Qed.

Lemma votes_holding (cs : list bool) : votes cs = Spec.holding cs.
Proof. unfold votes. now rewrite votes_acc. Qed.

Lemma iloc_last_Some {A} (df : list A) (r : A) :
  last df = Some r -> Pandas.iloc_last df = Return r.
Proof. unfold Pandas.iloc_last. now intros ->. Qed.

Lemma iloc_last_nonempty {A} (df : list A) :
  df <> [] -> exists r, last df = Some r.
Proof.
  intros Hne. destruct (last df) as [r|] eqn:E; [now exists r|].
  apply last_None in E. contradiction.
Qed.

Lemma tail_lookup_first {A} (n : nat) (df : list A) :
  Pandas.tail n df !! 0 = df !! (length df - Nat.min n (length df)).
Proof.
  unfold Pandas.tail. rewrite lookup_drop.
  f_equal. lia.
Qed.

Lemma tail_last {A} (n : nat) (df : list A) :
  1 <= n -> last (Pandas.tail n df) = last df.
Proof.
  intros Hn. unfold Pandas.tail.
  rewrite !last_lookup, lookup_drop, length_drop.
  destruct df as [|r df]; [reflexivity|].
  f_equal. simpl length. lia.
Qed.

Lemma iloc_first_lookup {A} (df : list A) (r : A) :
  df !! 0 = Some r -> Pandas.iloc_first df = Return r.
Proof. destruct df; simpl; [discriminate|]. now intros [= ->]. Qed.

(** ** Transition predicate *)

(** C2. [detect_trend_change] (called with the current trend first) is true
    exactly on the six alertable ordered pairs (previous, current); it is
    false whenever the previous trend is Unknown and on every same-state
    pair. *)
Theorem detect_trend_change_allow_list :
  (forall previous current : TrendType,
      detect_trend_change current previous = true <->
      (previous = SIDEWAYS /\ current = UPTREND) \/
      (previous = SIDEWAYS /\ current = DOWNTREND) \/
      (previous = UPTREND /\ current = SIDEWAYS) \/
      (previous = DOWNTREND /\ current = SIDEWAYS) \/
      (previous = UPTREND /\ current = DOWNTREND) \/
      (previous = DOWNTREND /\ current = UPTREND))
  /\ (forall current, detect_trend_change current UNKNOWN = false)
  /\ (forall t, detect_trend_change t t = false).
Proof.
  split; [|split].
  - intros previous current. split.
    + destruct previous, current; vm_compute; intros H;
        try discriminate H; tauto.
    + intros [[-> ->]|[[-> ->]|[[-> ->]|[[-> ->]|[[-> ->]|[-> ->]]]]]];
        reflexivity.
  - intros []; reflexivity.
  - intros []; reflexivity.
Qed.

(** ** Classifier *)

Section ClassifierFacts.
Context {N : Num}.
Variable self : Self.TrendAnalyzer.

Lemma analyze_trend_short (df : list Col.Row) :
  length df < required_length self ->
  analyze_trend self df = Return (UNKNOWN, Key.Reason insufficient_data).
Proof.
  intros Hlt. unfold analyze_trend.
  now apply Nat.ltb_lt in Hlt as ->.
Qed.

Lemma determine_trend_type_not_unknown recent analysis t :
  _determine_trend_type self recent analysis = Return t -> t <> UNKNOWN.
Proof.
  unfold _determine_trend_type.
  destruct (Pandas.iloc_last recent); simpl; [|discriminate].
  destruct (Pandas.iloc_first recent); simpl; [|discriminate].
  intros [= <-].
  repeat match goal with |- context [if ?c then _ else _] => destruct c end;
    discriminate.
Qed.

Lemma analyze_trend_long (df : list Col.Row) (latest first : Col.Row) :
  required_length self <= length df ->
  1 <= Self.trend_confirmation self ->
  last df = Some latest ->
  df !! (length df - Nat.min (Self.trend_confirmation self) (length df))
    = Some first ->
  exists t,
    analyze_trend self df = Return (t, Key.Indicators (Spec.snapshot latest))
    /\ Spec.first_rule_that_fires
         (Spec.holding (Spec.sideways (Self.sideways_threshold self) latest))
         (Spec.holding (Spec.uptrend (Self.sideways_threshold self) latest
                          (close (Col.candle first)) (close (Col.candle latest))))
         (Spec.holding (Spec.downtrend (Self.sideways_threshold self) latest
                          (close (Col.candle first)) (close (Col.candle latest))))
         t.
Proof.
  intros Hlen Hconf Hlast Hfirst.
  unfold analyze_trend.
  apply Nat.ltb_ge in Hlen as ->.
  rewrite (iloc_last_Some _ _ Hlast). cbn [bind].
  unfold _determine_trend_type.
  rewrite (iloc_last_Some (Pandas.tail _ df) latest)
    by (rewrite tail_last; assumption).
  rewrite (iloc_first_lookup (Pandas.tail _ df) first)
    by (rewrite tail_lookup_first; assumption).
  cbn [bind]. rewrite !votes_holding.
  eexists. split; [reflexivity|].
  cbn [Key.bb_position Key.bb_width Key.rsi Key.ma_diff_pct].
  fold (Spec.sideways (Self.sideways_threshold self) latest).
  fold (Spec.uptrend (Self.sideways_threshold self) latest
          (close (Col.candle first)) (close (Col.candle latest))).
  fold (Spec.downtrend (Self.sideways_threshold self) latest
          (close (Col.candle first)) (close (Col.candle latest))).
  unfold Spec.first_rule_that_fires.
  repeat match goal with
         | |- context [(?a <=? ?b)%nat] => destruct (Nat.leb_spec a b)
         end; repeat split; intros; first [reflexivity | lia].
Qed.

(** With an empty confirmation window the boundary closes do not exist and
    [.iloc] raises; the configuration keeps the window between 1 and 10. *)
Lemma analyze_trend_empty_window (df : list Col.Row) :
  required_length self <= length df ->
  Self.trend_confirmation self = 0 ->
  analyze_trend self df = Raise IndexError.
Proof.
  intros Hlen Hzero. unfold analyze_trend.
  apply Nat.ltb_ge in Hlen as ->.
  unfold Pandas.iloc_last at 1.
  destruct (last df) as [latest|]; cbn [bind]; [|reflexivity].
  unfold _determine_trend_type, Pandas.tail.
  rewrite Hzero, Nat.sub_0_r, drop_all. reflexivity.
Qed.

Lemma analyze_trend_never_unknown (df : list Col.Row) (a : Key.Analysis) :
  required_length self <= length df ->
  analyze_trend self df <> Return (UNKNOWN, a).
Proof.
  intros Hlen. unfold analyze_trend.
  apply Nat.ltb_ge in Hlen as ->.
  destruct (Pandas.iloc_last df) as [latest|]; cbn [bind]; [|discriminate].
  match goal with
  | |- context [_determine_trend_type self ?r ?s] =>
      destruct (_determine_trend_type self r s) as [t|] eqn:E
  end; cbn [bind]; [|discriminate].
  apply determine_trend_type_not_unknown in E.
  intros [= -> _]. now apply E.
Qed.
End ClassifierFacts.

(** C5. A series shorter than max(bb_period, rsi_period, ma_long) is
    classified (Unknown, {reason: insufficient data}) whatever it contains;
    a series of at least that length is never classified Unknown, and (for a
    non-empty series and a positive confirmation window) it is classified. *)
Theorem analyze_trend_insufficient_data {N : Num}
    (self : Self.TrendAnalyzer) (df : list Col.Row) :
  (length df < required_length self ->
     analyze_trend self df = Return (UNKNOWN, Key.Reason insufficient_data))
  /\ (required_length self <= length df ->
      forall a, analyze_trend self df <> Return (UNKNOWN, a))
  /\ (required_length self <= length df -> df <> [] ->
      1 <= Self.trend_confirmation self ->
      exists t s, analyze_trend self df = Return (t, Key.Indicators s)
                  /\ t <> UNKNOWN).
Proof.
  split; [|split].
  - apply analyze_trend_short.
  - intros Hlen a. now apply analyze_trend_never_unknown.
  - intros Hlen Hne Hconf.
    destruct (iloc_last_nonempty df Hne) as [latest Hlast].
    destruct (lookup_lt_is_Some_2 df
                (length df - Nat.min (Self.trend_confirmation self) (length df)))
      as [first Hfirst].
    { destruct df; [contradiction|]. simpl length. lia. }
    destruct (analyze_trend_long self df latest first Hlen Hconf Hlast Hfirst)
      as (t & Heq & _).
    exists t, (Spec.snapshot latest). split; [assumption|].
    intros ->. now apply (analyze_trend_never_unknown self df _ Hlen) in Heq.
Qed.

(** C1. On a series long enough to classify (non-empty, confirmation window
    of at least one row) the classifier returns the latest row's snapshot and
    the first rule that fires, in the order: Sideways when at least 3 of its 4
    conditions hold on the latest row; else Uptrend when at least 2 of its 3
    hold; else Downtrend when at least 2 of the mirrored 3 hold; else
    Sideways.  close[first] and close[last] are the closes at the two ends of
    the last [trend_confirmation] rows. *)
Theorem classifier_rule_precedence {N : Num}
    (self : Self.TrendAnalyzer) (df : list Col.Row) :
  required_length self <= length df ->
  df <> [] ->
  1 <= Self.trend_confirmation self ->
  exists (latest first : Col.Row) (t : TrendType),
    last df = Some latest
    /\ df !! (length df - Nat.min (Self.trend_confirmation self) (length df))
         = Some first
    /\ analyze_trend self df = Return (t, Key.Indicators (Spec.snapshot latest))
    /\ Spec.first_rule_that_fires
         (Spec.holding (Spec.sideways (Self.sideways_threshold self) latest))
         (Spec.holding (Spec.uptrend (Self.sideways_threshold self) latest
                          (close (Col.candle first)) (close (Col.candle latest))))
         (Spec.holding (Spec.downtrend (Self.sideways_threshold self) latest
                          (close (Col.candle first)) (close (Col.candle latest))))
         t.
Proof.
  intros Hlen Hne Hconf.
  destruct (iloc_last_nonempty df Hne) as [latest Hlast].
  destruct (lookup_lt_is_Some_2 df
              (length df - Nat.min (Self.trend_confirmation self) (length df)))
    as [first Hfirst].
  { destruct df; [contradiction|]. simpl length. lia. }
  destruct (analyze_trend_long self df latest first Hlen Hconf Hlast Hfirst)
    as (t & Heq & Hrule).
  now exists latest, first, t.
Qed.

(** ** Rolling computations are causal *)

Section Causality.
Context {N : Num}.
Import Shape.

Lemma length_rolling w agg (xs : list num) :
  length (Pandas.rolling w agg xs) = length xs.
Proof. unfold Pandas.rolling. now rewrite length_map, length_seq. Qed.

Lemma window_app w i (xs : list num) (x : num) :
  i < length xs -> w <= i + 1 ->
  Pandas.window w i (xs ++ [x]) = Pandas.window w i xs.
Proof.
  intros Hi Hw. unfold Pandas.window.
  rewrite drop_app_le by lia.
  rewrite take_app_le; [reflexivity|].
  rewrite length_drop. lia.
Qed.

Lemma rolling_snoc w agg (xs : list num) (x : num) :
  Pandas.rolling w agg (xs ++ [x])
  = Pandas.rolling w agg xs
    ++ [if length xs + 1 <? w then nan
        else agg (Pandas.window w (length xs) (xs ++ [x]))].
Proof.
  unfold Pandas.rolling.
  rewrite length_app. simpl length.
  rewrite seq_app, map_app. simpl.
  f_equal.
  apply map_ext_in. intros i Hi. apply in_seq in Hi.
  destruct (Nat.ltb_spec (i + 1) w) as [|Hge]; [reflexivity|].
  now rewrite window_app by lia.
Qed.

Lemma causal_rolling w agg : causal (Pandas.rolling w agg).
Proof.
  split; [apply length_rolling|].
  intros xs x. rewrite rolling_snoc. eauto.
Qed.

Lemma length_shift (xs : list num) : length (Pandas.shift xs) = length xs.
Proof.
  destruct xs as [|a xs]; [reflexivity|].
  unfold Pandas.shift.
  rewrite removelast_firstn_len. cbn [length].
  rewrite length_take. cbn [length Init.Nat.pred]. lia.
Qed.

Lemma shift_snoc (xs : list num) (x : num) :
  Pandas.shift (xs ++ [x]) = Pandas.shift xs ++ [List.last xs nan].
Proof.
  unfold Pandas.shift.
  destruct xs as [|a xs]; [reflexivity|].
  change ((a :: xs) ++ [x]) with (a :: (xs ++ [x])) at 1.
  cbv iota beta.
  change (a :: (xs ++ [x])) with ((a :: xs) ++ [x]).
  rewrite removelast_last.
  rewrite <- app_comm_cons. f_equal.
  apply app_removelast_last. discriminate.
Qed.

Lemma causal_shift : causal Pandas.shift.
Proof.
  split; [apply length_shift|].
  intros xs x. rewrite shift_snoc. eauto.
Qed.

Lemma causal_id {A} : causal (fun xs : list A => xs).
Proof. split; eauto. Qed.

Lemma causal_map {A B C} (g : B -> C) (f : list A -> list B) :
  causal f -> causal (fun xs => map g (f xs)).
Proof.
  intros [Hl Hs]. split.
  - intros xs. now rewrite length_map.
  - intros xs x. destruct (Hs xs x) as [y ->].
    rewrite map_app. simpl. eauto.
Qed.

Lemma causal_compose {A B C} (g : list B -> list C) (f : list A -> list B) :
  causal f -> causal g -> causal (fun xs => g (f xs)).
Proof.
  intros [Hlf Hsf] [Hlg Hsg]. split.
  - intros xs. now rewrite Hlg.
  - intros xs x. destruct (Hsf xs x) as [y ->]. apply Hsg.
Qed.

Lemma causal_zip_with {A B C D} (h : B -> C -> D)
    (f : list A -> list B) (g : list A -> list C) :
  causal f -> causal g -> causal (fun xs => zip_with h (f xs) (g xs)).
Proof.
  intros [Hlf Hsf] [Hlg Hsg]. split.
  - intros xs. rewrite length_zip_with, Hlf, Hlg. lia.
  - intros xs x.
    destruct (Hsf xs x) as [y ->]. destruct (Hsg xs x) as [z ->].
    rewrite zip_with_app by (now rewrite Hlf, Hlg).
    simpl. eauto.
Qed.

Lemma causal_zip {A B C} (f : list A -> list B) (g : list A -> list C) :
  causal f -> causal g -> causal (fun xs => zip (f xs) (g xs)).
Proof. apply causal_zip_with. Qed.

Lemma causal_diff : causal Pandas.diff.
Proof.
  unfold Pandas.diff.
  apply (causal_zip_with sub (fun xs => xs) Pandas.shift);
    [apply causal_id | apply causal_shift].
Qed.

Lemma causal_pct_change : causal Pandas.pct_change.
Proof.
  unfold Pandas.pct_change.
  apply (causal_zip_with _ (fun xs => xs) Pandas.shift);
    [apply causal_id | apply causal_shift].
Qed.

Lemma causal_where cond other : causal (Pandas.where_ cond other).
Proof. apply (causal_map _ (fun xs => xs)), causal_id. Qed.

Lemma causal_closes : causal (fun df : list Candle => map close df).
Proof. apply (causal_map close (fun df => df)), causal_id. Qed.

Variable self : Self.TrendAnalyzer.

Lemma causal_rsi : causal (calculate_rsi self).
Proof.
  unfold calculate_rsi. cbv zeta.
  apply (causal_map _ (fun df => zip_with div _ _)).
  apply causal_zip_with.
  - apply (causal_compose (Pandas.rolling_mean _)); [|apply causal_rolling].
    apply (causal_compose (Pandas.where_ _ _)); [|apply causal_where].
    apply (causal_compose Pandas.diff); [apply causal_closes|apply causal_diff].
  - apply (causal_compose (Pandas.rolling_mean _)); [|apply causal_rolling].
    apply (causal_map neg).
    apply (causal_compose (Pandas.where_ _ _)); [|apply causal_where].
    apply (causal_compose Pandas.diff); [apply causal_closes|apply causal_diff].
Qed.

Lemma causal_moving_averages : causal (calculate_moving_averages self).
Proof.
  unfold calculate_moving_averages. cbv zeta.
  apply causal_zip_with;
    (apply (causal_compose (Pandas.rolling_mean _));
     [apply causal_closes|apply causal_rolling]).
Qed.

Context {S : Sqrt N}.

Lemma causal_bollinger : causal (calculate_bollinger_bands self).
Proof.
  unfold calculate_bollinger_bands. cbv zeta.
  apply causal_zip_with; [apply causal_closes|].
  apply causal_zip;
    (apply (causal_compose (Pandas.rolling _ _));
     [apply causal_closes|apply causal_rolling]).
Qed.

Lemma causal_volatility period : causal (calculate_volatility period).
Proof.
  unfold calculate_volatility. cbv zeta.
  apply causal_zip_with; [apply causal_id|].
  apply causal_zip.
  - apply (causal_compose Pandas.pct_change);
      [apply causal_closes|apply causal_pct_change].
  - apply (causal_map (fun v => mul v _)).
    apply (causal_compose (Pandas.rolling_std _)); [|apply causal_rolling].
    apply (causal_compose Pandas.pct_change);
      [apply causal_closes|apply causal_pct_change].
Qed.

Lemma causal_full_analysis : causal (get_full_analysis self).
Proof.
  unfold get_full_analysis. cbv zeta.
  apply causal_zip_with.
  - apply causal_zip; [|apply causal_rsi].
    apply causal_zip; [apply causal_id|apply causal_bollinger].
  - apply causal_zip; [apply causal_moving_averages|apply causal_volatility].
Qed.

Lemma causal_lookup {A B} (f : list A -> list B) (xs : list A) (x : A) (i : nat) :
  causal f -> i < length xs ->
  exists r, f xs !! i = Some r /\ f (xs ++ [x]) !! i = Some r.
Proof.
  intros [Hl Hs] Hi.
  destruct (lookup_lt_is_Some_2 (f xs) i) as [r Hr]; [now rewrite Hl|].
  exists r. split; [assumption|].
  destruct (Hs xs x) as [y ->].
  now rewrite lookup_app_l by (now rewrite Hl).
Qed.
End Causality.

(** C9. Appending one candle to a series leaves the full indicator
    computation (Bollinger, RSI, moving averages, volatility) unchanged at
    every index of the original series -- in particular at every index before
    the trailing windows that end at the new point: the analysed frame of
    [s ++ [c]] is the analysed frame of [s] followed by one new row. *)
Theorem append_candle_keeps_earlier_rows {N : Num} {S : Sqrt N}
    (self : Self.TrendAnalyzer) (s : list Candle) (c : Candle) :
  length (get_full_analysis self s) = length s
  /\ (exists new_row,
        get_full_analysis self (s ++ [c]) = get_full_analysis self s ++ [new_row])
  /\ (forall i, i < length s ->
        exists row, get_full_analysis self s !! i = Some row
                    /\ get_full_analysis self (s ++ [c]) !! i = Some row).
Proof.
  pose proof (causal_full_analysis self) as Hc.
  split; [apply Hc|]. split; [apply Hc|].
  intros i Hi. now apply causal_lookup.
Qed.

(** ** Bollinger bands *)



(** ** RSI *)

Section RsiGeneric.
Context {N : Num}.
Variable self : Self.TrendAnalyzer.





End RsiGeneric.

(** ** Exact arithmetic: order facts *)

















Section ExactSums.
Local Existing Instance exact.




End ExactSums.

Section RsiExact.
Local Existing Instance exact.







End RsiExact.

(** ** binary64: a positive gain over a zero loss *)




(** ** Fallback source *)

Section Fallback.
Context {N : Num}.
Variable net : Network.
Import AlternativeDataSource.




End Fallback.


(** ** Failover *)

Section Failover.
Context {N : Num}.
Variable net : Network.
Import HybridDataSource.

Lemma primary_calls_snoc_other (tr : Trace) (e : Event) :
  is_primary_call e = false -> primary_calls (tr ++ [e]) = primary_calls tr.
Proof.
  intros He. unfold primary_calls.
  rewrite List.filter_app. simpl. rewrite He. apply app_nil_r.
Qed.

Lemma get_klines_alternative_no_primary symbol interval limit tr df tr' :
  AlternativeDataSource.get_klines_alternative net symbol interval limit tr
    = (df, tr') ->
  primary_calls tr' = primary_calls tr.
Proof.
  unfold AlternativeDataSource.get_klines_alternative,
    AlternativeDataSource.get_historical_data_coingecko. cbv zeta.
  destruct (AlternativeDataSource.symbol_mapping !! symbol) as [coin_id|].
  - destruct (coingecko_market_chart net tr coin_id _ _) as [data|].
    + destruct (imap _ (prices data)) eqn:Edf.
      * intros [= _ <-]. now apply primary_calls_snoc_other.
      * destruct (0 <? _); intros [= _ <-];
          now apply primary_calls_snoc_other.
    + intros [= _ <-]. now apply primary_calls_snoc_other.
  - now intros [= _ <-].
Qed.

Lemma get_current_price_coingecko_no_primary symbol tr p tr' :
  AlternativeDataSource.get_current_price_coingecko net symbol tr = (p, tr') ->
  primary_calls tr' = primary_calls tr.
Proof.
  unfold AlternativeDataSource.get_current_price_coingecko.
  destruct (AlternativeDataSource.symbol_mapping !! symbol) as [coin_id|].
  - destruct (coingecko_simple_price net tr coin_id);
      intros [= _ <-]; now apply primary_calls_snoc_other.
  - now intros [= _ <-].
Qed.

Lemma fallback_call_no_primary c tr r tr' :
  fallback_call net c tr = (r, tr') -> primary_calls tr' = primary_calls tr.
Proof.
  destruct c as [symbol interval limit|symbol]; simpl.
  - destruct (AlternativeDataSource.get_klines_alternative _ _ _ _ _) eqn:E.
    intros [= _ <-]. eapply get_klines_alternative_no_primary, E.
  - destruct (AlternativeDataSource.get_current_price_coingecko _ _ _) eqn:E.
    intros [= _ <-]. eapply get_current_price_coingecko_no_primary, E.
Qed.

Lemma fallback_calls_no_primary cs tr rs tr' :
  fallback_calls net cs tr = (rs, tr') -> primary_calls tr' = primary_calls tr.
Proof.
  revert tr rs tr'. induction cs as [|c cs IH]; intros tr rs tr'; simpl.
  - now intros [= _ <-].
  - destruct (fallback_call net c tr) as [r tr1] eqn:E1.
    destruct (fallback_calls net cs tr1) as [rs1 tr2] eqn:E2.
    intros [= _ <-].
    rewrite (IH _ _ _ E2). eapply fallback_call_no_primary, E1.
Qed.

(** Once degraded, a call is the fallback's answer and leaves the flag set. *)
Lemma degraded_call c self tr :
  use_alternative self = true ->
  call net c self tr
  = (let '(r, tr') := fallback_call net c tr in (r, self, tr')).
Proof.
  intros Hdeg. destruct c as [symbol interval limit|symbol]; simpl;
    unfold get_klines, get_ticker_price; rewrite Hdeg; cbn [negb].
  - now destruct (AlternativeDataSource.get_klines_alternative _ _ _ _ _).
  - now destruct (AlternativeDataSource.get_current_price_coingecko _ _ _).
Qed.

Lemma degraded_calls cs self tr :
  use_alternative self = true ->
  calls net cs self tr
  = (let '(rs, tr') := fallback_calls net cs tr in (rs, self, tr')).
Proof.
  intros Hdeg. revert tr. induction cs as [|c cs IH]; intros tr; simpl.
  - reflexivity.
  - rewrite degraded_call by assumption.
    destruct (fallback_call net c tr) as [r tr1].
    rewrite IH. now destruct (fallback_calls net cs tr1).
Qed.

Lemma get_klines_failure_degrades symbol interval limit self tr e :
  use_alternative self = false ->
  binance_klines net tr symbol interval limit = Raise e ->
  exists df tr',
    get_klines net symbol interval limit self tr
    = (df, {| use_alternative := true |}, tr').
Proof.
  intros Hprim Hfail. unfold get_klines, BinanceAPI.get_klines.
  rewrite Hprim, Hfail. cbn [negb].
  destruct (AlternativeDataSource.get_klines_alternative _ _ _ _ _) as [df tr'].
  eauto.
Qed.

Lemma get_ticker_price_failure_degrades symbol self tr e :
  use_alternative self = false ->
  binance_ticker net tr symbol = Raise e ->
  exists p tr',
    get_ticker_price net symbol self tr
    = (p, {| use_alternative := true |}, tr').
Proof.
  intros Hprim Hfail. unfold get_ticker_price, BinanceAPI.get_ticker_price.
  rewrite Hprim, Hfail. cbn [negb].
  destruct (AlternativeDataSource.get_current_price_coingecko _ _ _) as [p tr'].
  eauto.
Qed.
End Failover.

(** An empty answer of the primary is not a failure: the call is served by
    the fallback, and the flag stays clear. *)
Lemma empty_answer_keeps_primary {N : Num} (net : Network)
    symbol interval limit self tr :
  HybridDataSource.use_alternative self = false ->
  binance_klines net tr symbol interval limit = Return [] ->
  exists df tr',
    HybridDataSource.get_klines net symbol interval limit self tr
    = (df, self, tr').
Proof.
  intros Hprim Hempty.
  unfold HybridDataSource.get_klines, BinanceAPI.get_klines.
  rewrite Hprim, Hempty. cbn [negb length Nat.ltb Nat.leb].
  destruct (AlternativeDataSource.get_klines_alternative _ _ _ _ _) as [df tr'].
  eauto.
Qed.

(** C3. A failure (exception) of the primary source during [get_klines] or
    [get_ticker_price] sets [use_alternative]; and from a degraded instance,
    whatever the network would answer, any sequence of [get_klines] and
    [get_ticker_price] calls is answered by the fallback source alone, adds
    no request to the primary to the trace, and leaves the flag set. *)
Theorem failover_is_one_directional {N : Num} (net : Network) :
  (forall symbol interval limit self tr e,
      HybridDataSource.use_alternative self = false ->
      binance_klines net tr symbol interval limit = Raise e ->
      exists df tr',
        HybridDataSource.get_klines net symbol interval limit self tr
        = (df, HybridDataSource.mk true, tr'))
  /\ (forall symbol self tr e,
        HybridDataSource.use_alternative self = false ->
        binance_ticker net tr symbol = Raise e ->
        exists p tr',
          HybridDataSource.get_ticker_price net symbol self tr
          = (p, HybridDataSource.mk true, tr'))
  /\ (forall cs self tr,
        HybridDataSource.use_alternative self = true ->
        exists rs tr',
          HybridDataSource.calls net cs self tr = (rs, self, tr')
          /\ HybridDataSource.fallback_calls net cs tr = (rs, tr')
          /\ primary_calls tr' = primary_calls tr).
Proof.
  split; [|split].
  - intros. eapply get_klines_failure_degrades; eassumption.
  - intros. eapply get_ticker_price_failure_degrades; eassumption.
  - intros cs self tr Hdeg.
    rewrite (degraded_calls net cs self tr Hdeg).
    destruct (HybridDataSource.fallback_calls net cs tr) as [rs tr'] eqn:E.
    exists rs, tr'. repeat split; try assumption.
    eapply fallback_calls_no_primary, E.
Qed.

(** ** Scheduler *)

Section Scheduler.
Context {N : Num} {S : Sqrt N}.
Variable net : Network.
Import TrendMonitor.

(** The probe's result always has entries, so it is never falsy. *)
Lemma test_connectivity_truthy (api : HybridDataSource.t) (tr : Trace) :
  truthy (fst (HybridDataSource.test_connectivity net api tr)) = true.
Proof.
  unfold HybridDataSource.test_connectivity, BinanceAPI.test_connectivity,
    AlternativeDataSource.test_connectivity. cbv zeta. cbn [fst].
  unfold truthy. apply negb_true_iff, Nat.eqb_neq.
  eapply (map_size_ne_0_lookup_2 _ "cryptocompare"%string).
  eexists. apply lookup_union_Some_l, lookup_insert_eq.
Qed.

Lemma start_monitoring_always_starts (self : t) (tr : Trace) :
  is_monitoring self = false ->
  start_monitoring net self tr
  = (set_running self,
     snd (HybridDataSource.test_connectivity net (api self) tr)
     ++ [ThreadStarted; SystemAlert "INFO" "走势监测已开始"]).
Proof.
  intros Hstopped. unfold start_monitoring. rewrite Hstopped.
  pose proof (test_connectivity_truthy (api self) tr) as Ht.
  destruct (HybridDataSource.test_connectivity net (api self) tr) as [results tr'].
  cbn [fst snd] in *. now rewrite Ht.
Qed.

Lemma no_pairs_no_workers (self : t) :
  symbols self = [] \/ timeframes self = [] ->
  Z.min 10 (Z.of_nat (length (symbols self) * length (timeframes self))) = 0%Z.
Proof. intros [-> | ->]; simpl length; rewrite ?Nat.mul_0_r; reflexivity. Qed.

Lemma round_without_pairs (self : t) (tr : Trace) :
  symbols self = [] \/ timeframes self = [] ->
  _perform_monitoring_round net self tr = Raise ValueError.
Proof.
  intros Hempty. unfold _perform_monitoring_round. cbv zeta.
  now rewrite (no_pairs_no_workers self Hempty).
Qed.

Lemma loop_without_pairs (rounds : nat) (self : t) (tr : Trace) :
  symbols self = [] \/ timeframes self = [] ->
  is_monitoring self = true ->
  _monitoring_loop net rounds self tr
  = (self,
     tr ++ concat (repeat [SystemAlert "ERROR" ("监测循环出错: " +:+ str ValueError);
                           Sleep (Seconds 10)] rounds)).
Proof.
  intros Hempty Hrun. revert tr.
  induction rounds as [|rounds IH]; intros tr; simpl.
  - now rewrite app_nil_r.
  - rewrite Hrun. unfold loop_body.
    rewrite (round_without_pairs self tr Hempty).
    rewrite IH. now rewrite <- app_assoc.
Qed.
End Scheduler.

(** C4 (what the code does).  [start_monitoring] from the Stopped state
    launches the loop thread and sets [is_monitoring] whatever the
    connectivity probe found -- also when the primary source and both
    fallback probes are unreachable: the probe returns a dictionary with one
    entry per source, which is never falsy, so the abort branch (the ERROR
    alert) is not taken. *)
Theorem start_monitoring_never_aborts {N : Num}
    (net : Network) (self : TrendMonitor.t) (tr : Trace) :
  TrendMonitor.is_monitoring self = false ->
  binance_ping net tr = false ->
  (forall tr', coingecko_ping net tr' = Raise RequestException) ->
  (forall tr', cryptocompare_price net tr' = Raise RequestException) ->
  let '(results, tr1) :=
    HybridDataSource.test_connectivity net (TrendMonitor.api self) tr in
  results = {[ "binance"%string := false; "coingecko"%string := false;
               "cryptocompare"%string := false ]}
  /\ TrendMonitor.start_monitoring net self tr
     = (TrendMonitor.set_running self,
        tr1 ++ [ThreadStarted; SystemAlert "INFO" "走势监测已开始"]).
Proof.
  intros Hstopped Hb Hc Hcc.
  pose proof (start_monitoring_always_starts net self tr Hstopped) as Hstart.
  unfold HybridDataSource.test_connectivity, BinanceAPI.test_connectivity,
    AlternativeDataSource.test_connectivity in *. cbv zeta in *.
  rewrite Hb, Hc, Hcc in *. cbn [snd] in Hstart.
  split; [|exact Hstart].
  apply map_eq. intros k.
  rewrite lookup_union.
  repeat (rewrite ?lookup_insert, ?lookup_singleton, ?lookup_empty;
          try case_decide; subst; try done).
Qed.

(** C10. With no monitored pair (no symbol or no timeframe) the worker pool
    is asked for min(10, 0) = 0 workers and its construction raises, so the
    round fails before any task is submitted; the loop catches the error,
    sends a system alert and backs off 10 seconds, round after round: the
    monitor's state (its trend history included) never changes and no data
    request is ever issued. *)
Theorem empty_pair_set_rounds_fail {N : Num} {S : Sqrt N}
    (net : Network) (self : TrendMonitor.t) (tr : Trace) :
  TrendMonitor.symbols self = [] \/ TrendMonitor.timeframes self = [] ->
  ThreadPoolExecutor
    (Z.min 10 (Z.of_nat (length (TrendMonitor.symbols self)
                         * length (TrendMonitor.timeframes self))))
  = Raise ValueError
  /\ TrendMonitor._perform_monitoring_round net self tr = Raise ValueError
  /\ TrendMonitor.loop_body net self tr
     = (self,
        tr ++ [SystemAlert "ERROR" "监测循环出错: max_workers must be greater than 0";
               Sleep (Seconds 10)])
  /\ (TrendMonitor.is_monitoring self = true ->
      forall rounds,
        TrendMonitor._monitoring_loop net rounds self tr
        = (self,
           tr ++ concat
                   (repeat
                      [SystemAlert "ERROR"
                         "监测循环出错: max_workers must be greater than 0";
                       Sleep (Seconds 10)] rounds))).
Proof.
  intros Hempty. split; [|split; [|split]].
  - now rewrite (no_pairs_no_workers self Hempty).
  - now apply round_without_pairs.
  - unfold TrendMonitor.loop_body.
    now rewrite (round_without_pairs net self tr Hempty).
  - intros Hrun rounds. now apply loop_without_pairs.
Qed.

(* ===================================================================== *)
(** * The statements at sample inputs *)
(* ===================================================================== *)

Example literals_binary64 :
  dec (N:=binary64) 2 10 = 0.2%float /\ dec (N:=binary64) 8 10 = 0.8%float
  /\ dec (N:=binary64) 7 10 = 0.7%float /\ dec (N:=binary64) 3 10 = 0.3%float
  /\ dec (N:=binary64) 2 100 = 0.02%float.
Proof. repeat split; reflexivity. Qed.

Example classify_samples :
  fst <$> [ analyze_trend Sample.analyzer
              (get_full_analysis Sample.analyzer Sample.flat);
            analyze_trend Sample.analyzer
              (get_full_analysis Sample.analyzer Sample.rising);
            analyze_trend Sample.analyzer
              (get_full_analysis Sample.analyzer Sample.falling);
            analyze_trend Sample.analyzer
              (get_full_analysis Sample.analyzer Sample.quiet) ]
          ≫= (fun r => match r with Return x => [x] | Raise _ => [] end)
  = [UNKNOWN; UPTREND; DOWNTREND; SIDEWAYS].
Proof. vm_compute. reflexivity. Qed.

Example rsi_rising_binary64 :
  drop 14 (calculate_rsi Sample.analyzer Sample.rising) = repeat 100%float 26.
Proof. vm_compute. reflexivity. Qed.

Example fallback_fetch_30000 :
  HybridDataSource.get_klines Sample.net_up "BTCUSDT" "1h" 100
    (HybridDataSource.mk true) []
  = (Some [@mkCandle binary64 1700000000000 30000%float 30300%float
             29700%float 30000%float 12%float],
     HybridDataSource.mk true,
     [Requested (CoinGeckoMarketChart "bitcoin" 1 true)]).
Proof. vm_compute. reflexivity. Qed.

Example tracked_round :
  snd (TrendMonitor._monitoring_loop Sample.net_up 1
         (TrendMonitor.set_running (Sample.monitor ["BTCUSDT"] ["1h"])) [])
  = [Requested (BinanceKlines "BTCUSDT" "1h" 100); Sleep UntilNextRound]
  /\ TrendMonitor.trend_history
       (fst (TrendMonitor._monitoring_loop Sample.net_up 1
               (TrendMonitor.set_running (Sample.monitor ["BTCUSDT"] ["1h"])) []))
     !! "BTCUSDT_1h"%string = Some UPTREND.
Proof. split; vm_compute; reflexivity. Qed.

Lemma classifier_rule_precedence_witness :
  exists (latest first : Col.Row) (t : TrendType),
    analyze_trend Sample.analyzer
      (get_full_analysis Sample.analyzer Sample.rising)
    = Return (t, Key.Indicators (Spec.snapshot latest))
    /\ Spec.first_rule_that_fires
         (Spec.holding (Spec.sideways (dec 2 100) latest))
         (Spec.holding (Spec.uptrend (dec 2 100) latest
                          (close (Col.candle first)) (close (Col.candle latest))))
         (Spec.holding (Spec.downtrend (dec 2 100) latest
                          (close (Col.candle first)) (close (Col.candle latest))))
         t.
Proof.
  destruct (classifier_rule_precedence Sample.analyzer
              (get_full_analysis Sample.analyzer Sample.rising))
    as (latest & first & t & _ & _ & Heq & Hrule).
  - vm_compute. lia.
  - vm_compute. discriminate.
  - vm_compute. lia.
  - exists latest, first, t. split; assumption.
Defined.

Lemma analyze_trend_insufficient_data_witness :
  analyze_trend Sample.analyzer
    (get_full_analysis Sample.analyzer Sample.flat)
  = Return (UNKNOWN, Key.Reason insufficient_data).
Proof.
  apply (analyze_trend_insufficient_data Sample.analyzer
           (get_full_analysis Sample.analyzer Sample.flat)).
  vm_compute. lia.
Defined.

Lemma append_candle_keeps_earlier_rows_witness :
  exists row,
    get_full_analysis Sample.analyzer Sample.rising !! 35 = Some row
    /\ get_full_analysis Sample.analyzer
         (Sample.rising ++ [Sample.candle 40 150%float]) !! 35 = Some row.
Proof.
  apply (append_candle_keeps_earlier_rows Sample.analyzer Sample.rising
           (Sample.candle 40 150%float)).
  vm_compute. lia.
Defined.





Lemma failover_is_one_directional_witness :
  exists rs tr',
    HybridDataSource.calls Sample.net_up
      [HybridDataSource.GetKlines "BTCUSDT" "1h" 100;
       HybridDataSource.GetTickerPrice "BTCUSDT"]
      (HybridDataSource.mk true) []
    = (rs, HybridDataSource.mk true, tr')
    /\ HybridDataSource.fallback_calls Sample.net_up
         [HybridDataSource.GetKlines "BTCUSDT" "1h" 100;
          HybridDataSource.GetTickerPrice "BTCUSDT"] []
       = (rs, tr')
    /\ primary_calls tr' = primary_calls [].
Proof.
  apply (proj2 (proj2 (failover_is_one_directional Sample.net_up))).
  reflexivity.
Defined.

Lemma start_monitoring_never_aborts_witness :
  TrendMonitor.start_monitoring Sample.net_down
    (Sample.monitor ["BTCUSDT"%string] ["1h"%string]) []
  = (TrendMonitor.set_running (Sample.monitor ["BTCUSDT"%string] ["1h"%string]),
     [Requested BinancePing; Requested CoinGeckoPing;
      Requested CryptoComparePrice; ThreadStarted;
      SystemAlert "INFO" "走势监测已开始"]).
Proof.
  apply (start_monitoring_never_aborts Sample.net_down
           (Sample.monitor ["BTCUSDT"%string] ["1h"%string]) []);
    reflexivity.
Defined.

Lemma empty_pair_set_rounds_fail_witness :
  TrendMonitor._perform_monitoring_round Sample.net_up
    (TrendMonitor.set_running (Sample.monitor [] ["1h"%string])) []
  = Raise ValueError.
Proof.
  apply (empty_pair_set_rounds_fail Sample.net_up
           (TrendMonitor.set_running (Sample.monitor [] ["1h"%string])) []).
  left. reflexivity.
Defined.

(* ===================================================================== *)
(** * Further properties of the code *)
(* ===================================================================== *)

(** ** What a fetch adds to the trace *)

Section FetchTrace.
Context {N : Num}.
Variable net : Network.

Lemma get_klines_alternative_trace symbol interval limit tr df tr' :
  AlternativeDataSource.get_klines_alternative net symbol interval limit tr
    = (df, tr') ->
  exists reqs, tr' = tr ++ map Requested reqs.
Proof.
  unfold AlternativeDataSource.get_klines_alternative,
    AlternativeDataSource.get_historical_data_coingecko. cbv zeta.
  destruct (AlternativeDataSource.symbol_mapping !! symbol) as [coin_id|].
  - destruct (coingecko_market_chart net tr coin_id _ _) as [data|].
    + destruct (imap _ (prices data)) eqn:Edf.
      * intros [= _ <-]. now eexists [_].
      * destruct (0 <? _); intros [= _ <-]; now eexists [_].
    + intros [= _ <-]. now eexists [_].
  - intros [= _ <-]. exists []. now rewrite app_nil_r.
Qed.

Lemma get_klines_trace symbol interval limit self tr df self' tr' :
  HybridDataSource.get_klines net symbol interval limit self tr
    = (df, self', tr') ->
  exists reqs, tr' = tr ++ map Requested reqs.
Proof.
  unfold HybridDataSource.get_klines, BinanceAPI.get_klines.
  destruct (negb _).
  - destruct (binance_klines net tr symbol interval limit) as [d|e].
    + destruct (0 <? length d).
      * intros [= _ _ <-]. now eexists [_].
      * destruct (AlternativeDataSource.get_klines_alternative _ _ _ _ _)
          as [df0 tr0] eqn:E.
        intros [= _ _ <-].
        apply get_klines_alternative_trace in E as [reqs ->].
        exists (BinanceKlines symbol interval limit :: reqs).
        now rewrite <- app_assoc.
    + destruct (AlternativeDataSource.get_klines_alternative _ _ _ _ _)
        as [df0 tr0] eqn:E.
      intros [= _ _ <-].
      apply get_klines_alternative_trace in E as [reqs ->].
      exists (BinanceKlines symbol interval limit :: reqs).
      now rewrite <- app_assoc.
  - destruct (AlternativeDataSource.get_klines_alternative _ _ _ _ _)
      as [df0 tr0] eqn:E.
    intros [= _ _ <-]. eapply get_klines_alternative_trace, E.
Qed.
End FetchTrace.

(** ** One worker task *)

Section Task.
Context {N : Num} {S : Sqrt N}.
Variable net : Network.
Import TrendMonitor.

Lemma analyze_trend_reason (a : Self.TrendAnalyzer) (df : list Col.Row) t r :
  analyze_trend a df = Return (t, Key.Reason r) -> t = UNKNOWN.
Proof.
  unfold analyze_trend. destruct (length df <? required_length a).
  - now intros [= <- _].
  - destruct (Pandas.iloc_last df); cbn [bind]; [|discriminate].
    destruct (_determine_trend_type _ _ _); cbn [bind]; discriminate.
Qed.

Lemma detect_from_unknown (cur : TrendType) :
  detect_trend_change cur UNKNOWN = false.
Proof. now destruct cur. Qed.

Lemma detect_to_unknown (prev : TrendType) :
  detect_trend_change UNKNOWN prev = false.
Proof. now destruct prev. Qed.

(** The three ways a task can end. *)
Lemma task_outcome symbol timeframe (self : t) (tr : Trace) :
  let '(df, api', tr1) :=
    HybridDataSource.get_klines net symbol timeframe 100 (api self) tr in
  let self1 := set_api self api' in
  let prev := default UNKNOWN (trend_history self !! pair_key symbol timeframe) in
  _monitor_symbol_timeframe net symbol timeframe self tr = (false, self1, tr1)
  \/ exists cur,
       let self2 :=
         set_trend_history self1
           (<[pair_key symbol timeframe := cur]> (trend_history self)) in
       (detect_trend_change cur prev = false
        /\ _monitor_symbol_timeframe net symbol timeframe self tr
           = (true, self2, tr1))
       \/ (detect_trend_change cur prev = true
           /\ exists price,
               _monitor_symbol_timeframe net symbol timeframe self tr
               = (true, self2,
                  tr1 ++ [TrendChangeAlert symbol timeframe prev cur price])).
Proof.
  unfold _monitor_symbol_timeframe.
  destruct (HybridDataSource.get_klines net symbol timeframe 100 (api self) tr)
    as [[df api'] tr1].
  cbv zeta.
  destruct df as [[|c df]|]; [now left| |now left].
  cbn [analyzer set_api].
  destruct (analyze_trend (analyzer self) _) as [[cur analysis]|e] eqn:E;
    [|now left].
  right. exists cur. cbn [trend_history set_api].
  fold (pair_key symbol timeframe).
  destruct (detect_trend_change cur _) eqn:D.
  - right. split; [reflexivity|].
    destruct analysis as [r|s].
    + apply analyze_trend_reason in E. subst cur.
      now rewrite detect_to_unknown in D.
    + eauto.
  - left. split; reflexivity.
Qed.

Lemma trend_alerts_requests (tr : Trace) (reqs : list Request) :
  trend_alerts (tr ++ map Requested reqs) = trend_alerts tr.
Proof.
  unfold trend_alerts. rewrite List.filter_app.
  induction reqs as [|r reqs IH]; simpl; [apply app_nil_r|exact IH].
Qed.

Lemma scheduling_requests (tr : Trace) (reqs : list Request) :
  scheduling (tr ++ map Requested reqs) = scheduling tr.
Proof.
  unfold scheduling. rewrite List.filter_app.
  induction reqs as [|r reqs IH]; simpl; [apply app_nil_r|exact IH].
Qed.

Lemma primary_calls_app (tr tr' : Trace) :
  primary_calls (tr ++ tr') = primary_calls tr ++ primary_calls tr'.
Proof. apply List.filter_app. Qed.


Lemma task_frame symbol timeframe (self : t) (tr : Trace) :
  let '(ok, self', tr') := _monitor_symbol_timeframe net symbol timeframe self tr in
  symbols self' = symbols self
  /\ timeframes self' = timeframes self
  /\ analyzer self' = analyzer self
  /\ is_monitoring self' = is_monitoring self
  /\ (forall k, k <> pair_key symbol timeframe ->
        trend_history self' !! k = trend_history self !! k)
  /\ (ok = false -> trend_history self' = trend_history self)
  /\ (ok = true -> is_Some (trend_history self' !! pair_key symbol timeframe)).
Proof.
  pose proof (task_outcome symbol timeframe self tr) as H.
  destruct (HybridDataSource.get_klines net symbol timeframe 100 (api self) tr)
    as [[df api'] tr1].
  cbv zeta in H.
  destruct H as [-> | [cur [[_ ->] | [_ [price ->]]]]]; cbn;
    repeat split; try done;
    try (intros k Hk; now rewrite lookup_insert_ne);
    try (intros _; rewrite lookup_insert_eq; eauto).
Qed.

Lemma trend_alerts_snoc_alert (tr : Trace) (e : Event) :
  is_trend_alert e = true -> trend_alerts (tr ++ [e]) = trend_alerts tr ++ [e].
Proof.
  intros He. unfold trend_alerts. rewrite List.filter_app. simpl.
  now rewrite He.
Qed.

Lemma scheduling_snoc_alert (tr : Trace) (e : Event) :
  is_trend_alert e = true -> scheduling (tr ++ [e]) = scheduling tr.
Proof.
  intros He. unfold scheduling. rewrite List.filter_app. simpl.
  rewrite He, orb_true_r. apply app_nil_r.
Qed.

Lemma task_alerts symbol timeframe (self : t) (tr : Trace) :
  let '(ok, self', tr') := _monitor_symbol_timeframe net symbol timeframe self tr in
  let prev := default UNKNOWN (trend_history self !! pair_key symbol timeframe) in
  (ok = false -> trend_alerts tr' = trend_alerts tr)
  /\ (ok = true ->
      exists cur,
        trend_history self' !! pair_key symbol timeframe = Some cur
        /\ ((detect_trend_change cur prev = false
             /\ trend_alerts tr' = trend_alerts tr)
            \/ (detect_trend_change cur prev = true
                /\ exists price,
                    trend_alerts tr'
                    = trend_alerts tr
                      ++ [TrendChangeAlert symbol timeframe prev cur price])))
  /\ scheduling tr' = scheduling tr.
Proof.
  pose proof (task_outcome symbol timeframe self tr) as H.
  destruct (HybridDataSource.get_klines net symbol timeframe 100 (api self) tr)
    as [[df api'] tr1] eqn:Eg.
  apply get_klines_trace in Eg as [reqs ->].
  cbv zeta in H.
  destruct H as [-> | [cur [[D ->] | [D [price ->]]]]]; cbv zeta.
  - repeat split; [now rewrite trend_alerts_requests|discriminate
                   |now rewrite scheduling_requests].
  - repeat split; [discriminate| |now rewrite scheduling_requests].
    intros _. exists cur. cbn. rewrite lookup_insert_eq. split; [reflexivity|].
    left. split; [assumption|now rewrite trend_alerts_requests].
  - repeat split; [discriminate| |].
    + intros _. exists cur. cbn. rewrite lookup_insert_eq.
      split; [reflexivity|]. right. split; [assumption|].
      exists price.
      rewrite trend_alerts_snoc_alert by reflexivity.
      now rewrite trend_alerts_requests.
    + rewrite scheduling_snoc_alert by reflexivity.
      now rewrite scheduling_requests.
Qed.

Lemma task_insufficient symbol timeframe (self : t) (tr : Trace)
    (df : list Candle) api' tr1 :
  HybridDataSource.get_klines net symbol timeframe 100 (api self) tr
    = (Some df, api', tr1) ->
  df <> [] ->
  length df < required_length (analyzer self) ->
  _monitor_symbol_timeframe net symbol timeframe self tr
  = (true,
     set_trend_history (set_api self api')
       (<[pair_key symbol timeframe := UNKNOWN]> (trend_history self)),
     tr1).
Proof.
  intros Hget Hne Hshort. unfold _monitor_symbol_timeframe.
  rewrite Hget. cbv zeta.
  destruct df as [|c df]; [contradiction|].
  cbn [analyzer set_api].
  rewrite analyze_trend_short
    by (now rewrite (proj1 (causal_full_analysis (analyzer self)))).
  now rewrite detect_to_unknown.
Qed.

Lemma task_degraded symbol timeframe (self : t) (tr : Trace) :
  HybridDataSource.use_alternative (api self) = true ->
  let '(ok, self', tr') := _monitor_symbol_timeframe net symbol timeframe self tr in
  api self' = api self /\ primary_calls tr' = primary_calls tr.
Proof.
  intros Hdeg.
  pose proof (task_outcome symbol timeframe self tr) as H.
  unfold HybridDataSource.get_klines in H. rewrite Hdeg in H. cbn [negb] in H.
  destruct (AlternativeDataSource.get_klines_alternative
              net symbol timeframe 100 tr) as [df tr1] eqn:E.
  apply get_klines_alternative_no_primary in E.
  cbv zeta in H.
  destruct H as [-> | [cur [[_ ->] | [_ [price ->]]]]]; cbn;
    (split; [reflexivity|]); try assumption.
  now rewrite primary_calls_snoc_other.
Qed.
End Task.

(** ** Rounds and the loop *)

Section Rounds.
Context {N : Num} {S : Sqrt N}.
Variable net : Network.
Import TrendMonitor.

Lemma run_tasks_frame pairs (self : t) (tr : Trace) (c e : nat) :
  let '(self', tr', c', e') := run_tasks net pairs self tr c e in
  symbols self' = symbols self
  /\ timeframes self' = timeframes self
  /\ analyzer self' = analyzer self
  /\ is_monitoring self' = is_monitoring self
  /\ c' + e' = c + e + length pairs
  /\ scheduling tr' = scheduling tr
  /\ (forall k, k ∉ map (fun p => pair_key (fst p) (snd p)) pairs ->
        trend_history self' !! k = trend_history self !! k).
Proof.
  revert self tr c e.
  induction pairs as [|[symbol timeframe] pairs IH]; intros self tr c e.
  - simpl. repeat split; lia.
  - cbn [run_tasks].
    pose proof (task_frame net symbol timeframe self tr) as Hf.
    pose proof (task_alerts net symbol timeframe self tr) as Ha.
    destruct (_monitor_symbol_timeframe net symbol timeframe self tr)
      as [[ok self1] tr1].
    destruct Hf as (Hs & Ht & Han & Hm & Hk & _ & _).
    destruct Ha as (_ & _ & Hsch).
    destruct ok.
    + specialize (IH self1 tr1 (c + 1) e).
      destruct (run_tasks net pairs self1 tr1 (c + 1) e) as [[[self2 tr2] c2] e2].
      destruct IH as (Hs2 & Ht2 & Han2 & Hm2 & Hc2 & Hsch2 & Hk2).
      repeat split; try congruence.
      * simpl length. lia.
      * intros k Hnot. cbn [map fst snd] in Hnot.
        apply not_elem_of_cons in Hnot as [Hne Hnot].
        rewrite Hk2 by assumption. now apply Hk.
    + specialize (IH self1 tr1 c (e + 1)).
      destruct (run_tasks net pairs self1 tr1 c (e + 1)) as [[[self2 tr2] c2] e2].
      destruct IH as (Hs2 & Ht2 & Han2 & Hm2 & Hc2 & Hsch2 & Hk2).
      repeat split; try congruence.
      * simpl length. lia.
      * intros k Hnot. cbn [map fst snd] in Hnot.
        apply not_elem_of_cons in Hnot as [Hne Hnot].
        rewrite Hk2 by assumption. now apply Hk.
Qed.

Lemma run_tasks_degraded pairs (self : t) (tr : Trace) (c e : nat) :
  HybridDataSource.use_alternative (api self) = true ->
  let '(self', tr', _, _) := run_tasks net pairs self tr c e in
  api self' = api self /\ primary_calls tr' = primary_calls tr.
Proof.
  revert self tr c e.
  induction pairs as [|[symbol timeframe] pairs IH]; intros self tr c e Hdeg.
  - simpl. now split.
  - cbn [run_tasks].
    pose proof (task_degraded net symbol timeframe self tr Hdeg) as Hd.
    destruct (_monitor_symbol_timeframe net symbol timeframe self tr)
      as [[ok self1] tr1].
    destruct Hd as [Hapi Hprim].
    assert (HybridDataSource.use_alternative (api self1) = true) as Hdeg1
      by now rewrite Hapi.
    destruct ok.
    + specialize (IH self1 tr1 (c + 1) e Hdeg1).
      destruct (run_tasks net pairs self1 tr1 (c + 1) e) as [[[self2 tr2] c2] e2].
      destruct IH. split; congruence.
    + specialize (IH self1 tr1 c (e + 1) Hdeg1).
      destruct (run_tasks net pairs self1 tr1 c (e + 1)) as [[[self2 tr2] c2] e2].
      destruct IH. split; congruence.
Qed.

Lemma pool_for_pairs (self : t) :
  symbols self <> [] -> timeframes self <> [] ->
  ThreadPoolExecutor
    (Z.min 10 (Z.of_nat (length (symbols self) * length (timeframes self))))
  = Return tt.
Proof.
  intros Hs Ht. unfold ThreadPoolExecutor.
  destruct (symbols self); [contradiction|].
  destruct (timeframes self); [contradiction|].
  simpl length.
  destruct (Z.leb_spec (Z.min 10 (Z.of_nat (Datatypes.S (length l)
                                             * Datatypes.S (length l0)))) 0);
    [lia|reflexivity].
Qed.

Lemma round_with_pairs (self : t) (tr : Trace) :
  symbols self <> [] -> timeframes self <> [] ->
  _perform_monitoring_round net self tr
  = (let '(self', tr', _, _) :=
       run_tasks net (MonitorOps.monitored_pairs self) self tr 0 0 in
     Return (self', tr')).
Proof.
  intros Hs Ht. unfold _perform_monitoring_round. cbv zeta.
  now rewrite (pool_for_pairs self Hs Ht).
Qed.

Lemma loop_body_with_pairs (self : t) (tr : Trace) :
  symbols self <> [] -> timeframes self <> [] ->
  let '(self', tr') := loop_body net self tr in
  symbols self' = symbols self
  /\ timeframes self' = timeframes self
  /\ analyzer self' = analyzer self
  /\ is_monitoring self' = is_monitoring self
  /\ scheduling tr' = scheduling tr ++ [Sleep UntilNextRound]
  /\ (forall k, k ∉ map (fun p => pair_key (fst p) (snd p))
                     (MonitorOps.monitored_pairs self) ->
        trend_history self' !! k = trend_history self !! k).
Proof.
  intros Hs Ht. unfold loop_body.
  rewrite (round_with_pairs self tr Hs Ht).
  pose proof (run_tasks_frame (MonitorOps.monitored_pairs self) self tr 0 0)
    as Hf.
  destruct (run_tasks net (MonitorOps.monitored_pairs self) self tr 0 0)
    as [[[self1 tr1] c1] e1].
  destruct Hf as (H1 & H2 & H3 & H4 & _ & H6 & H7).
  repeat split; try assumption.
  unfold scheduling in *. rewrite List.filter_app, H6. reflexivity.
Qed.

Lemma loop_with_pairs (rounds : nat) (self : t) (tr : Trace) :
  symbols self <> [] -> timeframes self <> [] ->
  is_monitoring self = true ->
  let '(self', tr') := _monitoring_loop net rounds self tr in
  symbols self' = symbols self
  /\ timeframes self' = timeframes self
  /\ is_monitoring self' = true
  /\ scheduling tr' = scheduling tr ++ repeat (Sleep UntilNextRound) rounds.
Proof.
  revert self tr. induction rounds as [|rounds IH]; intros self tr Hs Ht Hrun.
  - simpl. rewrite app_nil_r. now repeat split.
  - cbn [_monitoring_loop]. rewrite Hrun.
    pose proof (loop_body_with_pairs self tr Hs Ht) as Hb.
    destruct (loop_body net self tr) as [self1 tr1].
    destruct Hb as (H1 & H2 & _ & H4 & H5 & _).
    specialize (IH self1 tr1).
    destruct (_monitoring_loop net rounds self1 tr1) as [self2 tr2].
    destruct IH as (I1 & I2 & I3 & I4); try congruence.
    repeat split; try congruence.
    rewrite I4, H5, <- app_assoc. reflexivity.
Qed.

Lemma loop_body_degraded (self : t) (tr : Trace) :
  HybridDataSource.use_alternative (api self) = true ->
  let '(self', tr') := loop_body net self tr in
  api self' = api self /\ primary_calls tr' = primary_calls tr.
Proof.
  intros Hdeg. unfold loop_body, _perform_monitoring_round. cbv zeta.
  destruct (ThreadPoolExecutor _); cbn [bind].
  - pose proof (run_tasks_degraded
                  (flat_map (fun symbol => map (fun timeframe => (symbol, timeframe))
                                               (timeframes self)) (symbols self))
                  self tr 0 0 Hdeg) as Hd.
    destruct (run_tasks net _ self tr 0 0) as [[[self1 tr1] c1] e1].
    destruct Hd as [Ha Hp]. split; [assumption|].
    now rewrite primary_calls_snoc_other.
  - split; [reflexivity|].
    now rewrite primary_calls_app, app_nil_r.
Qed.

Lemma loop_degraded (rounds : nat) (self : t) (tr : Trace) :
  HybridDataSource.use_alternative (api self) = true ->
  let '(self', tr') := _monitoring_loop net rounds self tr in
  api self' = api self /\ primary_calls tr' = primary_calls tr.
Proof.
  revert self tr. induction rounds as [|rounds IH]; intros self tr Hdeg.
  - now simpl.
  - cbn [_monitoring_loop]. destruct (is_monitoring self); [|now split].
    pose proof (loop_body_degraded self tr Hdeg) as Hb.
    destruct (loop_body net self tr) as [self1 tr1].
    destruct Hb as [Ha Hp].
    specialize (IH self1 tr1).
    destruct (_monitoring_loop net rounds self1 tr1) as [self2 tr2].
    destruct IH as [Ia Ip]; [now rewrite Ha|].
    split; congruence.
Qed.
End Rounds.

(** ** Strings and keys *)

Lemma split_on_plain (c : Ascii.ascii) (s : string) :
  has_char c s = false -> split_on c s = [s].
Proof.
  induction s as [|a s IH]; simpl; [reflexivity|].
  intros H. apply orb_false_iff in H as [Ha Hs].
  rewrite Ha, (IH Hs). reflexivity.
Qed.

Lemma split_on_app (c : Ascii.ascii) (s1 s2 : string) :
  has_char c s1 = false ->
  split_on c (s1 +:+ String c s2) = s1 :: split_on c s2.
Proof.
  induction s1 as [|a s1 IH]; simpl.
  - intros _. now rewrite Ascii.eqb_refl.
  - intros H. apply orb_false_iff in H as [Ha Hs].
    rewrite Ha. fold (String.app s1 (String c s2)).
    now rewrite (IH Hs).
Qed.

(** Splitting a key gives back its symbol and timeframe, when neither holds
    an underscore. *)
Lemma split_pair_key (symbol timeframe : string) :
  has_char "_" symbol = false -> has_char "_" timeframe = false ->
  split_on "_" (pair_key symbol timeframe) = [symbol; timeframe].
Proof.
  intros Hs Ht. unfold pair_key.
  change ("_" +:+ timeframe)%string with (String "_" timeframe).
  now rewrite split_on_app, split_on_plain.
Qed.

Lemma pair_key_inj (s1 t1 s2 t2 : string) :
  has_char "_" s1 = false -> has_char "_" t1 = false ->
  has_char "_" s2 = false -> has_char "_" t2 = false ->
  pair_key s1 t1 = pair_key s2 t2 -> s1 = s2 /\ t1 = t2.
Proof.
  intros H1 H2 H3 H4 Heq.
  pose proof (split_pair_key s1 t1 H1 H2) as E1.
  rewrite Heq, (split_pair_key s2 t2 H3 H4) in E1.
  now injection E1 as -> ->.
Qed.

Lemma prefix_cons (a b : Ascii.ascii) (s1 s2 : string) :
  String.prefix (String a s1) (String b s2) = true
  <-> a = b /\ String.prefix s1 s2 = true.
Proof.
  cbn [String.prefix]. destruct (ascii_dec a b) as [->|Hne].
  - tauto.
  - split; [discriminate|]. intros [? _]. contradiction.
Qed.

Lemma prefix_pair_key (s1 s2 t : string) :
  has_char "_" s1 = false -> has_char "_" s2 = false ->
  String.prefix (s1 +:+ "_") (pair_key s2 t) = true -> s1 = s2.
Proof.
  unfold pair_key. revert s2.
  induction s1 as [|a s1 IH]; intros [|b s2];
    cbn [has_char String.app]; intros H1 H2 Hp.
  - reflexivity.
  - apply orb_false_iff in H2 as [Hb _].
    apply prefix_cons in Hp as [<- _].
    now rewrite Ascii.eqb_refl in Hb.
  - apply orb_false_iff in H1 as [Ha _].
    change (String a (s1 +:+ "_") )%string with (String a (s1 +:+ "_"))%string in Hp.
    apply prefix_cons in Hp as [-> _].
    now rewrite Ascii.eqb_refl in Ha.
  - apply orb_false_iff in H1 as [_ H1].
    apply orb_false_iff in H2 as [_ H2].
    apply prefix_cons in Hp as [-> Hp].
    f_equal. now apply IH.
Qed.

Lemma prefix_own_key (s t : string) :
  String.prefix (s +:+ "_") (pair_key s t) = true.
Proof.
  unfold pair_key. induction s as [|a s IH]; cbn [String.app].
  - apply prefix_cons. split; [reflexivity|now destruct t].
  - now apply prefix_cons.
Qed.

(** ** Adding and removing symbols *)

Section Membership.
Context {N : Num} {S : Sqrt N}.
Import TrendMonitor MonitorOps.

Lemma list_remove_other (x y : string) (l : list string) :
  y <> x -> y ∈ list_remove x l <-> y ∈ l.
Proof.
  intros Hne. induction l as [|z l IH]; simpl; [reflexivity|].
  destruct (String.eqb_spec x z) as [->|Hxz].
  - rewrite elem_of_cons. split; [tauto|]. intros [?|?]; congruence.
  - rewrite !elem_of_cons, IH. reflexivity.
Qed.

Lemma list_remove_NoDup (x : string) (l : list string) :
  NoDup l -> NoDup (list_remove x l) /\ x ∉ list_remove x l.
Proof.
  induction 1 as [|z l Hz Hl IH]; simpl.
  - split; [constructor|]. apply not_elem_of_nil.
  - destruct (String.eqb_spec x z) as [->|Hxz].
    + now split.
    + destruct IH as [IH1 IH2]. split.
      * constructor; [|assumption].
        intros Hin. apply Hz. now apply (list_remove_other x z l) in Hin.
      * rewrite not_elem_of_cons. now split.
Qed.

Lemma fold_delete_lookup (ks : list string) (h : gmap string TrendType) (k : string) :
  fold_left (fun h key => delete key h) ks h !! k
  = if bool_decide (k ∈ ks) then None else h !! k.
Proof.
  revert h. induction ks as [|key ks IH]; intros h; simpl.
  - reflexivity.
  - rewrite IH.
    destruct (decide (k = key)) as [->|Hne].
    + rewrite lookup_delete_eq.
      rewrite (bool_decide_eq_true_2 (key ∈ key :: ks)) by apply list_elem_of_here.
      now destruct (bool_decide (key ∈ ks)).
    + rewrite lookup_delete_ne by congruence.
      destruct (bool_decide (k ∈ ks)) eqn:E.
      * apply bool_decide_eq_true in E.
        rewrite bool_decide_eq_true_2; [reflexivity|].
        now apply list_elem_of_further.
      * apply bool_decide_eq_false in E.
        rewrite bool_decide_eq_false_2; [reflexivity|].
        rewrite not_elem_of_cons. now split.
Qed.

Lemma elem_of_keys_to_remove (symbol k : string) (h : gmap string TrendType) :
  k ∈ keys_to_remove symbol h
  <-> String.prefix (symbol +:+ "_") k = true /\ is_Some (h !! k).
Proof.
  unfold keys_to_remove.
  rewrite list_elem_of_In, filter_In, <- list_elem_of_In.
  rewrite list_elem_of_fmap. split.
  - intros [([k' t] & -> & Hin) Hp]. split; [assumption|].
    apply elem_of_map_to_list in Hin. eauto.
  - intros [Hp [t Ht]]. split; [|assumption].
    exists (k, t). split; [reflexivity|]. now apply elem_of_map_to_list.
Qed.

Lemma purge_lookup (symbol k : string) (h : gmap string TrendType) :
  fold_left (fun h key => delete key h) (keys_to_remove symbol h) h !! k
  = if String.prefix (symbol +:+ "_") k then None else h !! k.
Proof.
  rewrite fold_delete_lookup.
  destruct (bool_decide _) eqn:E.
  - apply bool_decide_eq_true, elem_of_keys_to_remove in E as [-> _].
    reflexivity.
  - apply bool_decide_eq_false in E.
    destruct (String.prefix _ k) eqn:Hp; [|reflexivity].
    destruct (h !! k) as [t|] eqn:Hk; [|reflexivity].
    exfalso. apply E, elem_of_keys_to_remove. eauto.
Qed.
End Membership.

(** X1. [add_symbol] appends the symbol when it is absent and does nothing
    (no change, no alert) when it is present; so adding twice is adding once,
    every monitored symbol stays monitored, a duplicate-free list stays
    duplicate-free, and the trend history is not touched. *)
Theorem add_symbol_is_idempotent {N : Num}
    (symbol : string) (self : TrendMonitor.t) (tr : Trace) :
  let '(self1, tr1) := MonitorOps.add_symbol symbol self tr in
  symbol ∈ TrendMonitor.symbols self1
  /\ (forall x, x ∈ TrendMonitor.symbols self -> x ∈ TrendMonitor.symbols self1)
  /\ (NoDup (TrendMonitor.symbols self) -> NoDup (TrendMonitor.symbols self1))
  /\ MonitorOps.add_symbol symbol self1 tr1 = (self1, tr1)
  /\ TrendMonitor.trend_history self1 = TrendMonitor.trend_history self
  /\ (symbol ∈ TrendMonitor.symbols self -> (self1, tr1) = (self, tr)).
Proof.
  unfold MonitorOps.add_symbol.
  destruct (bool_decide (symbol ∈ TrendMonitor.symbols self)) eqn:E.
  - apply bool_decide_eq_true in E.
    repeat split; try done.
    unfold MonitorOps.add_symbol. now rewrite bool_decide_eq_true_2.
  - apply bool_decide_eq_false in E. cbn.
    repeat split.
    + apply elem_of_app. right. apply list_elem_of_here.
    + intros x Hx. apply elem_of_app. now left.
    + intros Hnd. apply NoDup_app. repeat split; [assumption| |apply NoDup_singleton].
      intros x Hx Hin. apply list_elem_of_singleton in Hin. now subst.
    + unfold MonitorOps.add_symbol. cbn.
      rewrite bool_decide_eq_true_2; [reflexivity|].
      apply elem_of_app. right. apply list_elem_of_here.
    + intros Hin. contradiction.
Qed.

(** X2. [remove_symbol] of a monitored symbol drops its first occurrence
    from the list and deletes exactly the history entries whose key starts
    with "<symbol>_": all of that symbol's entries go, and (for names without
    underscores) every other symbol's entries stay; one INFO alert is sent.
    For a symbol that is not monitored nothing happens, stale entries
    included. *)
Theorem remove_symbol_purges_history {N : Num}
    (symbol : string) (self : TrendMonitor.t) (tr : Trace) :
  (symbol ∉ TrendMonitor.symbols self ->
     MonitorOps.remove_symbol symbol self tr = (self, tr))
  /\ (symbol ∈ TrendMonitor.symbols self ->
      let '(self1, tr1) := MonitorOps.remove_symbol symbol self tr in
      (forall k,
          TrendMonitor.trend_history self1 !! k
          = if String.prefix (symbol +:+ "_") k then None
            else TrendMonitor.trend_history self !! k)
      /\ (forall timeframe,
            TrendMonitor.trend_history self1 !! pair_key symbol timeframe = None)
      /\ (forall other timeframe,
            other <> symbol ->
            has_char "_" symbol = false -> has_char "_" other = false ->
            TrendMonitor.trend_history self1 !! pair_key other timeframe
            = TrendMonitor.trend_history self !! pair_key other timeframe)
      /\ TrendMonitor.symbols self1
         = list_remove symbol (TrendMonitor.symbols self)
      /\ (forall x, x <> symbol ->
            x ∈ TrendMonitor.symbols self1 <-> x ∈ TrendMonitor.symbols self)
      /\ (NoDup (TrendMonitor.symbols self) ->
          symbol ∉ TrendMonitor.symbols self1)
      /\ tr1 = tr ++ [SystemAlert "INFO" ("移除监测币种: " +:+ symbol)]).
Proof.
  unfold MonitorOps.remove_symbol. split.
  - intros Hnot. now rewrite bool_decide_eq_false_2.
  - intros Hin. rewrite bool_decide_eq_true_2 by assumption. cbn.
    repeat split.
    + intros k. apply purge_lookup.
    + intros timeframe. rewrite purge_lookup.
      now rewrite prefix_own_key.
    + intros other timeframe Hne Hs Ho. rewrite purge_lookup.
      destruct (String.prefix _ _) eqn:Hp; [|reflexivity].
      apply prefix_pair_key in Hp; congruence.
    + now apply list_remove_other.
    + now apply list_remove_other.
    + intros Hnd. now apply list_remove_NoDup.
Qed.

(** X3. After the only monitored symbol is removed, every later round
    raises at the construction of the worker pool (zero workers). *)
Theorem removing_last_symbol_fails_rounds {N : Num} {S : Sqrt N}
    (net : Network) (symbol : string) (self : TrendMonitor.t) (tr : Trace) :
  TrendMonitor.symbols self = [symbol] ->
  let '(self1, tr1) := MonitorOps.remove_symbol symbol self tr in
  TrendMonitor.symbols self1 = []
  /\ forall tr', TrendMonitor._perform_monitoring_round net self1 tr'
                 = Raise ValueError.
Proof.
  intros Hs. unfold MonitorOps.remove_symbol.
  rewrite bool_decide_eq_true_2 by (rewrite Hs; apply list_elem_of_here).
  assert (list_remove symbol (TrendMonitor.symbols self) = []) as Hrm.
  { rewrite Hs. simpl. now rewrite String.eqb_refl. }
  split.
  - cbn. exact Hrm.
  - intros tr'. apply round_without_pairs. left. cbn. exact Hrm.
Qed.

(** X4. A worker task never changes the monitored symbols, the timeframes,
    the analyzer or the running flag; it changes the trend history at most
    at its own key "<symbol>_<timeframe>"; when it fails the history is
    exactly as before, and when it succeeds its key has an entry. *)
Theorem task_changes_only_its_key {N : Num} {S : Sqrt N}
    (net : Network) (symbol timeframe : string)
    (self : TrendMonitor.t) (tr : Trace) :
  let '(ok, self', tr') :=
    TrendMonitor._monitor_symbol_timeframe net symbol timeframe self tr in
  TrendMonitor.symbols self' = TrendMonitor.symbols self
  /\ TrendMonitor.timeframes self' = TrendMonitor.timeframes self
  /\ TrendMonitor.analyzer self' = TrendMonitor.analyzer self
  /\ TrendMonitor.is_monitoring self' = TrendMonitor.is_monitoring self
  /\ (forall k, k <> pair_key symbol timeframe ->
        TrendMonitor.trend_history self' !! k
        = TrendMonitor.trend_history self !! k)
  /\ (ok = false ->
      TrendMonitor.trend_history self' = TrendMonitor.trend_history self)
  /\ (ok = true ->
      is_Some (TrendMonitor.trend_history self' !! pair_key symbol timeframe)).
Proof. apply task_frame. Qed.

(** X5. A task that fails sends no trend alert.  A task that succeeds stores
    the new trend and sends exactly one trend alert, carrying the previous
    and the new trend, when [detect_trend_change] accepts the pair, and none
    otherwise; in particular the first observation of a pair, and any
    observation after an Unknown one, is never alerted.  A task adds no
    system alert and no sleep to the trace. *)
Theorem task_alerts_exactly_on_allowed_transitions {N : Num} {S : Sqrt N}
    (net : Network) (symbol timeframe : string)
    (self : TrendMonitor.t) (tr : Trace) :
  let '(ok, self', tr') :=
    TrendMonitor._monitor_symbol_timeframe net symbol timeframe self tr in
  let prev :=
    default UNKNOWN
      (TrendMonitor.trend_history self !! pair_key symbol timeframe) in
  (ok = false -> trend_alerts tr' = trend_alerts tr)
  /\ (ok = true ->
      exists cur,
        TrendMonitor.trend_history self' !! pair_key symbol timeframe = Some cur
        /\ ((detect_trend_change cur prev = false
             /\ trend_alerts tr' = trend_alerts tr)
            \/ (detect_trend_change cur prev = true
                /\ exists price,
                    trend_alerts tr'
                    = trend_alerts tr
                      ++ [TrendChangeAlert symbol timeframe prev cur price])))
  /\ (prev = UNKNOWN -> trend_alerts tr' = trend_alerts tr)
  /\ scheduling tr' = scheduling tr.
Proof.
  pose proof (task_alerts net symbol timeframe self tr) as H.
  destruct (TrendMonitor._monitor_symbol_timeframe net symbol timeframe self tr)
    as [[ok self'] tr'].
  cbv zeta in *. destruct H as (Hf & Ht & Hs).
  repeat split; try assumption.
  intros Hprev. destruct ok; [|now apply Hf].
  destruct (Ht eq_refl) as (cur & _ & [[_ H]|[D _]]); [assumption|].
  rewrite Hprev, detect_from_unknown in D. discriminate.
Qed.

(** X6. When the fetched frame is non-empty but shorter than the analyzer
    needs, the task still counts as a success: it overwrites the pair's
    entry with Unknown and sends no alert. *)
Theorem short_history_is_recorded_as_unknown {N : Num} {S : Sqrt N}
    (net : Network) (symbol timeframe : string)
    (self : TrendMonitor.t) (tr : Trace)
    (df : list Candle) (api' : HybridDataSource.t) (tr1 : Trace) :
  HybridDataSource.get_klines net symbol timeframe 100
    (TrendMonitor.api self) tr = (Some df, api', tr1) ->
  df <> [] ->
  length df < required_length (TrendMonitor.analyzer self) ->
  TrendMonitor._monitor_symbol_timeframe net symbol timeframe self tr
  = (true,
     TrendMonitor.set_trend_history (TrendMonitor.set_api self api')
       (<[pair_key symbol timeframe := UNKNOWN]>
          (TrendMonitor.trend_history self)),
     tr1).
Proof. apply task_insufficient. Qed.

Lemma length_monitored_pairs {N : Num} (self : TrendMonitor.t) :
  length (MonitorOps.monitored_pairs self)
  = length (TrendMonitor.symbols self) * length (TrendMonitor.timeframes self).
Proof.
  unfold MonitorOps.monitored_pairs.
  induction (TrendMonitor.symbols self) as [|s l IH]; simpl; [reflexivity|].
  now rewrite length_app, length_map, IH.
Qed.

(** X7. With at least one symbol and one timeframe a round never raises,
    whatever the network does: every pair's task ends as a success or as a
    counted failure (the two counts add up to symbols x timeframes), the
    monitored lists and the running flag are as before, only the history
    entries of the monitored pairs can have changed, and the round adds no
    system alert and no sleep. *)
Theorem round_with_pairs_never_raises {N : Num} {S : Sqrt N}
    (net : Network) (self : TrendMonitor.t) (tr : Trace) :
  TrendMonitor.symbols self <> [] ->
  TrendMonitor.timeframes self <> [] ->
  exists self' tr' completed_count error_count,
    TrendMonitor.run_tasks net (MonitorOps.monitored_pairs self) self tr 0 0
      = (self', tr', completed_count, error_count)
    /\ TrendMonitor._perform_monitoring_round net self tr = Return (self', tr')
    /\ completed_count + error_count
       = length (TrendMonitor.symbols self)
         * length (TrendMonitor.timeframes self)
    /\ TrendMonitor.symbols self' = TrendMonitor.symbols self
    /\ TrendMonitor.timeframes self' = TrendMonitor.timeframes self
    /\ TrendMonitor.is_monitoring self' = TrendMonitor.is_monitoring self
    /\ scheduling tr' = scheduling tr
    /\ (forall k,
          k ∉ map (fun p => pair_key (fst p) (snd p))
                  (MonitorOps.monitored_pairs self) ->
          TrendMonitor.trend_history self' !! k
          = TrendMonitor.trend_history self !! k).
Proof.
  intros Hs Ht.
  pose proof (run_tasks_frame net (MonitorOps.monitored_pairs self) self tr 0 0)
    as Hf.
  pose proof (round_with_pairs net self tr Hs Ht) as Hr.
  destruct (TrendMonitor.run_tasks net (MonitorOps.monitored_pairs self)
              self tr 0 0) as [[[self' tr'] c] e].
  destruct Hf as (H1 & H2 & _ & H4 & H5 & H6 & H7).
  exists self', tr', c, e. repeat split; try assumption.
  rewrite H5, length_monitored_pairs. reflexivity.
Qed.

(** X8. While at least one pair is monitored the loop never backs off: after
    any number of passes of a running monitor the trace holds one
    wait-for-the-next-round per pass and no system alert, and the monitor is
    still running on the same symbols and timeframes. *)
Theorem loop_with_pairs_never_backs_off {N : Num} {S : Sqrt N}
    (net : Network) (rounds : nat) (self : TrendMonitor.t) (tr : Trace) :
  TrendMonitor.symbols self <> [] ->
  TrendMonitor.timeframes self <> [] ->
  TrendMonitor.is_monitoring self = true ->
  let '(self', tr') := TrendMonitor._monitoring_loop net rounds self tr in
  TrendMonitor.symbols self' = TrendMonitor.symbols self
  /\ TrendMonitor.timeframes self' = TrendMonitor.timeframes self
  /\ TrendMonitor.is_monitoring self' = true
  /\ scheduling tr' = scheduling tr ++ repeat (Sleep UntilNextRound) rounds.
Proof. apply loop_with_pairs. Qed.

(** X9. Once the monitor's data source is degraded, no task of any later
    round contacts the primary source again: after any number of loop passes
    the data source is unchanged and the trace holds no new request for
    Binance klines or prices. *)
Theorem degraded_monitor_never_calls_primary {N : Num} {S : Sqrt N}
    (net : Network) (rounds : nat) (self : TrendMonitor.t) (tr : Trace) :
  HybridDataSource.use_alternative (TrendMonitor.api self) = true ->
  let '(self', tr') := TrendMonitor._monitoring_loop net rounds self tr in
  TrendMonitor.api self' = TrendMonitor.api self
  /\ primary_calls tr' = primary_calls tr.
Proof. apply loop_degraded. Qed.

(** ** Status *)

Section StatusFacts.
Context {N : Num}.
Import TrendMonitor MonitorOps.

Lemma summary_step_good acc s tf (t : TrendType) :
  has_char "_" s = false -> has_char "_" tf = false ->
  summary_step (Return acc) (pair_key s tf, t)
  = Return (<[s := <[tf := TrendType_value t]> (default ∅ (acc !! s))]> acc).
Proof.
  intros Hs Ht. unfold summary_step. cbn [bind fst snd].
  now rewrite split_pair_key.
Qed.

Lemma lookup_after_step (acc : gmap string (gmap string string))
    s0 tf0 v s tf :
  (s, tf) <> (s0, tf0) ->
  (<[s0 := <[tf0 := v]> (default ∅ (acc !! s0))]> acc !! s
     ≫= fun m => m !! tf)
  = (acc !! s ≫= fun m => m !! tf).
Proof.
  intros Hne. destruct (decide (s = s0)) as [->|Hs].
  - rewrite lookup_insert_eq. cbn.
    rewrite lookup_insert_ne by congruence.
    destruct (acc !! s0); [reflexivity|]. cbn. apply lookup_empty.
  - now rewrite lookup_insert_ne by congruence.
Qed.

Lemma summary_fold_ok (items : list (string * TrendType)) acc :
  NoDup (map fst items) ->
  Forall (fun it => well_formed_key (fst it)) items ->
  exists summary,
    fold_left summary_step items (Return acc) = Return summary
    /\ forall s tf,
        has_char "_" s = false -> has_char "_" tf = false ->
        (forall t, (pair_key s tf, t) ∈ items ->
           (summary !! s ≫= fun m => m !! tf) = Some (TrendType_value t))
        /\ ((forall t, (pair_key s tf, t) ∉ items) ->
            (summary !! s ≫= fun m => m !! tf)
            = (acc !! s ≫= fun m => m !! tf)).
Proof.
  revert acc. induction items as [|[k t0] rest IH]; intros acc Hnd Hwf.
  - exists acc. split; [reflexivity|]. intros s tf _ _. split.
    + intros t Hin. now apply elem_of_nil in Hin.
    + reflexivity.
  - cbn [map fst] in Hnd. apply NoDup_cons in Hnd as [Hk Hnd].
    apply Forall_cons in Hwf as [(s0 & tf0 & Hk0 & Hs0 & Htf0) Hwf].
    cbn [fst] in Hk0. subst k.
    cbn [fold_left]. rewrite summary_step_good by assumption.
    destruct (IH (<[s0 := <[tf0 := TrendType_value t0]>
                           (default ∅ (acc !! s0))]> acc) Hnd Hwf)
      as (summary & Hfold & Hlook).
    exists summary. split; [assumption|].
    intros s tf Hs Htf. destruct (Hlook s tf Hs Htf) as [Hin Hout].
    split.
    + intros t Ht. apply elem_of_cons in Ht as [Heq|Ht]; [|now apply Hin].
      injection Heq as Hkey ->.
      apply pair_key_inj in Hkey as [-> ->]; try assumption.
      rewrite Hout.
      * rewrite lookup_insert_eq. cbn. apply lookup_insert_eq.
      * intros t Ht. apply Hk. apply list_elem_of_fmap.
        now exists (pair_key s0 tf0, t).
    + intros Hnot. rewrite Hout.
      * apply lookup_after_step. intros [= -> ->].
        apply (Hnot t0), list_elem_of_here.
      * intros t Ht. apply (Hnot t). now apply list_elem_of_further.
Qed.

Lemma summary_fold_raise (items : list (string * TrendType)) e :
  fold_left summary_step items (Raise e) = Raise e.
Proof. induction items as [|it rest IH]; simpl; [reflexivity|exact IH]. Qed.

Lemma summary_fold_bad (items : list (string * TrendType)) acc k t :
  (k, t) ∈ items ->
  (forall s tf, split_on "_" k <> [s; tf]) ->
  fold_left summary_step items (Return acc) = Raise ValueError.
Proof.
  revert acc. induction items as [|[k0 t0] rest IH]; intros acc Hin Hbad.
  - now apply elem_of_nil in Hin.
  - cbn [fold_left].
    destruct (summary_step (Return acc) (k0, t0)) as [acc1|e] eqn:E.
    + apply elem_of_cons in Hin as [[= <- <-]|Hin]; [|now apply IH].
      unfold summary_step in E. cbn [bind fst] in E.
      destruct (split_on "_" k) as [|s [|tf [|x l]]] eqn:Es;
        try discriminate E.
      exfalso. exact (Hbad s tf eq_refl).
    + assert (e = ValueError) as ->.
      { unfold summary_step in E. cbn [bind fst] in E.
        destruct (split_on "_" k0) as [|s [|tf [|x l]]];
          now inversion E. }
      apply summary_fold_raise.
Qed.
End StatusFacts.

Lemma get_current_status_well_formed {N : Num} {A : Type}
    (stats : A) (self : TrendMonitor.t) :
  keys_well_formed self ->
  exists st,
    MonitorOps.get_current_status stats self = Return st
    /\ MonitorOps.status_is_monitoring st = TrendMonitor.is_monitoring self
    /\ MonitorOps.total_pairs st
       = length (TrendMonitor.symbols self)
         * length (TrendMonitor.timeframes self)
    /\ forall symbol timeframe,
        has_char "_" symbol = false -> has_char "_" timeframe = false ->
        (MonitorOps.trend_summary st !! symbol ≫= fun m => m !! timeframe)
        = TrendType_value
            <$> TrendMonitor.trend_history self !! pair_key symbol timeframe.
Proof.
  intros Hwf.
  destruct (summary_fold_ok (map_to_list (TrendMonitor.trend_history self)) ∅)
    as (summary & Hfold & Hlook).
  { apply NoDup_fst_map_to_list. }
  { apply Forall_forall. intros [k t] Hin.
    apply elem_of_map_to_list in Hin. eapply Hwf, Hin. }
  unfold MonitorOps.get_current_status. rewrite Hfold. cbn [bind].
  eexists. split; [reflexivity|]. cbn.
  repeat split.
  intros symbol timeframe Hs Ht.
  destruct (Hlook symbol timeframe Hs Ht) as [Hin Hout].
  destruct (TrendMonitor.trend_history self !! pair_key symbol timeframe)
    as [t|] eqn:E.
  - cbn. apply Hin. now apply elem_of_map_to_list.
  - cbn. rewrite Hout; [now rewrite lookup_empty|].
    intros t Ht'. apply elem_of_map_to_list in Ht'. congruence.
Qed.

(** X10. When every key of the trend history is "<symbol>_<timeframe>" with
    no underscore inside the symbol or the timeframe, the status query
    succeeds, reports symbols x timeframes as total_pairs, and its
    trend_summary gives, for every such symbol and timeframe, exactly the
    recorded trend's value -- and nothing for a pair without an entry. *)
Theorem status_reports_every_recorded_pair {N : Num} {A : Type}
    (stats : A) (self : TrendMonitor.t) :
  keys_well_formed self ->
  exists st,
    MonitorOps.get_current_status stats self = Return st
    /\ MonitorOps.status_is_monitoring st = TrendMonitor.is_monitoring self
    /\ MonitorOps.total_pairs st
       = length (TrendMonitor.symbols self)
         * length (TrendMonitor.timeframes self)
    /\ forall symbol timeframe,
        has_char "_" symbol = false -> has_char "_" timeframe = false ->
        (MonitorOps.trend_summary st !! symbol ≫= fun m => m !! timeframe)
        = TrendType_value
            <$> TrendMonitor.trend_history self !! pair_key symbol timeframe.
Proof. apply get_current_status_well_formed. Qed.

(** X11. A history key that does not split at underscores into exactly two
    parts (a symbol or timeframe containing an underscore, for instance)
    makes the status query raise ValueError. *)
Theorem status_raises_on_odd_key {N : Num} {A : Type}
    (stats : A) (self : TrendMonitor.t) (k : string) (t : TrendType) :
  TrendMonitor.trend_history self !! k = Some t ->
  (forall s tf, split_on "_" k <> [s; tf]) ->
  MonitorOps.get_current_status stats self = Raise ValueError.
Proof.
  intros Hk Hbad. unfold MonitorOps.get_current_status.
  rewrite (summary_fold_bad _ ∅ k t); [reflexivity| |assumption].
  now apply elem_of_map_to_list.
Qed.

(** ** The fallback source *)

Section FallbackFacts.
Context {N : Num}.
Variable net : Network.
Import AlternativeDataSource.

Lemma unsupported_lookup (symbol : string) :
  symbol ∉ get_supported_symbols <-> symbol_mapping !! symbol = None.
Proof.
  unfold get_supported_symbols. split.
  - intros Hnot. destruct (symbol_mapping !! symbol) as [c|] eqn:E; [|reflexivity].
    exfalso. apply Hnot. apply list_elem_of_fmap.
    exists (symbol, c). split; [reflexivity|]. now apply elem_of_map_to_list.
  - intros Hnone Hin. apply list_elem_of_fmap in Hin as ([k c] & -> & Hin).
    apply elem_of_map_to_list in Hin. cbn [fst] in Hnone. congruence.
Qed.

Lemma tail_lookup {A} (n : nat) (l : list A) (k : nat) :
  Pandas.tail n l !! k = l !! (length l - n + k).
Proof. unfold Pandas.tail. apply lookup_drop. Qed.

Lemma length_tail {A} (n : nat) (l : list A) :
  length (Pandas.tail n l) = Nat.min n (length l).
Proof. unfold Pandas.tail. rewrite length_drop. lia. Qed.

Lemma get_klines_alternative_rows symbol interval limit tr df tr' :
  get_klines_alternative net symbol interval limit tr = (Some df, tr') ->
  exists coin_id days hourly data,
    coingecko_market_chart net tr coin_id days hourly = Return data
    /\ tr' = tr ++ [Requested (CoinGeckoMarketChart coin_id days hourly)]
    /\ prices data <> []
    /\ length df = Nat.min limit (length (prices data))
    /\ forall k, k < length df ->
         df !! k
         = candle_of_price (total_volumes data)
             (length (prices data) - length df + k)
           <$> prices data !! (length (prices data) - length df + k).
Proof.
  unfold get_klines_alternative, get_historical_data_coingecko. cbv zeta.
  destruct (symbol_mapping !! symbol) as [coin_id|]; [|discriminate].
  set (days := default (1 # 1) (interval_to_days !! interval)).
  set (hourly := if Qle_bool days 1 then true else false).
  destruct (coingecko_market_chart net tr coin_id days hourly) as [data|] eqn:E;
    [|discriminate].
  set (full := imap (candle_of_price (total_volumes data)) (prices data)).
  assert (length full = length (prices data)) as Hlen by apply length_imap.
  assert (forall j, full !! j
                    = candle_of_price (total_volumes data) j <$> prices data !! j)
    as Hfull by (intros j; apply list_lookup_imap).
  clearbody full.
  destruct full as [|c full']; [discriminate|].
  set (full := c :: full') in *.
  replace (0 <? length full) with true by reflexivity.
  intros H. injection H as <- <-.
  exists coin_id, days, hourly, data.
  split; [assumption|]. split; [reflexivity|].
  split. { intros Hp. rewrite Hp in Hlen. discriminate. }
  change (S (length full')) with (length full).
  destruct (Nat.ltb_spec limit (length full)) as [Hlt|Hge].
  - rewrite length_tail. split; [lia|].
    intros k Hk. rewrite tail_lookup, <- Hfull.
    f_equal. lia.
  - split; [lia|]. intros k Hk.
    replace (length (prices data) - length full + k) with k by lia.
    apply Hfull.
Qed.
End FallbackFacts.

(** X12. For a symbol without a fallback mapping the fallback source answers
    None to price and candle requests without sending any request, and so
    does the failover wrapper once degraded. *)
Theorem unsupported_symbol_sends_no_request {N : Num}
    (net : Network) (symbol : string) :
  symbol ∉ get_supported_symbols ->
  (forall tr, AlternativeDataSource.get_current_price_coingecko net symbol tr
              = (None, tr))
  /\ (forall days tr,
        AlternativeDataSource.get_historical_data_coingecko net symbol days tr
        = (None, tr))
  /\ (forall interval limit tr,
        AlternativeDataSource.get_klines_alternative net symbol interval limit tr
        = (None, tr))
  /\ (forall interval limit self tr,
        HybridDataSource.use_alternative self = true ->
        HybridDataSource.get_klines net symbol interval limit self tr
        = (None, self, tr))
  /\ (forall self tr,
        HybridDataSource.use_alternative self = true ->
        HybridDataSource.get_ticker_price net symbol self tr = (None, self, tr)).
Proof.
  intros Hnot%unsupported_lookup.
  assert (forall interval limit tr,
             AlternativeDataSource.get_klines_alternative
               net symbol interval limit tr = (None, tr)) as Hk.
  { intros. unfold AlternativeDataSource.get_klines_alternative,
      AlternativeDataSource.get_historical_data_coingecko.
    now rewrite Hnot. }
  assert (forall tr, AlternativeDataSource.get_current_price_coingecko
                       net symbol tr = (None, tr)) as Hp.
  { intros. unfold AlternativeDataSource.get_current_price_coingecko.
    now rewrite Hnot. }
  repeat split.
  - exact Hp.
  - intros. unfold AlternativeDataSource.get_historical_data_coingecko.
    now rewrite Hnot.
  - exact Hk.
  - intros interval limit self tr Hdeg.
    unfold HybridDataSource.get_klines. rewrite Hdeg. cbn [negb].
    now rewrite Hk.
  - intros self tr Hdeg.
    unfold HybridDataSource.get_ticker_price. rewrite Hdeg. cbn [negb].
    now rewrite Hp.
Qed.

(** X13. A frame returned by [get_klines_alternative] holds the last
    min(limit, n) of the n prices of the market chart, in order, and its row k
    is built from the price and the volume found at that price's own index
    in the chart (so truncation does not shift volumes); exactly one request
    was sent. *)
Theorem fallback_frame_is_the_chart_tail {N : Num}
    (net : Network) (symbol interval : string) (limit : nat)
    (tr tr' : Trace) (df : list Candle) :
  AlternativeDataSource.get_klines_alternative net symbol interval limit tr
    = (Some df, tr') ->
  exists coin_id days hourly data,
    coingecko_market_chart net tr coin_id days hourly = Return data
    /\ tr' = tr ++ [Requested (CoinGeckoMarketChart coin_id days hourly)]
    /\ prices data <> []
    /\ length df = Nat.min limit (length (prices data))
    /\ forall k, k < length df ->
         df !! k
         = AlternativeDataSource.candle_of_price (total_volumes data)
             (length (prices data) - length df + k)
           <$> prices data !! (length (prices data) - length df + k).
Proof. apply get_klines_alternative_rows. Qed.

(** ** The failover wrapper while the primary answers *)

Section HealthyPrimary.
Context {N : Num}.
Variable net : Network.
Import HybridDataSource.

Hypothesis klines_answer :
  forall tr symbol interval limit e,
    binance_klines net tr symbol interval limit <> Raise e.
Hypothesis ticker_answer :
  forall tr symbol e, binance_ticker net tr symbol <> Raise e.

Lemma primary_calls_requests_of_fallback symbol interval limit tr df tr' :
  AlternativeDataSource.get_klines_alternative net symbol interval limit tr
    = (df, tr') ->
  primary_calls tr' = primary_calls tr.
Proof.
  unfold AlternativeDataSource.get_klines_alternative,
    AlternativeDataSource.get_historical_data_coingecko. cbv zeta.
  destruct (AlternativeDataSource.symbol_mapping !! symbol) as [coin_id|].
  - destruct (coingecko_market_chart net tr coin_id _ _) as [data|].
    + destruct (imap _ (prices data)) eqn:Edf.
      * intros [= _ <-]. apply primary_calls_snoc_other. reflexivity.
      * destruct (0 <? _); intros [= _ <-];
          apply primary_calls_snoc_other; reflexivity.
    + intros [= _ <-]. apply primary_calls_snoc_other. reflexivity.
  - now intros [= _ <-].
Qed.

Lemma healthy_call c self tr :
  use_alternative self = false ->
  let '(r, self', tr') := call net c self tr in
  use_alternative self' = false
  /\ length (primary_calls tr') = Datatypes.S (length (primary_calls tr)).
Proof.
  intros Hflag. destruct c as [symbol interval limit|symbol]; cbn [call].
  - unfold get_klines, BinanceAPI.get_klines. rewrite Hflag. cbn [negb].
    destruct (binance_klines net tr symbol interval limit) as [df|e] eqn:E;
      [|now apply klines_answer in E].
    destruct (0 <? length df).
    + split; [assumption|].
      rewrite primary_calls_app. cbn. rewrite length_app. cbn. lia.
    + destruct (AlternativeDataSource.get_klines_alternative _ _ _ _ _)
        as [df0 tr0] eqn:E0.
      split; [assumption|].
      apply primary_calls_requests_of_fallback in E0. rewrite E0.
      rewrite primary_calls_app. cbn. rewrite length_app. cbn. lia.
  - unfold get_ticker_price, BinanceAPI.get_ticker_price.
    rewrite Hflag. cbn [negb].
    destruct (binance_ticker net tr symbol) as [p|e] eqn:E;
      [|now apply ticker_answer in E].
    split; [assumption|].
    rewrite primary_calls_app. cbn. rewrite length_app. cbn. lia.
Qed.

Lemma healthy_calls cs self tr :
  use_alternative self = false ->
  let '(rs, self', tr') := calls net cs self tr in
  use_alternative self' = false
  /\ length (primary_calls tr') = length (primary_calls tr) + length cs.
Proof.
  revert self tr. induction cs as [|c cs IH]; intros self tr Hflag.
  - cbn. split; [assumption|lia].
  - cbn [calls].
    pose proof (healthy_call c self tr Hflag) as Hc.
    destruct (call net c self tr) as [[r self1] tr1].
    destruct Hc as [Hflag1 Hlen1].
    specialize (IH self1 tr1 Hflag1).
    destruct (calls net cs self1 tr1) as [[rs self2] tr2].
    destruct IH as [Hflag2 Hlen2].
    split; [assumption|]. cbn [length]. lia.
Qed.
End HealthyPrimary.

Section HybridFrames.
Context {N : Num}.
Variable net : Network.
Import HybridDataSource.

Lemma fallback_frame_nonempty symbol interval limit tr df tr' :
  1 <= limit ->
  AlternativeDataSource.get_klines_alternative net symbol interval limit tr
    = (Some df, tr') ->
  df <> [] /\ length df <= limit.
Proof.
  intros Hlimit H.
  apply get_klines_alternative_rows in H
    as (coin_id & days & hourly & data & _ & _ & Hne & Hlen & _).
  destruct (prices data) as [|p ps]; [congruence|].
  cbn [length] in Hlen. split; [|lia].
  intros ->. cbn in Hlen. lia.
Qed.

Lemma get_klines_nonempty symbol interval limit self tr df self' tr' :
  1 <= limit ->
  get_klines net symbol interval limit self tr = (Some df, self', tr') ->
  df <> [].
Proof.
  intros Hlimit. unfold get_klines, BinanceAPI.get_klines.
  destruct (negb _).
  - destruct (binance_klines net tr symbol interval limit) as [d|e].
    + destruct (0 <? length d) eqn:Hd.
      * intros [= <- _ _]. intros ->. discriminate.
      * destruct (AlternativeDataSource.get_klines_alternative _ _ _ _ _)
          as [df0 tr0] eqn:E.
        intros [= -> _ _]. now apply fallback_frame_nonempty in E.
    + destruct (AlternativeDataSource.get_klines_alternative _ _ _ _ _)
        as [df0 tr0] eqn:E.
      intros [= -> _ _]. now apply fallback_frame_nonempty in E.
  - destruct (AlternativeDataSource.get_klines_alternative _ _ _ _ _)
      as [df0 tr0] eqn:E.
    intros [= -> _ _]. now apply fallback_frame_nonempty in E.
Qed.

Lemma get_klines_limit_zero symbol interval self tr :
  use_alternative self = true ->
  forall df tr',
    AlternativeDataSource.get_klines_alternative net symbol interval 1 tr
      = (Some df, tr') ->
    get_klines net symbol interval 0 self tr = (Some [], self, tr').
Proof.
  intros Hflag df tr'. unfold get_klines. rewrite Hflag. cbn [negb].
  unfold AlternativeDataSource.get_klines_alternative. cbv zeta.
  destruct (AlternativeDataSource.get_historical_data_coingecko _ _ _ _)
    as [[full|] tr0]; [|discriminate].
  destruct full as [|c full]; [discriminate|].
  cbn [length Nat.ltb Nat.leb].
  intros [= _ <-]. unfold Pandas.tail.
  rewrite Nat.sub_0_r. now rewrite drop_all.
Qed.
End HybridFrames.

(** X14. While the primary source answers every request without raising,
    the failover wrapper never switches to the fallback: after any sequence
    of candle and price requests the flag is still clear, and each of them
    was sent to the primary. *)
Theorem healthy_primary_is_never_left {N : Num} (net : Network)
    (cs : list HybridDataSource.Call) (self : HybridDataSource.t) (tr : Trace) :
  (forall tr symbol interval limit e,
      binance_klines net tr symbol interval limit <> Raise e) ->
  (forall tr symbol e, binance_ticker net tr symbol <> Raise e) ->
  HybridDataSource.use_alternative self = false ->
  let '(rs, self', tr') := HybridDataSource.calls net cs self tr in
  HybridDataSource.use_alternative self' = false
  /\ length (primary_calls tr') = length (primary_calls tr) + length cs.
Proof. intros Hk Ht. now apply healthy_calls. Qed.

(** X15. Asked for at least one candle, the failover wrapper returns either
    None or a frame with at least one row, whichever source answered; asked
    for zero candles while degraded, it returns an empty frame wherever a
    request for one candle would have been served. *)
Theorem hybrid_frame_is_never_empty {N : Num} (net : Network)
    (symbol interval : string) (self : HybridDataSource.t) (tr : Trace) :
  (forall limit df self' tr',
      1 <= limit ->
      HybridDataSource.get_klines net symbol interval limit self tr
        = (Some df, self', tr') ->
      df <> [])
  /\ (HybridDataSource.use_alternative self = true ->
      forall df tr',
        AlternativeDataSource.get_klines_alternative net symbol interval 1 tr
          = (Some df, tr') ->
        HybridDataSource.get_klines net symbol interval 0 self tr
          = (Some [], self, tr')).
Proof.
  split.
  - intros limit df self' tr' Hlimit. now apply get_klines_nonempty.
  - apply get_klines_limit_zero.
Qed.

(** ** The on-demand analysis *)

Section OnDemand.
Context {N : Num} {S : Sqrt N}.
Variable net : Network.
Import TrendMonitor SymbolAnalysis.

Lemma length_full_analysis (a : Self.TrendAnalyzer) (df : list Candle) :
  length (get_full_analysis a df) = length df.
Proof. apply (causal_full_analysis a). Qed.

Lemma analysis_price (a : Self.TrendAnalyzer) (df : list Col.Row) t s latest :
  analyze_trend a df = Return (t, Key.Indicators s) ->
  Pandas.iloc_last df = Return latest ->
  s = Spec.snapshot latest.
Proof.
  unfold analyze_trend. destruct (length df <? required_length a); [discriminate|].
  intros H Hl. rewrite Hl in H. cbn [bind] in H.
  destruct (_determine_trend_type _ _ _); cbn [bind] in H; [|discriminate].
  now injection H as _ <-.
Qed.

Lemma get_symbol_analysis_task symbol timeframe (self : t) (tr : Trace) :
  let '(report, self1, tr1) := get_symbol_analysis net symbol timeframe self tr in
  let '(ok, self2, tr2) := _monitor_symbol_timeframe net symbol timeframe self tr in
  self1 = set_api self (api self2)
  /\ (exists reqs, tr1 = tr ++ map Requested reqs)
  /\ (tr2 = tr1
      \/ exists prev cur price,
           tr2 = tr1 ++ [TrendChangeAlert symbol timeframe prev cur price])
  /\ match report with
     | Some r =>
         ok = true
         /\ Report.symbol r = symbol /\ Report.timeframe r = timeframe
         /\ (exists cur,
               Report.current_trend r = TrendType_value cur
               /\ trend_history self2
                  = <[pair_key symbol timeframe := cur]> (trend_history self))
         /\ (forall s, Report.analysis r = Key.Indicators s ->
                       Key.price s = Report.price r
                       /\ Key.rsi s = Report.rsi (Report.technical_indicators r)
                       /\ Key.bb_position s
                          = Report.bb_position (Report.technical_indicators r))
     | None => ok = false /\ trend_history self2 = trend_history self
     end.
Proof.
  unfold get_symbol_analysis, _monitor_symbol_timeframe.
  destruct (HybridDataSource.get_klines net symbol timeframe 100 (api self) tr)
    as [[df api'] tr1] eqn:Eg.
  apply get_klines_trace in Eg as Htr.
  cbv zeta.
  destruct df as [[|c df]|].
  1, 3: repeat split; auto.
  cbn [analyzer set_api].
  set (rows := get_full_analysis (analyzer self) (c :: df)).
  assert (exists latest, Pandas.iloc_last rows = Return latest) as [latest Hl].
  { unfold Pandas.iloc_last.
    destruct (last rows) as [r|] eqn:El; [eauto|].
    apply last_None in El.
    pose proof (length_full_analysis (analyzer self) (c :: df)) as Hlen.
    fold rows in Hlen. rewrite El in Hlen. discriminate. }
  destruct (analyze_trend (analyzer self) rows) as [[cur analysis]|e] eqn:E.
  2: repeat split; auto.
  rewrite Hl. cbn [trend_history set_api].
  fold (pair_key symbol timeframe).
  assert (forall s, analysis = Key.Indicators s ->
                    Key.price s = close (Col.candle latest)
                    /\ Key.rsi s = Col.rsi latest
                    /\ Key.bb_position s = Col.bb_position (Col.bb latest))
    as Hs.
  { intros s ->. apply (analysis_price _ _ _ _ latest) in E; [|assumption].
    now subst s. }
  destruct (detect_trend_change cur _) eqn:D.
  - destruct analysis as [r|s].
    + apply analyze_trend_reason in E. subst cur.
      now rewrite detect_to_unknown in D.
    + repeat split; auto.
      * right. eauto.
      * exists cur. split; reflexivity.
      * apply Hs. assumption.
      * apply Hs. assumption.
      * apply Hs. assumption.
  - repeat split; auto.
    + exists cur. split; reflexivity.
    + apply Hs. assumption.
    + apply Hs. assumption.
    + apply Hs. assumption.
Qed.
End OnDemand.

(** X16. The on-demand analysis of a pair sends the same requests as a
    monitoring task for that pair and leaves the data source in the same
    state, but records nothing and alerts nobody: the trend history is not
    touched and the trace gains only requests.  It returns a report exactly
    when the task succeeds, the report names the trend the task records,
    and its price and indicators are those of the analysis snapshot. *)
Theorem on_demand_analysis_agrees_with_task {N : Num} {S : Sqrt N}
    (net : Network) (symbol timeframe : string)
    (self : TrendMonitor.t) (tr : Trace) :
  let '(report, self1, tr1) :=
    SymbolAnalysis.get_symbol_analysis net symbol timeframe self tr in
  let '(ok, self2, tr2) :=
    TrendMonitor._monitor_symbol_timeframe net symbol timeframe self tr in
  self1 = TrendMonitor.set_api self (TrendMonitor.api self2)
  /\ (exists reqs, tr1 = tr ++ map Requested reqs)
  /\ (tr2 = tr1
      \/ exists prev cur price,
           tr2 = tr1 ++ [TrendChangeAlert symbol timeframe prev cur price])
  /\ match report with
     | Some r =>
         ok = true
         /\ Report.symbol r = symbol /\ Report.timeframe r = timeframe
         /\ (exists cur,
               Report.current_trend r = TrendType_value cur
               /\ TrendMonitor.trend_history self2
                  = <[pair_key symbol timeframe := cur]>
                      (TrendMonitor.trend_history self))
         /\ (forall s, Report.analysis r = Key.Indicators s ->
                       Key.price s = Report.price r
                       /\ Key.rsi s = Report.rsi (Report.technical_indicators r)
                       /\ Key.bb_position s
                          = Report.bb_position (Report.technical_indicators r))
     | None =>
         ok = false
         /\ TrendMonitor.trend_history self2 = TrendMonitor.trend_history self
     end.
Proof. apply get_symbol_analysis_task. Qed.

(** ** The range of the RSI *)




Section RsiRange.
Local Existing Instance exact.
















End RsiRange.


(** ** The RSI of a falling series *)


Section RsiFalling.
Local Existing Instance exact.






End RsiFalling.


(** ** Alerts *)

Lemma append_cons (c : Ascii.ascii) (a r : string) :
  (String c a +:+ r)%string = String c (a +:+ r).
Proof. reflexivity. Qed.

Lemma prefix_refl_app (s r : string) : String.prefix s (s +:+ r) = true.
Proof.
  induction s as [|a s IH].
  - now destruct r.
  - rewrite append_cons. apply prefix_cons. auto.
Qed.

Lemma contains_cons (needle : string) (c : Ascii.ascii) (rest : string) :
  contains needle (String c rest)
  = String.prefix needle (String c rest) || contains needle rest.
Proof. reflexivity. Qed.

Lemma contains_nil (needle : string) :
  contains needle EmptyString = String.prefix needle EmptyString.
Proof. cbn [contains]. apply orb_false_r. Qed.

Lemma contains_prefix (needle hay : string) :
  String.prefix needle hay = true -> contains needle hay = true.
Proof.
  intros H. destruct hay; [now rewrite contains_nil|].
  now rewrite contains_cons, H.
Qed.

Lemma contains_skip (needle a rest : string) :
  contains needle rest = true -> contains needle (a +:+ rest) = true.
Proof.
  intros H. induction a as [|c a IH]; [assumption|].
  rewrite append_cons, contains_cons, IH. apply orb_true_r.
Qed.

Lemma contains_here (needle rest : string) :
  contains needle (needle +:+ rest) = true.
Proof. apply contains_prefix, prefix_refl_app. Qed.

Lemma contains_prefix_app (a b hay : string) :
  String.prefix (a +:+ b) hay = true -> contains b hay = true.
Proof.
  revert hay. induction a as [|c a IH]; intros hay H.
  - now apply contains_prefix.
  - rewrite append_cons in H. destruct hay as [|c' hay]; [discriminate|].
    apply prefix_cons in H as [_ H].
    rewrite contains_cons, (IH _ H). apply orb_true_r.
Qed.

Lemma contains_app (a b hay : string) :
  contains (a +:+ b) hay = true -> contains b hay = true.
Proof.
  induction hay as [|c hay IH].
  - rewrite contains_nil. apply contains_prefix_app.
  - rewrite (contains_cons (a +:+ b)). intros [H|H]%orb_true_iff.
    + apply contains_prefix_app in H. exact H.
    + rewrite contains_cons, (IH H). apply orb_true_r.
Qed.

Lemma system_marker_is_alert_marker (line : string) :
  contains "SYSTEM_ALERT:" line = true -> contains "ALERT:" line = true.
Proof. apply (contains_app "SYSTEM_" "ALERT:"). Qed.

Section AlertStatistics.
Import AlertManager.

Lemma count_line_system (acc : AlertStatistics) (line : string) :
  system_alerts (count_line acc line) = system_alerts acc.
Proof.
  unfold count_line.
  destruct (contains "ALERT:" line) eqn:E; [reflexivity|].
  destruct (contains "SYSTEM_ALERT:" line) eqn:E'; [|reflexivity].
  apply system_marker_is_alert_marker in E'. congruence.
Qed.

Lemma count_lines (lines : list string) (acc : AlertStatistics) :
  let stats := fold_left count_line lines acc in
  system_alerts stats = system_alerts acc
  /\ total_alerts stats
     = total_alerts acc + length (List.filter (contains "ALERT:") lines)
  /\ trend_changes stats
     = trend_changes acc
       + length (List.filter
                   (fun line => contains "ALERT:" line
                                && contains "trend_change_alert" line) lines).
Proof.
  revert acc. induction lines as [|line lines IH]; intros acc; cbn [fold_left].
  - cbn. lia.
  - specialize (IH (count_line acc line)). cbv zeta in IH |- *.
    destruct IH as (Hs & Ht & Hc). rewrite Hs, Ht, Hc, count_line_system.
    split; [reflexivity|].
    unfold count_line. cbn [List.filter].
    destruct (contains "ALERT:" line) eqn:E; cbn [andb].
    + destruct (contains "trend_change_alert" line);
        cbn [total_alerts trend_changes length]; lia.
    + destruct (contains "SYSTEM_ALERT:" line);
        cbn [total_alerts trend_changes length]; lia.
Qed.

Lemma filter_length_le {A} (p q : A -> bool) (l : list A) :
  (forall x, p x = true -> q x = true) ->
  length (List.filter p l) <= length (List.filter q l).
Proof.
  intros Hpq. induction l as [|x l IH]; cbn [List.filter]; [lia|].
  destruct (p x) eqn:E.
  - rewrite (Hpq x E). cbn [length]. lia.
  - destruct (q x); cbn [length]; lia.
Qed.
End AlertStatistics.

(** X19. The label table of the alert message and the alert allow-list
    agree: a transition gets one of the six specific labels exactly when
    [detect_trend_change] reports it, so no alert the monitor sends carries
    the generic label. *)
Theorem alert_labels_match_allow_list (previous_trend current_trend : TrendType) :
  detect_trend_change current_trend previous_trend = true
  <-> AlertManager._get_alert_type (TrendType_value previous_trend)
                                   (TrendType_value current_trend)
      <> AlertManager.generic_label.
Proof.
  destruct previous_trend, current_trend; vm_compute; split;
    first [discriminate | congruence | intros _; discriminate
          | intros H; exfalso; apply H; reflexivity].
Qed.

(** X20. Whatever the log file holds, [get_alert_statistics] reports zero
    system alerts: a line with the system marker also has the alert marker
    and is counted as an alert instead.  The trend changes are among the
    alerts counted, and every line the logger writes for a system alert
    adds one to the total. *)
Theorem system_alerts_are_counted_as_alerts :
  (forall log,
      let stats := AlertManager.get_alert_statistics log in
      AlertManager.system_alerts stats = 0
      /\ AlertManager.trend_changes stats <= AlertManager.total_alerts stats)
  /\ (forall lines asctime levelname json,
        AlertManager.total_alerts
          (AlertManager.get_alert_statistics
             (Some (lines ++ [AlertManager.system_alert_line
                                asctime levelname json])))
        = AlertManager.total_alerts
            (AlertManager.get_alert_statistics (Some lines)) + 1).
Proof.
  split.
  - intros log. cbv zeta.
    destruct log as [lines|]; cbn [AlertManager.get_alert_statistics].
    + destruct (count_lines lines AlertManager.no_alerts) as (Hs & Ht & Hc).
      rewrite Hs, Ht, Hc. cbn [AlertManager.no_alerts AlertManager.system_alerts
        AlertManager.total_alerts AlertManager.trend_changes Nat.add].
      split; [reflexivity|].
      apply filter_length_le. now intros x [H _]%andb_true_iff.
    + split; [reflexivity|]. cbn. lia.
  - intros lines asctime levelname json.
    cbn [AlertManager.get_alert_statistics].
    rewrite fold_left_app. cbn [fold_left].
    unfold AlertManager.count_line at 1.
    assert (contains "ALERT:"
              (AlertManager.system_alert_line asctime levelname json) = true)
      as ->.
    { apply system_marker_is_alert_marker.
      unfold AlertManager.system_alert_line.
      do 4 apply contains_skip.
      apply (contains_prefix_app "" "SYSTEM_ALERT:").
      apply (prefix_refl_app "SYSTEM_ALERT:" (" " +:+ json)). }
    reflexivity.
Qed.

(** ** The request loop of the primary source *)

Section RequestLoop.
Variable Json : Type.
Variable http_get : list string -> string -> result Json.
Import BinanceSession.




Lemma make_request_single (base : option string) endpoint (log : list string) :
  let self := init base in
  api_endpoints self = [base_url self]
  /\ _make_request Json http_get endpoint self log
     = (match http_get log (base_url self +:+ endpoint) with
        | Return data => Answer data
        | Raise e => Raised e
        end, self, log ++ [(base_url self +:+ endpoint)%string]).
Proof.
  destruct base as [url|]; cbn [init base_url api_endpoints];
    (split; [reflexivity|]);
    unfold _make_request; cbn [api_endpoints try_endpoints];
    destruct (http_get log _) as [data|[]]; reflexivity.
Qed.
End RequestLoop.


(** X22. A client built by [__init__], with or without a [base_url], has
    exactly one endpoint: each [_make_request] sends one request, to
    [base_url], returns or raises what that request gave, and never changes
    [base_url]. *)
Theorem constructed_client_has_one_endpoint (Json : Type)
    (http_get : list string -> string -> result Json)
    (base : option string) (endpoint : string) (log : list string) :
  let self := BinanceSession.init base in
  BinanceSession.api_endpoints self = [BinanceSession.base_url self]
  /\ BinanceSession._make_request Json http_get endpoint self log
     = (match http_get log (BinanceSession.base_url self +:+ endpoint) with
        | Return data => BinanceSession.Answer data
        | Raise e => BinanceSession.Raised e
        end, self,
        log ++ [(BinanceSession.base_url self +:+ endpoint)%string]).
Proof. apply make_request_single. Qed.

(** ** History keys across rounds *)

Section HistoryKeys.
Context {N : Num} {S : Sqrt N}.
Variable net : Network.
Import TrendMonitor.

Lemma monitored_keys_well_formed (self : t) (k : string) :
  Forall (fun s => has_char "_" s = false) (symbols self) ->
  Forall (fun tf => has_char "_" tf = false) (timeframes self) ->
  k ∈ map (fun p => pair_key (fst p) (snd p)) (MonitorOps.monitored_pairs self) ->
  well_formed_key k.
Proof.
  intros Hs Ht Hk.
  apply list_elem_of_fmap in Hk as ([s tf] & -> & Hin).
  unfold MonitorOps.monitored_pairs in Hin.
  apply list_elem_of_In, in_flat_map in Hin as (s' & Hs' & Hin).
  apply in_map_iff in Hin as (tf' & [= <- <-] & Htf').
  exists s', tf'. split; [reflexivity|]. split.
  - eapply Forall_forall in Hs; [exact Hs|]. now apply list_elem_of_In.
  - eapply Forall_forall in Ht; [exact Ht|]. now apply list_elem_of_In.
Qed.

Lemma loop_body_history (self : t) (tr : Trace) :
  let '(self', tr') := loop_body net self tr in
  symbols self' = symbols self
  /\ timeframes self' = timeframes self
  /\ (forall k, k ∉ map (fun p => pair_key (fst p) (snd p))
                     (MonitorOps.monitored_pairs self) ->
        trend_history self' !! k = trend_history self !! k).
Proof.
  unfold loop_body, _perform_monitoring_round. cbv zeta.
  destruct (ThreadPoolExecutor _); cbn [bind]; [|now repeat split].
  pose proof (run_tasks_frame net (MonitorOps.monitored_pairs self) self tr 0 0)
    as Hf.
  unfold MonitorOps.monitored_pairs in Hf.
  destruct (run_tasks net _ self tr 0 0) as [[[self1 tr1] c1] e1].
  destruct Hf as (H1 & H2 & _ & _ & _ & _ & H7).
  now repeat split.
Qed.

Lemma loop_body_keys (self : t) (tr : Trace) :
  Forall (fun s => has_char "_" s = false) (symbols self) ->
  Forall (fun tf => has_char "_" tf = false) (timeframes self) ->
  keys_well_formed self ->
  keys_well_formed (fst (loop_body net self tr)).
Proof.
  intros Hs Ht Hwf.
  pose proof (loop_body_history self tr) as Hb.
  destruct (loop_body net self tr) as [self1 tr1]. cbn [fst].
  destruct Hb as (_ & _ & Hk).
  intros k t Hlook.
  destruct (decide (k ∈ map (fun p => pair_key (fst p) (snd p))
                          (MonitorOps.monitored_pairs self))) as [Hin|Hnot].
  - now apply (monitored_keys_well_formed self).
  - rewrite (Hk k Hnot) in Hlook. eapply Hwf, Hlook.
Qed.

Lemma loop_keys (rounds : nat) (self : t) (tr : Trace) :
  Forall (fun s => has_char "_" s = false) (symbols self) ->
  Forall (fun tf => has_char "_" tf = false) (timeframes self) ->
  keys_well_formed self ->
  keys_well_formed (fst (_monitoring_loop net rounds self tr)).
Proof.
  revert self tr. induction rounds as [|rounds IH]; intros self tr Hs Ht Hwf.
  - exact Hwf.
  - cbn [_monitoring_loop]. destruct (is_monitoring self); [|exact Hwf].
    pose proof (loop_body_keys self tr Hs Ht Hwf) as Hk.
    pose proof (loop_body_history self tr) as Hb.
    destruct (loop_body net self tr) as [self1 tr1]. cbn [fst] in Hk.
    destruct Hb as (Hs1 & Ht1 & _).
    apply IH; [now rewrite Hs1|now rewrite Ht1|exact Hk].
Qed.
End HistoryKeys.

(** X23. When no monitored symbol and no timeframe holds an underscore and
    the history keys are well formed (as in a fresh monitor, whose history
    is empty), they stay well formed through any number of loop passes,
    whatever the network answers, and the status query then succeeds. *)
Theorem status_succeeds_after_any_rounds {N : Num} {S : Sqrt N} {A : Type}
    (net : Network) (rounds : nat) (stats : A)
    (self : TrendMonitor.t) (tr : Trace) :
  Forall (fun s => has_char "_" s = false) (TrendMonitor.symbols self) ->
  Forall (fun tf => has_char "_" tf = false) (TrendMonitor.timeframes self) ->
  keys_well_formed self ->
  let self' := fst (TrendMonitor._monitoring_loop net rounds self tr) in
  keys_well_formed self'
  /\ exists st, MonitorOps.get_current_status stats self' = Return st.
Proof.
  intros Hs Ht Hwf. cbv zeta.
  pose proof (loop_keys net rounds self tr Hs Ht Hwf) as Hk.
  split; [exact Hk|].
  destruct (get_current_status_well_formed stats _ Hk) as (st & Hst & _).
  now exists st.
Qed.

(** ** Merging configurations *)

Section Merge.
Context {Leaf : Type}.
Import ConfigManager.
Implicit Types (d default loaded merged : list (string * value Leaf)).

Lemma merge_nil default : _merge_configs default [] = default.
Proof. reflexivity. Qed.

Lemma merge_cons default key (v : value Leaf) loaded :
  _merge_configs default ((key, v) :: loaded)
  = _merge_configs
      (dict_set default key
         (match dict_get default key, v with
          | Some (VDict d), VDict l => VDict (_merge_configs d l)
          | _, _ => v
          end))
      loaded.
Proof.
  unfold _merge_configs. cbn [merge_into].
  destruct (dict_get default key) as [[d| |x]|]; destruct v; reflexivity.
Qed.

Lemma dict_get_set_eq d key (v : value Leaf) :
  dict_get (dict_set d key v) key = Some v.
Proof.
  induction d as [|[k v0] d IH]; cbn [dict_set dict_get].
  - now rewrite String.eqb_refl.
  - destruct (String.eqb key k) eqn:E; cbn [dict_get]; rewrite E; auto.
Qed.

Lemma dict_get_set_ne d key key' (v : value Leaf) :
  key' <> key -> dict_get (dict_set d key v) key' = dict_get d key'.
Proof.
  intros Hne. induction d as [|[k v0] d IH]; cbn [dict_set dict_get].
  - now apply String.eqb_neq in Hne as ->.
  - destruct (String.eqb key k) eqn:E; cbn [dict_get].
    + apply String.eqb_eq in E. subst k.
      now apply String.eqb_neq in Hne as ->.
    + now rewrite IH.
Qed.

Lemma dict_get_None d key :
  key ∉ map fst d -> dict_get d key = None.
Proof.
  induction d as [|[k v] d IH]; cbn [map fst dict_get]; [reflexivity|].
  intros [Hne Hnot]%not_elem_of_cons.
  apply String.eqb_neq in Hne as ->. now apply IH.
Qed.

Lemma keys_dict_set d key (v : value Leaf) k :
  k ∈ map fst (dict_set d key v) <-> k = key \/ k ∈ map fst d.
Proof.
  induction d as [|[k0 v0] d IH]; cbn [dict_set map fst].
  - rewrite list_elem_of_singleton, elem_of_nil. tauto.
  - destruct (String.eqb key k0) eqn:E; cbn [map fst].
    + apply String.eqb_eq in E. subst k0. rewrite elem_of_cons. tauto.
    + rewrite !elem_of_cons, IH. tauto.
Qed.

Lemma merge_lookup loaded : forall default key,
  NoDup (map fst loaded) ->
  dict_get (_merge_configs default loaded) key
  = match dict_get loaded key with
    | Some v =>
        Some (match dict_get default key, v with
              | Some (VDict d), VDict l => VDict (_merge_configs d l)
              | _, _ => v
              end)
    | None => dict_get default key
    end.
Proof.
  induction loaded as [|[k0 v0] loaded IH]; intros default key Hnd.
  - reflexivity.
  - cbn [map fst] in Hnd. apply NoDup_cons in Hnd as [Hk0 Hnd].
    rewrite merge_cons, IH by assumption. cbn [dict_get].
    destruct (String.eqb key k0) eqn:E.
    + apply String.eqb_eq in E. subst k0.
      rewrite (dict_get_None loaded key Hk0).
      apply dict_get_set_eq.
    + apply String.eqb_neq in E.
      now rewrite dict_get_set_ne by assumption.
Qed.

Lemma merge_keys loaded : forall default k,
  k ∈ map fst (_merge_configs default loaded)
  <-> k ∈ map fst default \/ k ∈ map fst loaded.
Proof.
  induction loaded as [|[k0 v0] loaded IH]; intros default k.
  - rewrite merge_nil. cbn [map]. rewrite elem_of_nil. tauto.
  - rewrite merge_cons, IH, keys_dict_set. cbn [map fst].
    rewrite elem_of_cons. tauto.
Qed.

Lemma unique_keys_get d key (v : value Leaf) :
  unique_keys (VDict d) -> dict_get d key = Some v -> unique_keys v.
Proof.
  intros [_ Hall]. induction d as [|[k v0] d IH]; cbn [dict_get]; [discriminate|].
  destruct Hall as [Hv0 Hall].
  destruct (String.eqb key k); [now intros [= <-]|now apply IH].
Qed.

Lemma get_path_leaf (x : value Leaf) keys :
  is_dict x = false -> keys <> [] -> get_path x keys = VNone.
Proof. destruct keys; [contradiction|]. now destruct x. Qed.

Lemma absent_get_path (v : value Leaf) keys :
  absent v keys -> get_path v keys = VNone.
Proof.
  revert v. induction keys as [|k keys IH]; intros v; cbn [absent get_path];
    [contradiction|].
  destruct v as [d| |x]; try contradiction.
  destruct (dict_get d k); [apply IH|reflexivity].
Qed.

Lemma absent_nonempty (v : value Leaf) keys : absent v keys -> keys <> [].
Proof. destruct keys; [contradiction|discriminate]. Qed.

(** A path that reaches a non-dict value of [loaded] reaches the same value
    in the merged configuration. *)
Lemma merge_path_loaded keys : forall default loaded,
  unique_keys (VDict loaded) ->
  keys <> [] ->
  is_dict (get_path (VDict loaded) keys) = false ->
  ~ absent (VDict loaded) keys ->
  get_path (VDict (_merge_configs default loaded)) keys
  = get_path (VDict loaded) keys.
Proof.
  induction keys as [|k keys IH]; intros default loaded Hu Hne Hleaf Hpresent;
    [contradiction|].
  cbn [get_path absent] in *.
  rewrite merge_lookup by apply Hu.
  destruct (dict_get loaded k) as [v|] eqn:Ev; [|now contradiction Hpresent].
  destruct (dict_get default k) as [[d| |x]|]; try reflexivity.
  destruct v as [l| |x]; try reflexivity.
  destruct keys as [|k' keys'] eqn:Ek; [discriminate Hleaf|].
  rewrite <- Ek in *.
  apply IH; try assumption.
  - eapply unique_keys_get; eassumption.
  - now rewrite Ek.
Qed.

(** A path that runs into a missing key of [loaded] reads the default. *)
Lemma merge_path_default keys : forall default loaded,
  unique_keys (VDict loaded) ->
  absent (VDict loaded) keys ->
  get_path (VDict (_merge_configs default loaded)) keys
  = get_path (VDict default) keys.
Proof.
  induction keys as [|k keys IH]; intros default loaded Hu Habs;
    [contradiction|].
  cbn [get_path absent] in *.
  rewrite merge_lookup by apply Hu.
  destruct (dict_get loaded k) as [v|] eqn:Ev; [|reflexivity].
  pose proof (absent_nonempty _ _ Habs) as Hne.
  pose proof (absent_get_path _ _ Habs) as Hnone.
  destruct v as [l| |x]; try contradiction.
  - destruct (dict_get default k) as [[d| |x]|].
    + apply IH; [eapply unique_keys_get; eassumption|assumption].
    + now rewrite Hnone, get_path_leaf.
    + now rewrite Hnone, get_path_leaf.
    + assumption.
  - now destruct keys.
  - now destruct keys.
Qed.
End Merge.

Lemma split_on_nonempty (c : Ascii.ascii) (s : string) : split_on c s <> [].
Proof.
  destruct s as [|a s]; cbn [split_on]; [discriminate|].
  destruct (Ascii.eqb a c); [discriminate|].
  destruct (split_on c s); discriminate.
Qed.

(** X24. Merging a loaded configuration into the defaults works key by key,
    whatever the order of the loaded items: a key the file does not name
    keeps its default, a key whose default and loaded values are both
    sections is merged recursively, and any other loaded value replaces the
    default.  The merged configuration has the keys of both. *)
Theorem merge_configs_is_keywise {Leaf : Type}
    (default loaded : list (string * ConfigManager.value Leaf)) (key : string) :
  NoDup (map fst loaded) ->
  ConfigManager.dict_get (ConfigManager._merge_configs default loaded) key
  = match ConfigManager.dict_get loaded key with
    | Some v =>
        Some (match ConfigManager.dict_get default key, v with
              | Some (ConfigManager.VDict d), ConfigManager.VDict l =>
                  ConfigManager.VDict (ConfigManager._merge_configs d l)
              | _, _ => v
              end)
    | None => ConfigManager.dict_get default key
    end
  /\ (key ∈ map fst (ConfigManager._merge_configs default loaded)
      <-> key ∈ map fst default \/ key ∈ map fst loaded).
Proof. intros Hnd. split; [now apply merge_lookup|apply merge_keys]. Qed.

(** X25. Reading a dotted path from the merged configuration: if the path
    reaches a value of the loaded file that is not a section, that value is
    read; if the path runs into a key the loaded file does not have, the
    default's value is read. *)
Theorem nested_value_after_merge {Leaf : Type}
    (default loaded : list (string * ConfigManager.value Leaf)) (path : string) :
  ConfigManager.unique_keys (ConfigManager.VDict loaded) ->
  let keys := split_on "." path in
  (ConfigManager.is_dict (ConfigManager._get_nested_value loaded path) = false ->
   ~ ConfigManager.absent (ConfigManager.VDict loaded) keys ->
   ConfigManager._get_nested_value
     (ConfigManager._merge_configs default loaded) path
   = ConfigManager._get_nested_value loaded path)
  /\ (ConfigManager.absent (ConfigManager.VDict loaded) keys ->
      ConfigManager._get_nested_value
        (ConfigManager._merge_configs default loaded) path
      = ConfigManager._get_nested_value default path).
Proof.
  intros Hu keys. unfold ConfigManager._get_nested_value. fold keys. split.
  - intros Hleaf Hpresent. apply merge_path_loaded; try assumption.
    apply split_on_nonempty.
  - now apply merge_path_default.
Qed.

(** ** Starting and stopping *)

Section Lifecycle.
Context {N : Num} {S : Sqrt N}.
Variable net : Network.
Import TrendMonitor.

Lemma stopped_loop (rounds : nat) (self : t) (tr : Trace) :
  is_monitoring self = false -> _monitoring_loop net rounds self tr = (self, tr).
Proof. intros H. destruct rounds; cbn [_monitoring_loop]; now rewrite ?H. Qed.

Lemma running_start (self : t) (tr : Trace) :
  is_monitoring self = true -> start_monitoring net self tr = (self, tr).
Proof. intros H. unfold start_monitoring. now rewrite H. Qed.

Lemma stop_then_start (self : t) (tr : Trace) :
  let '(self1, tr1) := MonitorOps.stop_monitoring self tr in
  is_monitoring self1 = false
  /\ tr1 = tr ++ [SystemAlert "INFO" "走势监测已停止"]
  /\ symbols self1 = symbols self
  /\ timeframes self1 = timeframes self
  /\ trend_history self1 = trend_history self
  /\ api self1 = api self
  /\ (forall rounds tr', _monitoring_loop net rounds self1 tr' = (self1, tr'))
  /\ let '(self2, tr2) := start_monitoring net self1 tr1 in
     is_monitoring self2 = true
     /\ trend_history self2 = trend_history self
     /\ scheduling tr2
        = scheduling tr1 ++ [ThreadStarted; SystemAlert "INFO" "走势监测已开始"]
     /\ start_monitoring net self2 tr2 = (self2, tr2).
Proof.
  unfold MonitorOps.stop_monitoring.
  set (self1 := mk _ _ _ _ _ false _).
  do 6 (split; [reflexivity|]).
  split; [intros rounds tr'; now apply stopped_loop|].
  rewrite (start_monitoring_always_starts net self1 _ eq_refl).
  split; [reflexivity|]. split; [reflexivity|]. split.
  - unfold HybridDataSource.test_connectivity, BinanceAPI.test_connectivity,
      AlternativeDataSource.test_connectivity. cbv zeta. cbn [snd].
    unfold scheduling. rewrite !List.filter_app.
    cbn [List.filter is_request is_trend_alert orb negb app].
    now rewrite !app_nil_r.
  - now apply running_start.
Qed.
End Lifecycle.

(** X26. [stop_monitoring] clears the running flag, sends one alert and
    keeps the symbols, timeframes, history and data source; the loop of a
    stopped monitor does nothing, however often its condition is tested.
    Starting it afterwards always succeeds, launching a thread and sending
    one alert after the connectivity probes, and a second start of the
    running monitor is ignored: no probe, no thread, no alert. *)
Theorem stop_ends_the_loop_and_start_resumes {N : Num} {S : Sqrt N}
    (net : Network) (self : TrendMonitor.t) (tr : Trace) :
  let '(self1, tr1) := MonitorOps.stop_monitoring self tr in
  TrendMonitor.is_monitoring self1 = false
  /\ tr1 = tr ++ [SystemAlert "INFO" "走势监测已停止"]
  /\ TrendMonitor.symbols self1 = TrendMonitor.symbols self
  /\ TrendMonitor.timeframes self1 = TrendMonitor.timeframes self
  /\ TrendMonitor.trend_history self1 = TrendMonitor.trend_history self
  /\ TrendMonitor.api self1 = TrendMonitor.api self
  /\ (forall rounds tr',
        TrendMonitor._monitoring_loop net rounds self1 tr' = (self1, tr'))
  /\ let '(self2, tr2) := TrendMonitor.start_monitoring net self1 tr1 in
     TrendMonitor.is_monitoring self2 = true
     /\ TrendMonitor.trend_history self2 = TrendMonitor.trend_history self
     /\ scheduling tr2
        = scheduling tr1 ++ [ThreadStarted; SystemAlert "INFO" "走势监测已开始"]
     /\ TrendMonitor.start_monitoring net self2 tr2 = (self2, tr2).
Proof. apply stop_then_start. Qed.

(** ** When a task succeeds *)

Section TaskSuccess.
Context {N : Num} {S : Sqrt N}.
Variable net : Network.
Import TrendMonitor.

Lemma analyze_trend_total (a : Self.TrendAnalyzer) (df : list Col.Row) :
  1 <= Self.trend_confirmation a -> df <> [] ->
  exists t analysis, analyze_trend a df = Return (t, analysis).
Proof.
  intros Hconf Hne.
  destruct (Nat.lt_ge_cases (length df) (required_length a)) as [Hshort|Hlong].
  - rewrite analyze_trend_short by assumption. eauto.
  - destruct (last df) as [latest|] eqn:Hlast;
      [|apply last_None in Hlast; contradiction].
    assert (0 < length df) as Hpos by (destruct df; [contradiction|simpl; lia]).
    destruct (lookup_lt_is_Some_2 df
                (length df - Nat.min (Self.trend_confirmation a) (length df)))
      as [first Hfirst]; [lia|].
    destruct (analyze_trend_long a df latest first Hlong Hconf Hlast Hfirst)
      as (t & Ht & _).
    eauto.
Qed.

Lemma task_succeeds_iff_fetched symbol timeframe (self : t) (tr : Trace) :
  1 <= Self.trend_confirmation (analyzer self) ->
  let '(df, api', tr1) :=
    HybridDataSource.get_klines net symbol timeframe 100 (api self) tr in
  let '(ok, self', tr') := _monitor_symbol_timeframe net symbol timeframe self tr in
  (ok = true <-> is_Some df)
  /\ (ok = true ->
      is_Some (trend_history self' !! pair_key symbol timeframe)).
Proof.
  intros Hconf.
  pose proof (task_frame net symbol timeframe self tr) as Hf.
  unfold _monitor_symbol_timeframe in *.
  destruct (HybridDataSource.get_klines net symbol timeframe 100 (api self) tr)
    as [[df api'] tr1] eqn:Eg.
  cbv zeta in *.
  destruct df as [[|c df]|].
  - exfalso. eapply (get_klines_nonempty net); [|exact Eg|reflexivity]. lia.
  - cbn [analyzer set_api] in *.
    set (rows := get_full_analysis (analyzer self) (c :: df)) in *.
    destruct (analyze_trend_total (analyzer self) rows Hconf)
      as (cur & analysis & E).
    { intros Hnil.
      pose proof (length_full_analysis (analyzer self) (c :: df)) as Hlen.
      fold rows in Hlen. rewrite Hnil in Hlen. discriminate. }
    rewrite E in *.
    destruct (detect_trend_change cur _) eqn:D.
    + destruct analysis as [r|s].
      * apply analyze_trend_reason in E. subst cur.
        now rewrite detect_to_unknown in D.
      * split; [split; eauto|]. apply Hf.
    + split; [split; eauto|]. apply Hf.
  - split; [|discriminate]. split; [discriminate|]. intros [? [=]].
Qed.
End TaskSuccess.

(** X27. With a confirmation window of at least one row, the analysis never
    raises on a fetched frame, so a task fails only when no frame arrives:
    it returns True exactly when the data source returned a frame, and then
    the pair has an entry in the trend history. *)
Theorem task_succeeds_exactly_when_a_frame_arrives {N : Num} {S : Sqrt N}
    (net : Network) (symbol timeframe : string)
    (self : TrendMonitor.t) (tr : Trace) :
  1 <= Self.trend_confirmation (TrendMonitor.analyzer self) ->
  let '(df, api', tr1) :=
    HybridDataSource.get_klines net symbol timeframe 100
      (TrendMonitor.api self) tr in
  let '(ok, self', tr') :=
    TrendMonitor._monitor_symbol_timeframe net symbol timeframe self tr in
  (ok = true <-> is_Some df)
  /\ (ok = true ->
      is_Some (TrendMonitor.trend_history self' !! pair_key symbol timeframe)).
Proof. apply task_succeeds_iff_fetched. Qed.

(* ===================================================================== *)
(** * The further properties on concrete scenarios *)
(* ===================================================================== *)

Lemma removing_last_symbol_fails_rounds_witness :
  let '(self1, tr1) :=
    MonitorOps.remove_symbol "BTCUSDT" Scenario.stopped [] in
  TrendMonitor.symbols self1 = []
  /\ forall tr', TrendMonitor._perform_monitoring_round Sample.net_down self1 tr'
                 = Raise ValueError.
Proof.
  apply (removing_last_symbol_fails_rounds Sample.net_down "BTCUSDT"
           Scenario.stopped []).
  reflexivity.
Defined.

Lemma short_history_is_recorded_as_unknown_witness :
  TrendMonitor._monitor_symbol_timeframe Sample.net_up "BTCUSDT" "1h"
    Scenario.degraded []
  = (true,
     TrendMonitor.set_trend_history
       (TrendMonitor.set_api Scenario.degraded (HybridDataSource.mk true))
       (<[pair_key "BTCUSDT" "1h" := UNKNOWN]> ∅),
     [Requested (CoinGeckoMarketChart "bitcoin" 1 true)]).
Proof.
  apply (short_history_is_recorded_as_unknown Sample.net_up "BTCUSDT" "1h"
           Scenario.degraded [] Scenario.fallback_frame).
  - vm_compute. reflexivity.
  - discriminate.
  - vm_compute. lia.
Defined.

Lemma round_with_pairs_never_raises_witness :
  exists self' tr',
    TrendMonitor._perform_monitoring_round Sample.net_down Scenario.running []
    = Return (self', tr')
    /\ scheduling tr' = scheduling [].
Proof.
  destruct (round_with_pairs_never_raises Sample.net_down Scenario.running [])
    as (self' & tr' & c & e & _ & Hr & _ & _ & _ & _ & Hs & _).
  - discriminate.
  - discriminate.
  - exists self', tr'. split; assumption.
Defined.

Lemma loop_with_pairs_never_backs_off_witness :
  let '(self', tr') :=
    TrendMonitor._monitoring_loop Sample.net_down 2 Scenario.running [] in
  TrendMonitor.symbols self' = TrendMonitor.symbols Scenario.running
  /\ TrendMonitor.timeframes self' = TrendMonitor.timeframes Scenario.running
  /\ TrendMonitor.is_monitoring self' = true
  /\ scheduling tr' = scheduling [] ++ repeat (Sleep UntilNextRound) 2.
Proof.
  apply (loop_with_pairs_never_backs_off Sample.net_down 2 Scenario.running []).
  - discriminate.
  - discriminate.
  - reflexivity.
Defined.

Lemma degraded_monitor_never_calls_primary_witness :
  let '(self', tr') :=
    TrendMonitor._monitoring_loop Sample.net_up 2 Scenario.degraded [] in
  TrendMonitor.api self' = TrendMonitor.api Scenario.degraded
  /\ primary_calls tr' = primary_calls [].
Proof.
  apply (degraded_monitor_never_calls_primary Sample.net_up 2
           Scenario.degraded []).
  reflexivity.
Defined.

Lemma tracked_keys_well_formed : keys_well_formed Scenario.tracked.
Proof.
  intros k t H. cbn in H.
  apply lookup_insert_Some in H as [[<- _]|[_ H]].
  - exists "BTCUSDT"%string, "1h"%string. now repeat split.
  - now rewrite lookup_empty in H.
Defined.

Lemma status_reports_every_recorded_pair_witness :
  exists st,
    MonitorOps.get_current_status tt Scenario.tracked = Return st
    /\ (MonitorOps.trend_summary st !! "BTCUSDT"%string
          ≫= fun m => m !! "1h"%string)
       = Some "上涨"%string.
Proof.
  destruct (status_reports_every_recorded_pair tt Scenario.tracked
              tracked_keys_well_formed) as (st & Hst & _ & _ & Hsum).
  exists st. split; [exact Hst|].
  rewrite (Hsum "BTCUSDT"%string "1h"%string eq_refl eq_refl).
  reflexivity.
Defined.

Lemma status_raises_on_odd_key_witness :
  MonitorOps.get_current_status tt Scenario.odd_key = Raise ValueError.
Proof.
  apply (status_raises_on_odd_key tt Scenario.odd_key "BTC_USDT_1h" UPTREND).
  - apply lookup_insert_eq.
  - intros s tf. vm_compute. discriminate.
Defined.

Lemma dogecoin_unsupported : "DOGEUSDT"%string ∉ get_supported_symbols.
Proof.
  unfold get_supported_symbols. intros Hin.
  apply list_elem_of_fmap in Hin as ([k c] & Hk & Hin).
  apply elem_of_map_to_list in Hin. cbn [fst] in Hk. subst k.
  vm_compute in Hin. discriminate.
Defined.

Lemma unsupported_symbol_sends_no_request_witness :
  AlternativeDataSource.get_klines_alternative Sample.net_up "DOGEUSDT" "1h" 100 []
  = (None, []).
Proof.
  apply (proj1 (proj2 (proj2
           (unsupported_symbol_sends_no_request Sample.net_up "DOGEUSDT"
              dogecoin_unsupported)))).
Defined.

Lemma fallback_frame_is_the_chart_tail_witness :
  exists coin_id days hourly data,
    coingecko_market_chart Sample.net_up [] coin_id days hourly = Return data
    /\ [@Requested binary64 (CoinGeckoMarketChart "bitcoin" 1 true)]
       = [] ++ [Requested (CoinGeckoMarketChart coin_id days hourly)]
    /\ prices data <> []
    /\ length Scenario.fallback_frame = Nat.min 100 (length (prices data))
    /\ forall k, k < length Scenario.fallback_frame ->
         Scenario.fallback_frame !! k
         = AlternativeDataSource.candle_of_price (total_volumes data)
             (length (prices data) - length Scenario.fallback_frame + k)
           <$> prices data
               !! (length (prices data) - length Scenario.fallback_frame + k).
Proof.
  apply (fallback_frame_is_the_chart_tail Sample.net_up "BTCUSDT" "1h" 100 []
           [Requested (CoinGeckoMarketChart "bitcoin" 1 true)]
           Scenario.fallback_frame).
  vm_compute. reflexivity.
Defined.

Lemma healthy_primary_is_never_left_witness :
  let '(rs, self', tr') :=
    HybridDataSource.calls Sample.net_up
      [HybridDataSource.GetKlines "BTCUSDT" "1h" 100;
       HybridDataSource.GetTickerPrice "BTCUSDT"]
      HybridDataSource.init [] in
  HybridDataSource.use_alternative self' = false
  /\ length (primary_calls tr') = length (primary_calls []) + 2.
Proof.
  apply (healthy_primary_is_never_left Sample.net_up
           [HybridDataSource.GetKlines "BTCUSDT" "1h" 100;
            HybridDataSource.GetTickerPrice "BTCUSDT"]
           HybridDataSource.init []).
  - intros tr symbol interval limit e. discriminate.
  - intros tr symbol e. discriminate.
  - reflexivity.
Defined.





Lemma status_succeeds_after_any_rounds_witness :
  let self' :=
    fst (TrendMonitor._monitoring_loop Sample.net_down 2 Scenario.running []) in
  keys_well_formed self'
  /\ exists st, MonitorOps.get_current_status tt self' = Return st.
Proof.
  apply (status_succeeds_after_any_rounds Sample.net_down 2 tt
           Scenario.running []).
  - repeat constructor.
  - repeat constructor.
  - intros k t H. cbn in H. now rewrite lookup_empty in H.
Defined.

Lemma merge_configs_is_keywise_witness :
  ConfigManager.dict_get
    (ConfigManager._merge_configs Scenario.default_config Scenario.loaded_config)
    "monitoring_interval"
  = Some (ConfigManager.VLeaf 60%Z).
Proof.
  rewrite (proj1 (merge_configs_is_keywise Scenario.default_config
                    Scenario.loaded_config "monitoring_interval"
                    (NoDup_singleton _))).
  reflexivity.
Defined.

Lemma loaded_config_unique_keys :
  ConfigManager.unique_keys (ConfigManager.VDict Scenario.loaded_config).
Proof.
  cbn. repeat split; apply NoDup_singleton.
Defined.

Lemma nested_value_after_merge_witness :
  ConfigManager._get_nested_value
    (ConfigManager._merge_configs Scenario.default_config Scenario.loaded_config)
    "analysis.rsi.period"
  = ConfigManager.VLeaf 21%Z
  /\ ConfigManager._get_nested_value
       (ConfigManager._merge_configs Scenario.default_config
          Scenario.loaded_config)
       "analysis.rsi.overbought"
     = ConfigManager.VLeaf 70%Z.
Proof.
  split.
  - rewrite (proj1 (nested_value_after_merge Scenario.default_config
                      Scenario.loaded_config "analysis.rsi.period"
                      loaded_config_unique_keys)).
    + reflexivity.
    + reflexivity.
    + vm_compute. tauto.
  - rewrite (proj2 (nested_value_after_merge Scenario.default_config
                      Scenario.loaded_config "analysis.rsi.overbought"
                      loaded_config_unique_keys)).
    + reflexivity.
    + vm_compute. exact I.
Defined.

Lemma task_succeeds_exactly_when_a_frame_arrives_witness :
  let '(df, api', tr1) :=
    HybridDataSource.get_klines Sample.net_up "BTCUSDT" "1h" 100
      (TrendMonitor.api Scenario.degraded) [] in
  let '(ok, self', tr') :=
    TrendMonitor._monitor_symbol_timeframe Sample.net_up "BTCUSDT" "1h"
      Scenario.degraded [] in
  (ok = true <-> is_Some df)
  /\ (ok = true ->
      is_Some (TrendMonitor.trend_history self' !! pair_key "BTCUSDT" "1h")).
Proof.
  apply (task_succeeds_exactly_when_a_frame_arrives Sample.net_up
           "BTCUSDT" "1h" Scenario.degraded []).
  vm_compute. lia.
Defined.
